(** * Registro de Lecturas: the persistence layer and its coordinator

    A shallow embedding of [modelo.py] (DatabaseManager, LibroModel,
    UsuarioModel, InformeModel), of the actions of [controlador.py]
    (MainController: adding, editing, deleting and filtering books, the
    export, the profile) and of what they use of [vista.py] (the form, the
    table and its filters), followed by the properties of the
    specification that were checked against them and by further properties
    of the code.

    Conventions of the embedding:
    - a Python object is a [pyobj], one of None, a bool, an int, a float,
      a str, a list or a dict; a dict is an association list in insertion
      order, looked up by string key;
    - a Python exception is a constructor of [exn], and a call that may
      raise returns a [result];
    - an SQLite cell is a [value] (one of the storage classes NULL, INTEGER,
      REAL, TEXT); a table is the list of its rows in scan order together
      with the AUTOINCREMENT counter of [sqlite_sequence], and an INSERT
      fails once the counter has reached the largest rowid;
    - REAL numbers and Python floats are exact rationals: ordering and
      equality are those of the numbers, rounding is not modelled;
    - a character of a [string] stands for one code point below 256;
    - the readings of the clock ([datetime.now()], [CURRENT_TIMESTAMP]) are
      an explicit argument of every operation that takes one;
    - the window is a [view] and the form of a new book a [form], passed
      in and out of the actions that change them; the answers of the user
      (the selected id, the confirmation, the path of the save dialog) are
      arguments. *)

From Stdlib Require Import ZArith QArith List String Ascii Bool Lia.
From Stdlib Require Import Permutation Sorted DecimalString OrderedTypeEx.
From Stdlib Require DecimalFacts DecimalPos DecimalZ.
Import ListNotations.

Set Warnings "-register-all".

Local Open Scope string_scope.
Local Open Scope Z_scope.
Local Open Scope list_scope.

(* ------------------------------------------------------------------ *)
(** ** Exceptions and results *)

Inductive exn : Type :=
| KeyError (key : string)      (* d[key] on a missing key *)
| ValueError                   (* int() or json.loads of malformed text *)
| TypeError                    (* int() of a container, json.dumps of a bad key *)
| OverflowError                (* a Python int that does not fit SQLite's INTEGER *)
| ProgrammingError             (* sqlite3: a parameter of an unsupported type *)
| IntegrityError               (* sqlite3: NOT NULL constraint failed *)
| OperationalError             (* sqlite3: database or disk is full *)
| IndexError.                  (* seq[0] on an empty sequence *)

Inductive result (A : Type) : Type :=
| Ok (a : A)
| Raise (e : exn).
Arguments Ok {A} a.
Arguments Raise {A} e.

Definition bind {A B : Type} (r : result A) (k : A -> result B) : result B :=
  match r with
  | Ok a => k a
  | Raise e => Raise e
  end.

Notation "x <- r ;; k" := (bind r (fun x => k))
  (at level 61, r at next level, right associativity).

Fixpoint mapM {A B : Type} (f : A -> result B) (l : list A) : result (list B) :=
  match l with
  | [] => Ok []
  | a :: l' => b <- f a ;; bs <- mapM f l' ;; Ok (b :: bs)
  end.

(* ------------------------------------------------------------------ *)
(** ** Python objects *)

(** The objects the program handles: what its forms, [json.loads] and
    sqlite3 hand it, and the containers it builds of them.  Bytes, dates and
    the instances of any other class are not among them: the program makes
    none, and a statement about every [pyobj] says nothing of them. *)
Inductive pyobj : Type :=
| PNone
| PBool (b : bool)
| PInt (z : Z)
| PFloat (q : Q)
| PStr (s : string)
| PList (l : list pyobj)
| PDict (d : list (pyobj * pyobj)).

(** A dict, in insertion order.  The code only ever indexes its dicts with
    string literals, which are equal to [PStr] keys and to nothing else. *)
Definition pydict : Type := list (pyobj * pyobj).

Definition key_is (k : string) (o : pyobj) : bool :=
  match o with
  | PStr s => String.eqb s k
  | _ => false
  end.

(** [d.get(k)], as an option. *)
Fixpoint lookup (k : string) (d : pydict) : option pyobj :=
  match d with
  | [] => None
  | (k', v) :: d' => if key_is k k' then Some v else lookup k d'
  end.

(** [d[k]] *)
Definition getitem (k : string) (d : pydict) : result pyobj :=
  match lookup k d with
  | Some v => Ok v
  | None => Raise (KeyError k)
  end.

(** [d.get(k, default)] *)
Definition get (k : string) (default : pyobj) (d : pydict) : pyobj :=
  match lookup k d with
  | Some v => v
  | None => default
  end.

(** [d[k] = v]: in place when the key is there, at the end otherwise. *)
Fixpoint setitem (k : string) (v : pyobj) (d : pydict) : pydict :=
  match d with
  | [] => [(PStr k, v)]
  | (k', v') :: d' =>
      if key_is k k' then (k', v) :: d' else (k', v') :: setitem k v d'
  end.

(** Truth value of an object, as [if x:] and [not x] take it. *)
Definition truthy (o : pyobj) : bool :=
  match o with
  | PNone => false
  | PBool b => b
  | PInt z => negb (z =? 0)
  | PFloat q => negb (Qeq_bool q 0)
  | PStr s => negb (String.eqb s "")
  | PList l => match l with [] => false | _ => true end
  | PDict d => match d with [] => false | _ => true end
  end.

(* ------------------------------------------------------------------ *)
(** ** Integers as text *)

(** Decimal text of an integer: ["0"], ["42"], ["-7"]. *)
Definition decimal (z : Z) : string := NilZero.string_of_int (Z.to_int z).

(** [sys.int_info.default_max_str_digits]: an int of more digits has no
    str, and a str of more digits has no int; both raise ValueError. *)
Definition max_str_digits : nat := 4300.

(** [str(z)] for an int [z]. *)
Definition int_str (z : Z) : result string :=
  if Z.abs z <? 10 ^ Z.of_nat max_str_digits then Ok (decimal z)
  else Raise ValueError.

Definition is_digit (c : ascii) : bool :=
  let n := nat_of_ascii c in (Nat.leb 48 n && Nat.leb n 57)%bool.

Definition digit_value (c : ascii) : Z := Z.of_nat (nat_of_ascii c - 48).

(** White space that [int()] strips, among the code points below 256. *)
Definition is_space (c : ascii) : bool :=
  let n := nat_of_ascii c in
  ((Nat.leb 9 n && Nat.leb n 13) || (Nat.leb 28 n && Nat.leb n 32)
   || Nat.eqb n 133 || Nat.eqb n 160)%bool.

Fixpoint lstrip (s : string) : string :=
  match s with
  | String c s' => if is_space c then lstrip s' else s
  | EmptyString => EmptyString
  end.

Fixpoint all_space (s : string) : bool :=
  match s with
  | String c s' => is_space c && all_space s'
  | EmptyString => true
  end.

(** Digits of an integer literal: one or more digits, single underscores
    allowed between two digits; what follows must be white space.  [acc] is
    the value read so far, [n] the number of digits read, [prev] whether the
    previous character was a digit. *)
Fixpoint int_digits (s : string) (acc : Z) (n : nat) (prev : bool) : option (Z * nat) :=
  match s with
  | EmptyString => if prev then Some (acc, n) else None
  | String c s' =>
      if is_digit c then int_digits s' (10 * acc + digit_value c) (S n) true
      else if Ascii.eqb c "_" then
        (if prev then int_digits s' acc n false else None)
      else if (prev && is_space c && all_space s')%bool then Some (acc, n)
      else None
  end.

(** [int(s)] for a str [s], base 10. *)
Definition int_of_text (s : string) : result Z :=
  let body (neg : bool) (t : string) :=
    match int_digits t 0 0%nat false with
    | Some (z, n) =>
        if Nat.leb n max_str_digits then Ok (if neg then - z else z)
        else Raise ValueError
    | None => Raise ValueError
    end in
  match lstrip s with
  | String "-" t => body true t
  | String "+" t => body false t
  | t => body false t
  end.

(** A Python float truncated towards zero. *)
Definition trunc (q : Q) : Z := Z.quot (Qnum q) (Z.pos (Qden q)).

(** [int(x)] *)
Definition py_int (o : pyobj) : result Z :=
  match o with
  | PInt z => Ok z
  | PBool b => Ok (if b then 1 else 0)
  | PFloat q => Ok (trunc q)
  | PStr s => int_of_text s
  | PNone | PList _ | PDict _ => Raise TypeError
  end.

(* ------------------------------------------------------------------ *)
(** ** SQLite values *)

(** The storage classes the program can produce (it never binds bytes). *)
Inductive value : Type :=
| VNull
| VInt (z : Z)
| VReal (q : Q)
| VText (s : string).

(** Column affinities of the two tables: INTEGER for [INTEGER] columns,
    REAL for [REAL], TEXT for [TEXT], NUMERIC for [DATE] and [TIMESTAMP]. *)
Inductive affinity : Type := AffInteger | AffReal | AffNumeric | AffText.

(** What the model leaves to Python and to SQLite: the text forms of
    floating-point numbers and of containers, and the reading of numbers
    out of text.  Every definition below takes them as given; every theorem
    holds whatever they are. *)
Class Primitives : Type := {
  (** Python: [repr(x)] of a float *)
  float_repr : Q -> string;
  (** Python: [repr(x)] of a list or a dict *)
  container_repr : pyobj -> result string;
  (** Python: [float(s)] of a JSON number with a fraction or an exponent *)
  float_of_literal : string -> Q;
  (** SQLite: a REAL rendered as TEXT *)
  real_text : Q -> string;
  (** SQLite: the number denoted by a TEXT that is a well-formed integer or
      real literal, [None] for any other TEXT *)
  text_numeric : string -> option Q;
  (** SQLite: the number a TEXT counts for in arithmetic (its longest
      numeric prefix, 0 when there is none) *)
  text_real : string -> Q
}.

Definition int64_min : Z := - 2 ^ 63.
Definition int64_max : Z := 2 ^ 63 - 1.
Definition is_int64 (z : Z) : bool := (int64_min <=? z) && (z <=? int64_max).

Definition integral (q : Q) : bool := Z.rem (Qnum q) (Z.pos (Qden q)) =? 0.

(** A number stored in a column of numeric affinity: INTEGER when it is a
    whole number that fits 64 bits, REAL otherwise. *)
Definition store_number (q : Q) : value :=
  if integral q && is_int64 (trunc q) then VInt (trunc q) else VReal q.

Section Engine.
Context {prims : Primitives}.

(** [str(x)], as f-strings and the csv writer take it. *)
Definition py_str (o : pyobj) : result string :=
  match o with
  | PStr s => Ok s
  | PNone => Ok "None"
  | PBool b => Ok (if b then "True" else "False")
  | PInt z => int_str z
  | PFloat q => Ok (float_repr q)
  | PList _ | PDict _ => container_repr o
  end.

(** The sqlite3 module binding a Python object to a [?] placeholder.
    (It also binds bytes, as a BLOB, and dates, through its adapters;
    neither is a [pyobj].) *)
Definition bind_param (o : pyobj) : result value :=
  match o with
  | PNone => Ok VNull
  | PBool b => Ok (VInt (if b then 1 else 0))
  | PInt z => if is_int64 z then Ok (VInt z) else Raise OverflowError
  | PFloat q => Ok (VReal q)
  | PStr s => Ok (VText s)
  | PList _ | PDict _ => Raise ProgrammingError
  end.

(** The sqlite3 module handing a cell back to Python. *)
Definition fetch (v : value) : pyobj :=
  match v with
  | VNull => PNone
  | VInt z => PInt z
  | VReal q => PFloat q
  | VText s => PStr s
  end.

(** NUMERIC affinity applied to a value. *)
Definition numeric (v : value) : value :=
  match v with
  | VText s =>
      match text_numeric s with
      | Some q => store_number q
      | None => VText s
      end
  | VReal q => store_number q
  | VInt _ | VNull => v
  end.

(** The conversion a column of affinity [a] applies to a value stored in it. *)
Definition cast (a : affinity) (v : value) : value :=
  match a with
  | AffInteger | AffNumeric => numeric v
  | AffReal =>
      match numeric v with
      | VInt z => VReal (inject_Z z)
      | v' => v'
      end
  | AffText =>
      match v with
      | VInt z => VText (decimal z)
      | VReal q => VText (real_text q)
      | VText _ | VNull => v
      end
  end.

(** The conversion applied to a bound parameter compared with a column of
    affinity [a]: TEXT affinity against a TEXT column, NUMERIC affinity
    against the others. *)
Definition operand (a : affinity) (v : value) : value :=
  match a with
  | AffText => cast AffText v
  | AffInteger | AffReal | AffNumeric => numeric v
  end.

(** The order of values: NULL first, then numbers by value, then text by
    code (BINARY collation). *)
Definition compare_values (a b : value) : comparison :=
  match a, b with
  | VNull, VNull => Eq
  | VNull, _ => Lt
  | _, VNull => Gt
  | VInt x, VInt y => Z.compare x y
  | VInt x, VReal y => Qcompare (inject_Z x) y
  | VReal x, VInt y => Qcompare x (inject_Z y)
  | VReal x, VReal y => Qcompare x y
  | VText s, VText t => String.compare s t
  | VText _, _ => Gt
  | _, VText _ => Lt
  end.

Definition is_null (v : value) : bool :=
  match v with VNull => true | _ => false end.

(** [a = b], [a >= b] and [a <= b] in a WHERE clause: a comparison with
    NULL is NULL, which does not select the row. *)
Definition sql_eq (a b : value) : bool :=
  negb (is_null a) && negb (is_null b) &&
  match compare_values a b with Eq => true | _ => false end.

Definition sql_ge (a b : value) : bool :=
  negb (is_null a) && negb (is_null b) &&
  match compare_values a b with Lt => false | _ => true end.

Definition sql_le (a b : value) : bool :=
  negb (is_null a) && negb (is_null b) &&
  match compare_values a b with Gt => false | _ => true end.

(** LIKE folds the 26 ASCII letters only. *)
Definition fold_case (c : ascii) : ascii :=
  let n := nat_of_ascii c in
  if (Nat.leb 65 n && Nat.leb n 90)%bool then ascii_of_nat (n + 32) else c.

(** [s LIKE pat]: [%] stands for any run of characters, [_] for any one
    character, any other character for itself up to case. *)
Fixpoint like (pat : string) : string -> bool :=
  match pat with
  | EmptyString =>
      fun s => match s with EmptyString => true | String _ _ => false end
  | String p pat' =>
      if Ascii.eqb p "%" then
        fix any_run (s : string) : bool :=
          like pat' s ||
          match s with
          | EmptyString => false
          | String _ s' => any_run s'
          end
      else if Ascii.eqb p "_" then
        fun s => match s with EmptyString => false | String _ s' => like pat' s' end
      else
        fun s =>
          match s with
          | EmptyString => false
          | String c s' => Ascii.eqb (fold_case p) (fold_case c) && like pat' s'
          end
  end.

Definition as_text (v : value) : option string :=
  match v with
  | VNull => None
  | VInt z => Some (decimal z)
  | VReal q => Some (real_text q)
  | VText s => Some s
  end.

(** [v LIKE pat] on cells: NULL on either side selects nothing. *)
Definition sql_like (v pat : value) : bool :=
  match as_text v, as_text pat with
  | Some s, Some p => like p s
  | _, _ => false
  end.

End Engine.

Arguments cast : simpl never.

(* ------------------------------------------------------------------ *)
(** ** Sorting, as ORDER BY does it *)

(** Insertion sort by a boolean order [le]; rows that [le] does not tell
    apart are kept in scan order. *)
Fixpoint insert_by {A : Type} (le : A -> A -> bool) (x : A) (l : list A) : list A :=
  match l with
  | [] => [x]
  | y :: l' => if le x y then x :: l else y :: insert_by le x l'
  end.

Fixpoint sort_by {A : Type} (le : A -> A -> bool) (l : list A) : list A :=
  match l with
  | [] => []
  | x :: l' => insert_by le x (sort_by le l')
  end.

(* ------------------------------------------------------------------ *)
(** ** The json module *)

Definition CR : ascii := ascii_of_nat 13.
Definition LF : ascii := ascii_of_nat 10.
Definition TAB : ascii := ascii_of_nat 9.
Definition BS : ascii := ascii_of_nat 8.
Definition FF : ascii := ascii_of_nat 12.
Definition dquote : ascii := ascii_of_nat 34.
Definition backslash : ascii := ascii_of_nat 92.

Definition hex_digit (n : nat) : ascii :=
  if Nat.ltb n 10 then ascii_of_nat (48 + n) else ascii_of_nat (87 + n).

(** One character inside a JSON string, as [ensure_ascii] writes it. *)
Definition escape_char (c : ascii) : string :=
  let n := nat_of_ascii c in
  if Ascii.eqb c dquote then String backslash (String dquote EmptyString)
  else if Ascii.eqb c backslash then String backslash (String backslash EmptyString)
  else if Ascii.eqb c LF then String backslash "n"
  else if Ascii.eqb c CR then String backslash "r"
  else if Ascii.eqb c TAB then String backslash "t"
  else if Ascii.eqb c BS then String backslash "b"
  else if Ascii.eqb c FF then String backslash "f"
  else if (Nat.ltb n 32 || Nat.ltb 126 n)%bool then
    String backslash
      (String "u" (String "0" (String "0"
         (String (hex_digit (n / 16)) (String (hex_digit (n mod 16)) EmptyString)))))
  else String c EmptyString.

Fixpoint escape (s : string) : string :=
  match s with
  | EmptyString => EmptyString
  | String c s' => (escape_char c ++ escape s')%string
  end.

(** A str as a JSON string. *)
Definition json_string (s : string) : string :=
  String dquote (escape s ++ String dquote EmptyString).

Section Json.
Context {prims : Primitives}.

(** The text of a dict key: str, int, float, bool and None are accepted,
    anything else is a TypeError. *)
Definition key_text (k : pyobj) : result string :=
  match k with
  | PStr s => Ok s
  | PNone => Ok "null"
  | PBool b => Ok (if b then "true" else "false")
  | PInt z => int_str z
  | PFloat q => Ok (float_repr q)
  | PList _ | PDict _ => Raise TypeError
  end.

(** [json.dumps(o)] *)
Fixpoint dumps (o : pyobj) : result string :=
  match o with
  | PNone => Ok "null"
  | PBool b => Ok (if b then "true" else "false")
  | PInt z => int_str z
  | PFloat q => Ok (float_repr q)
  | PStr s => Ok (json_string s)
  | PList l =>
      texts <-
        (fix each (l : list pyobj) : result (list string) :=
           match l with
           | [] => Ok []
           | x :: l' => t <- dumps x ;; ts <- each l' ;; Ok (t :: ts)
           end) l ;;
      Ok ("[" ++ String.concat ", " texts ++ "]")%string
  | PDict d =>
      texts <-
        (fix each (d : list (pyobj * pyobj)) : result (list string) :=
           match d with
           | [] => Ok []
           | (k, v) :: d' =>
               kt <- key_text k ;;
               vt <- dumps v ;;
               ts <- each d' ;;
               Ok ((json_string kt ++ ": " ++ vt)%string :: ts)
           end) d ;;
      Ok ("{" ++ String.concat ", " texts ++ "}")%string
  end.

Definition is_ws (c : ascii) : bool :=
  Ascii.eqb c " " || Ascii.eqb c TAB || Ascii.eqb c LF || Ascii.eqb c CR.

Fixpoint skip_ws (s : string) : string :=
  match s with
  | String c s' => if is_ws c then skip_ws s' else s
  | EmptyString => EmptyString
  end.

Definition hex_value (c : ascii) : option nat :=
  let n := nat_of_ascii c in
  if (Nat.leb 48 n && Nat.leb n 57)%bool then Some (n - 48)%nat
  else if (Nat.leb 97 n && Nat.leb n 102)%bool then Some (n - 87)%nat
  else if (Nat.leb 65 n && Nat.leb n 70)%bool then Some (n - 55)%nat
  else None.

Definition hex4 (a b c d : ascii) : option nat :=
  match hex_value a, hex_value b, hex_value c, hex_value d with
  | Some x, Some y, Some z, Some w => Some (((x * 16 + y) * 16 + z) * 16 + w)%nat
  | _, _, _, _ => None
  end.

(** The character a one-letter escape stands for. *)
Definition unescape (e : ascii) : option ascii :=
  if Ascii.eqb e dquote then Some dquote
  else if Ascii.eqb e backslash then Some backslash
  else if Ascii.eqb e "/" then Some "/"%char
  else if Ascii.eqb e "b" then Some BS
  else if Ascii.eqb e "f" then Some FF
  else if Ascii.eqb e "n" then Some LF
  else if Ascii.eqb e "r" then Some CR
  else if Ascii.eqb e "t" then Some TAB
  else None.

Definition cons_char (c : ascii) (r : option (string * string)) : option (string * string) :=
  match r with
  | Some (str, rest) => Some (String c str, rest)
  | None => None
  end.

(** The content of a JSON string whose opening quote has been read, and
    the text after its closing quote.  An escape of a code point past 255
    has no character in the model and is not read. *)
Fixpoint scan_string (s : string) : option (string * string) :=
  match s with
  | EmptyString => None
  | String c s' =>
      if Ascii.eqb c dquote then Some (EmptyString, s')
      else if Ascii.eqb c backslash then
        match s' with
        | String e s'' =>
            if Ascii.eqb e "u" then
              match s'' with
              | String h1 (String h2 (String h3 (String h4 s3))) =>
                  match hex4 h1 h2 h3 h4 with
                  | Some n =>
                      if Nat.ltb n 256 then cons_char (ascii_of_nat n) (scan_string s3)
                      else None
                  | None => None
                  end
              | _ => None
              end
            else
              match unescape e with
              | Some c' => cons_char c' (scan_string s'')
              | None => None
              end
        | EmptyString => None
        end
      else if Nat.ltb (nat_of_ascii c) 32 then None
      else cons_char c (scan_string s')
  end.

Fixpoint span_digits (s : string) : string * string :=
  match s with
  | String c s' =>
      if is_digit c then (String c (fst (span_digits s')), snd (span_digits s'))
      else (EmptyString, s)
  | EmptyString => (EmptyString, EmptyString)
  end.

(** The integer part of a number: [0], or a digit from 1 to 9 and the
    digits after it. *)
Definition scan_integer (s : string) : option (string * string) :=
  match s with
  | String c s' =>
      if Ascii.eqb c "0" then Some ("0", s')
      else if is_digit c then
        Some (String c (fst (span_digits s')), snd (span_digits s'))
      else None
  | EmptyString => None
  end.

(** The fraction of a number, if it has one: a dot and one digit or more. *)
Definition scan_frac (s : string) : string * string :=
  match s with
  | String c s' =>
      if Ascii.eqb c "." then
        match span_digits s' with
        | (EmptyString, _) => (EmptyString, s)
        | (ds, rest) => (String c ds, rest)
        end
      else (EmptyString, s)
  | EmptyString => (EmptyString, s)
  end.

(** The exponent of a number, if it has one: [e] or [E], a sign or none,
    one digit or more. *)
Definition scan_exp (s : string) : string * string :=
  match s with
  | String e s' =>
      if (Ascii.eqb e "e" || Ascii.eqb e "E")%bool then
        let signed :=
          match s' with
          | String g s'' =>
              if (Ascii.eqb g "-" || Ascii.eqb g "+")%bool
              then (String g EmptyString, s'') else (EmptyString, s')
          | EmptyString => (EmptyString, s')
          end in
        match span_digits (snd signed) with
        | (EmptyString, _) => (EmptyString, s)
        | (ds, rest) => (String e (fst signed ++ ds), rest)
        end
      else (EmptyString, s)
  | EmptyString => (EmptyString, s)
  end.

(** A number: an int when it has neither fraction nor exponent, a float
    otherwise. *)
Definition scan_number (s : string) : option (result pyobj * string) :=
  let signed :=
    match s with
    | String c s' => if Ascii.eqb c "-" then (String c EmptyString, s') else (EmptyString, s)
    | EmptyString => (EmptyString, s)
    end in
  match scan_integer (snd signed) with
  | None => None
  | Some (int, s2) =>
      let (frac, s3) := scan_frac s2 in
      let (exp, s4) := scan_exp s3 in
      match frac, exp with
      | EmptyString, EmptyString =>
          Some (z <- int_of_text (fst signed ++ int) ;; Ok (PInt z), s4)
      | _, _ =>
          Some (Ok (PFloat (float_of_literal (fst signed ++ int ++ frac ++ exp))), s4)
      end
  end.

Fixpoint drop (n : nat) (s : string) : string :=
  match n, s with
  | S n', String _ s' => drop n' s'
  | _, _ => s
  end.

(** [dict(pairs)]: a key met again keeps its place and takes the new
    value. *)
Definition dict_of_pairs (pairs : list (string * pyobj)) : pydict :=
  fold_left (fun d kv => setitem (fst kv) (snd kv) d) pairs [].

(** The decoder: one value at the head of [s], and the text after it.
    [fuel] bounds the number of values read.  NaN and the infinities,
    which the floats of the model do not include, are not read. *)
Fixpoint scan_once (fuel : nat) (s : string) : result (pyobj * string) :=
  match fuel with
  | O => Raise ValueError
  | S fuel' =>
      match s with
      | EmptyString => Raise ValueError
      | String c s' =>
          if Ascii.eqb c dquote then
            match scan_string s' with
            | Some (str, rest) => Ok (PStr str, rest)
            | None => Raise ValueError
            end
          else if Ascii.eqb c "{" then
            match skip_ws s' with
            | String "}" rest => Ok (PDict [], rest)
            | s1 =>
                pr <- scan_members fuel' s1 ;;
                Ok (PDict (dict_of_pairs (fst pr)), snd pr)
            end
          else if Ascii.eqb c "[" then
            match skip_ws s' with
            | String "]" rest => Ok (PList [], rest)
            | s1 =>
                lr <- scan_items fuel' s1 ;;
                Ok (PList (fst lr), snd lr)
            end
          else if String.prefix "null" s then Ok (PNone, drop 4 s)
          else if String.prefix "true" s then Ok (PBool true, drop 4 s)
          else if String.prefix "false" s then Ok (PBool false, drop 5 s)
          else
            match scan_number s with
            | Some (r, rest) => o <- r ;; Ok (o, rest)
            | None => Raise ValueError
            end
      end
  end

with scan_items (fuel : nat) (s : string) : result (list pyobj * string) :=
  match fuel with
  | O => Raise ValueError
  | S fuel' =>
      vr <- scan_once fuel' s ;;
      match skip_ws (snd vr) with
      | String "]" rest => Ok ([fst vr], rest)
      | String "," rest =>
          lr <- scan_items fuel' (skip_ws rest) ;;
          Ok (fst vr :: fst lr, snd lr)
      | _ => Raise ValueError
      end
  end

with scan_members (fuel : nat) (s : string)
  : result (list (string * pyobj) * string) :=
  match fuel with
  | O => Raise ValueError
  | S fuel' =>
      match s with
      | String c s' =>
          if Ascii.eqb c dquote then
            match scan_string s' with
            | Some (key, r) =>
                match skip_ws r with
                | String ":" r1 =>
                    vr <- scan_once fuel' (skip_ws r1) ;;
                    match skip_ws (snd vr) with
                    | String "}" rest => Ok ([(key, fst vr)], rest)
                    | String "," rest =>
                        mr <- scan_members fuel' (skip_ws rest) ;;
                        Ok ((key, fst vr) :: fst mr, snd mr)
                    | _ => Raise ValueError
                    end
                | _ => Raise ValueError
                end
            | None => Raise ValueError
            end
          else Raise ValueError
      | EmptyString => Raise ValueError
      end
  end.

(** [json.loads(s)] for a str [s]. *)
Definition loads (s : string) : result pyobj :=
  vr <- scan_once (S (String.length s)) (skip_ws s) ;;
  match skip_ws (snd vr) with
  | EmptyString => Ok (fst vr)
  | String _ _ => Raise ValueError
  end.

End Json.

(* ------------------------------------------------------------------ *)
(** ** The database *)

(** A row of [libros]; [id] is the rowid (INTEGER PRIMARY KEY). *)
Module Libro.
Record t : Type := mk {
  id : Z;
  titulo : value;
  autor : value;
  genero : value;
  subgenero : value;
  anio_lectura : value;
  fecha_lectura : value;
  calificacion : value;
  paginas : value;
  editorial : value;
  comentario : value;
  fecha_creacion : value;
  fecha_actualizacion : value
}.

(** The row as [SELECT *] returns it. *)
Definition tuple (r : t) : list value :=
  [VInt (id r); titulo r; autor r; genero r; subgenero r; anio_lectura r;
   fecha_lectura r; calificacion r; paginas r; editorial r; comentario r;
   fecha_creacion r; fecha_actualizacion r].
End Libro.

(** A row of [usuario]. *)
Module Usuario.
Record t : Type := mk {
  id : Z;
  nombre : value;
  email : value;
  avatar : value;
  preferencias : value;
  fecha_creacion : value;
  fecha_actualizacion : value
}.

Definition tuple (r : t) : list value :=
  [VInt (id r); nombre r; email r; avatar r; preferencias r;
   fecha_creacion r; fecha_actualizacion r].
End Usuario.

(** A table: its rows in scan order, and the largest rowid it ever gave
    out ([sqlite_sequence], kept for AUTOINCREMENT). *)
Record table (R : Type) : Type := mk_table {
  rows : list R;
  seq : Z
}.
Arguments mk_table {R} rows seq.
Arguments rows {R} t.
Arguments seq {R} t.

Definition empty_table {R : Type} : table R := mk_table [] 0.

(** The rowid AUTOINCREMENT has for the next row: one more than the largest
    ever used.  An INSERT gives it out as long as it is a rowid, that is, at
    most [int64_max]; past that the INSERT fails ([rowid_free]). *)
Definition next_rowid {R : Type} (rowid : R -> Z) (t : table R) : Z :=
  fold_right Z.max (seq t) (map rowid (rows t)) + 1.

(** Whether AUTOINCREMENT has a rowid left for the table: it has none once
    the table has held a row with the largest rowid, 2^63 - 1, and SQLite
    then refuses the INSERT (SQLITE_FULL). *)
Definition rowid_free {R : Type} (rowid : R -> Z) (t : table R) : bool :=
  next_rowid rowid t <=? int64_max.

Definition append_row {R : Type} (rowid : R -> Z) (r : R) (t : table R) : table R :=
  mk_table (rows t ++ [r]) (rowid r).

(** A database on which the schema exists: a DatabaseManager leaves its
    constructor with one, and the three models only ever hold such a
    manager. *)
Record db : Type := mk_db {
  libros : table Libro.t;
  usuario : table Usuario.t
}.

(** The database file as the constructor may find it: each table there or
    not (a file that does not exist yet has neither). *)
Record dbfile : Type := mk_file {
  file_libros : option (table Libro.t);
  file_usuario : option (table Usuario.t)
}.

Definition new_file : dbfile := mk_file None None.
Definition file_of (d : db) : dbfile := mk_file (Some (libros d)) (Some (usuario d)).

Definition count_tables (f : dbfile) : nat :=
  ((match file_libros f with Some _ => 1 | None => 0 end) +
   (match file_usuario f with Some _ => 1 | None => 0 end))%nat.

(** The readings of the clock during one call. *)
Record clock : Type := mk_clock {
  year : Z;              (* datetime.now().year *)
  today : string;        (* datetime.now().date().isoformat() *)
  timestamp : string     (* CURRENT_TIMESTAMP *)
}.

(* ------------------------------------------------------------------ *)
(** ** DatabaseManager *)

Section Model.
Context {prims : Primitives}.

(** The row that [INSERT INTO usuario (nombre, email, avatar, preferencias)
    VALUES ('Lector', 'lector@example.com', 'default_avatar.png', '{}')]
    adds: four texts in TEXT columns, the two timestamps by default. *)
Definition default_usuario (now : clock) (t : table Usuario.t) : Usuario.t :=
  Usuario.mk (next_rowid Usuario.id t)
    (VText "Lector") (VText "lector@example.com") (VText "default_avatar.png")
    (VText "{}") (VText (timestamp now)) (VText (timestamp now)).

(** [DatabaseManager._initialize_database]: the database the constructor
    leaves, or the exception it ends with. *)
Definition _initialize_database (now : clock) (f : dbfile) : result db :=
  (* CREATE TABLE IF NOT EXISTS libros *)
  let libros := match file_libros f with Some t => t | None => empty_table end in
  (* CREATE TABLE IF NOT EXISTS usuario *)
  let usuario := match file_usuario f with Some t => t | None => empty_table end in
  (* the count of the rows of usuario, and the default row when it is 0 *)
  usuario <-
    (if Z.of_nat (List.length (rows usuario)) =? 0
     then
       if rowid_free Usuario.id usuario
       then Ok (append_row Usuario.id (default_usuario now usuario) usuario)
       else Raise OperationalError
     else Ok usuario) ;;
  Ok (mk_db libros usuario).

(* ------------------------------------------------------------------ *)
(** ** LibroModel: the statements it runs *)

(** The ten values both [crear_libro] and [actualizar_libro] read out of
    [libro_data], in the order of their placeholders. *)
Definition libro_params (now : clock) (libro_data : pydict) : result (list pyobj) :=
  titulo <- getitem "titulo" libro_data ;;
  autor <- getitem "autor" libro_data ;;
  genero <- getitem "genero" libro_data ;;
  Ok [titulo; autor; genero;
      get "subgenero" (PStr "") libro_data;
      get "anio_lectura" (PInt (year now)) libro_data;
      get "fecha_lectura" (PStr (today now)) libro_data;
      get "calificacion" (PInt 0) libro_data;
      get "paginas" (PInt 0) libro_data;
      get "editorial" (PStr "") libro_data;
      get "comentario" (PStr "") libro_data].

(** The row holding ten bound values, each under the affinity of its
    column. *)
Definition libro_of (id : Z) (vs : list value) (creacion actualizacion : value)
  : option Libro.t :=
  match vs with
  | [titulo; autor; genero; subgenero; anio_lectura; fecha_lectura;
     calificacion; paginas; editorial; comentario] =>
      Some (Libro.mk id
              (cast AffText titulo) (cast AffText autor) (cast AffText genero)
              (cast AffText subgenero) (cast AffInteger anio_lectura)
              (cast AffNumeric fecha_lectura) (cast AffReal calificacion)
              (cast AffInteger paginas) (cast AffText editorial)
              (cast AffText comentario) creacion actualizacion)
  | _ => None
  end.

(** [titulo], [autor] and [genero] are NOT NULL. *)
Definition not_null (r : Libro.t) : bool :=
  negb (is_null (Libro.titulo r)) && negb (is_null (Libro.autor r))
  && negb (is_null (Libro.genero r)).

(** [INSERT INTO libros (titulo, ..., comentario) VALUES (?, ..., ?)];
    the result carries [cursor.lastrowid]. *)
Definition insert_libro (now : clock) (params : list pyobj) (t : table Libro.t)
  : result (Z * table Libro.t) :=
  vs <- mapM bind_param params ;;
  match libro_of (next_rowid Libro.id t) vs
          (VText (timestamp now)) (VText (timestamp now)) with
  | None => Raise ProgrammingError
  | Some r =>
      (* the rowid is made before the constraints are checked *)
      if rowid_free Libro.id t then
        if not_null r then Ok (Libro.id r, append_row Libro.id r t)
        else Raise IntegrityError
      else Raise OperationalError
  end.

(** [WHERE id = ?] *)
Definition id_is (idv : value) (r : Libro.t) : bool :=
  sql_eq (VInt (Libro.id r)) (operand AffInteger idv).

(** [UPDATE libros SET titulo = ?, ..., comentario = ?,
     fecha_actualizacion = CURRENT_TIMESTAMP WHERE id = ?] *)
Definition update_libro (now : clock) (params : list pyobj) (t : table Libro.t)
  : result (table Libro.t) :=
  vs <- mapM bind_param params ;;
  match libro_of 0 (removelast vs) VNull VNull with
  | None => Raise ProgrammingError
  | Some sample =>
      let idv := last vs VNull in
      if existsb (id_is idv) (rows t) && negb (not_null sample)
      then Raise IntegrityError
      else
        Ok (mk_table
              (map (fun r =>
                      if id_is idv r then
                        match libro_of (Libro.id r) (removelast vs)
                                (Libro.fecha_creacion r) (VText (timestamp now)) with
                        | Some r' => r'
                        | None => r
                        end
                      else r)
                   (rows t))
              (seq t))
  end.

(** [DELETE FROM libros WHERE id = ?] *)
Definition delete_libro (params : list pyobj) (t : table Libro.t)
  : result (table Libro.t) :=
  vs <- mapM bind_param params ;;
  match vs with
  | [idv] => Ok (mk_table (filter (fun r => negb (id_is idv r)) (rows t)) (seq t))
  | _ => Raise ProgrammingError
  end.

(** The five conditions [obtener_libros] can put in its WHERE clause. *)
Inductive clause : Type :=
| AnioEq        (* anio_lectura = ? *)
| GeneroEq      (* genero = ? *)
| CalifGe       (* calificacion >= ? *)
| CalifLe       (* calificacion <= ? *)
| SearchLike.   (* (titulo LIKE ? OR autor LIKE ?) *)

Definition placeholders (c : clause) : nat :=
  match c with SearchLike => 2 | _ => 1 end.

(** The conditions joined by AND, their placeholders bound in order. *)
Fixpoint where_holds (conditions : list clause) (vs : list value) (r : Libro.t) : bool :=
  match conditions, vs with
  | [], _ => true
  | AnioEq :: cs, v :: vs' =>
      sql_eq (Libro.anio_lectura r) (operand AffInteger v) && where_holds cs vs' r
  | GeneroEq :: cs, v :: vs' =>
      sql_eq (Libro.genero r) (operand AffText v) && where_holds cs vs' r
  | CalifGe :: cs, v :: vs' =>
      sql_ge (Libro.calificacion r) (operand AffReal v) && where_holds cs vs' r
  | CalifLe :: cs, v :: vs' =>
      sql_le (Libro.calificacion r) (operand AffReal v) && where_holds cs vs' r
  | SearchLike :: cs, v1 :: v2 :: vs' =>
      (sql_like (Libro.titulo r) v1 || sql_like (Libro.autor r) v2)
      && where_holds cs vs' r
  | _, _ => false
  end.

(** [ORDER BY fecha_lectura DESC]: [a] may come before [b]. *)
Definition fecha_desc (a b : Libro.t) : bool :=
  match compare_values (Libro.fecha_lectura a) (Libro.fecha_lectura b) with
  | Lt => false
  | _ => true
  end.

(** [SELECT * FROM libros [WHERE c1 AND ... AND cn]
     ORDER BY fecha_lectura DESC] *)
Definition select_libros (conditions : list clause) (params : list pyobj)
    (t : table Libro.t) : result (list (list value)) :=
  if Nat.eqb (List.length params)
       (fold_right Nat.add 0%nat (map placeholders conditions)) then
    vs <- mapM bind_param params ;;
    Ok (map Libro.tuple
          (sort_by fecha_desc (filter (where_holds conditions vs) (rows t))))
  else Raise ProgrammingError.

(** [SELECT * FROM libros WHERE id = ?] *)
Definition select_libro_by_id (params : list pyobj) (t : table Libro.t)
  : result (list (list value)) :=
  vs <- mapM bind_param params ;;
  match vs with
  | [idv] => Ok (map Libro.tuple (filter (id_is idv) (rows t)))
  | _ => Raise ProgrammingError
  end.

(* ------------------------------------------------------------------ *)
(** ** LibroModel *)

Definition column_names : list string :=
  ["id"; "titulo"; "autor"; "genero"; "subgenero"; "anio_lectura";
   "fecha_lectura"; "calificacion"; "paginas"; "editorial";
   "comentario"; "fecha_creacion"; "fecha_actualizacion"].

(** [dict(zip(names, row))] *)
Definition dict_zip (names : list string) (row : list value) : pydict :=
  map (fun nv => (PStr (fst nv), fetch (snd nv))) (combine names row).

(** [LibroModel.crear_libro] *)
Definition crear_libro (now : clock) (libro_data : pydict) (d : db)
  : result (Z * db) :=
  params <- libro_params now libro_data ;;
  it <- insert_libro now params (libros d) ;;
  Ok (fst it, mk_db (snd it) (usuario d)).

(** One turn of the loop over [filtros.items()]. *)
Definition add_condition (state : list clause * list pyobj) (item : pyobj * pyobj)
  : result (list clause * list pyobj) :=
  let (conditions, params) := state in
  let (key, value) := item in
  if key_is "anio_lectura" key then Ok (conditions ++ [AnioEq], params ++ [value])
  else if key_is "genero" key then Ok (conditions ++ [GeneroEq], params ++ [value])
  else if key_is "calificacion_min" key then Ok (conditions ++ [CalifGe], params ++ [value])
  else if key_is "calificacion_max" key then Ok (conditions ++ [CalifLe], params ++ [value])
  else if key_is "search" key then
    s <- py_str value ;;
    Ok (conditions ++ [SearchLike],
        params ++ [PStr ("%" ++ s ++ "%")%string; PStr ("%" ++ s ++ "%")%string])
  else Ok state.

Fixpoint add_conditions (state : list clause * list pyobj) (items : pydict)
  : result (list clause * list pyobj) :=
  match items with
  | [] => Ok state
  | item :: items' =>
      state' <- add_condition state item ;;
      add_conditions state' items'
  end.

(** [LibroModel.obtener_libros]; [filtros] is [None] when the argument is
    left out. *)
Definition obtener_libros (filtros : option pydict) (d : db) : result (list pydict) :=
  state <-
    match filtros with
    | Some (item :: items) => add_conditions ([], []) (item :: items)
    | Some [] | None => Ok ([], [])
    end ;;
  libros <- select_libros (fst state) (snd state) (libros d) ;;
  Ok (map (dict_zip column_names) libros).

(** [LibroModel.actualizar_libro] *)
Definition actualizar_libro (now : clock) (libro_id : Z) (libro_data : pydict) (d : db)
  : result (bool * db) :=
  params <- libro_params now libro_data ;;
  t <- update_libro now (params ++ [PInt libro_id]) (libros d) ;;
  Ok (true, mk_db t (usuario d)).

(** [LibroModel.eliminar_libro] *)
Definition eliminar_libro (libro_id : Z) (d : db) : result (bool * db) :=
  t <- delete_libro [PInt libro_id] (libros d) ;;
  Ok (true, mk_db t (usuario d)).

(** *** Statistics *)

Definition asc (a b : value) : bool :=
  match compare_values a b with Gt => false | _ => true end.

Definition desc (a b : value) : bool :=
  match compare_values a b with Lt => false | _ => true end.

(** Lengths of the runs of equal keys of a sorted list, each with the first
    key of its run. *)
Fixpoint count_runs (keys : list value) : list (value * Z) :=
  match keys with
  | [] => []
  | k :: keys' =>
      match count_runs keys' with
      | (k', n) :: groups =>
          match compare_values k k' with
          | Eq => (k, n + 1) :: groups
          | _ => (k, 1) :: (k', n) :: groups
          end
      | [] => [(k, 1)]
      end
  end.

(** [SELECT key, COUNT( * ) FROM ... GROUP BY key]: one pair per distinct
    key, in the order of the keys. *)
Definition group_count (keys : list value) : list (value * Z) :=
  count_runs (sort_by asc keys).

(** [SELECT AVG(x)]: the mean of the cells that are not NULL, NULL when
    there is none. *)
Definition real_of (v : value) : option Q :=
  match v with
  | VNull => None
  | VInt z => Some (inject_Z z)
  | VReal q => Some q
  | VText s => Some (text_real s)
  end.

Fixpoint reals_of (vs : list value) : list Q :=
  match vs with
  | [] => []
  | v :: vs' =>
      match real_of v with
      | Some q => q :: reals_of vs'
      | None => reals_of vs'
      end
  end.

Definition avg (vs : list value) : value :=
  match reals_of vs with
  | [] => VNull
  | q :: qs =>
      VReal (Qred (fold_right Qplus 0%Q (q :: qs)
                   / inject_Z (Z.of_nat (List.length (q :: qs)))))
  end.

(** [x or y] *)
Definition py_or (x y : pyobj) : pyobj := if truthy x then x else y.

(** The dict [stats], one field per key; a result row is a pair. *)
Record estadisticas : Type := mk_stats {
  total_libros : Z;
  libros_por_anio : list (pyobj * Z);
  promedio_calificacion : pyobj;
  generos_populares : list (pyobj * Z)
}.

Definition fetch_pair (g : value * Z) : pyobj * Z := (fetch (fst g), snd g).

(** [LibroModel.obtener_estadisticas] *)
Definition obtener_estadisticas (d : db) : estadisticas :=
  let libros := rows (libros d) in
  mk_stats
    (* SELECT COUNT( * ) FROM libros *)
    (Z.of_nat (List.length libros))
    (* ... GROUP BY anio_lectura ORDER BY anio_lectura DESC *)
    (map fetch_pair
       (sort_by (fun a b => desc (fst a) (fst b))
          (group_count (map Libro.anio_lectura libros))))
    (* SELECT AVG(calificacion) FROM libros, or 0 *)
    (py_or (fetch (avg (map Libro.calificacion libros))) (PInt 0))
    (* ... GROUP BY genero ORDER BY count DESC LIMIT 5 *)
    (map fetch_pair
       (firstn 5
          (sort_by (fun a b => snd b <=? snd a)
             (group_count (map Libro.genero libros))))).

(** *** CSV export *)

Definition CRLF : string := String CR (String LF EmptyString).

Fixpoint has_char (p : ascii -> bool) (s : string) : bool :=
  match s with
  | EmptyString => false
  | String c s' => p c || has_char p s'
  end.

(** The characters that make the writer quote a field (QUOTE_MINIMAL). *)
Definition csv_special (c : ascii) : bool :=
  Ascii.eqb c "," || Ascii.eqb c dquote || Ascii.eqb c CR || Ascii.eqb c LF.

Fixpoint double_quotes (s : string) : string :=
  match s with
  | EmptyString => EmptyString
  | String c s' =>
      if Ascii.eqb c dquote then String c (String c (double_quotes s'))
      else String c (double_quotes s')
  end.

Definition csv_quote (s : string) : string :=
  if has_char csv_special s
  then String dquote (double_quotes s ++ String dquote EmptyString)
  else s.

(** A field as the writer puts it: nothing for None, the str of the object
    otherwise. *)
Definition csv_field (o : pyobj) : result string :=
  match o with
  | PNone => Ok EmptyString
  | _ => s <- py_str o ;; Ok (csv_quote s)
  end.

(** [writer.writerow(fields)]: the text of one record. *)
Definition csv_row (fields : list pyobj) : result string :=
  texts <- mapM csv_field fields ;;
  Ok (String.concat "," texts ++ CRLF)%string.

(** Equality of two dict keys. *)
Definition key_eq (a b : pyobj) : bool :=
  match a, b with
  | PStr s, PStr t => String.eqb s t
  | PNone, PNone => true
  | PBool x, PBool y => Bool.eqb x y
  | PInt x, PInt y => x =? y
  | PBool x, PInt y | PInt y, PBool x => (if x then 1 else 0) =? y
  | PFloat x, PFloat y => Qeq_bool x y
  | PFloat x, PInt y | PInt y, PFloat x => Qeq_bool x (inject_Z y)
  | PFloat x, PBool y | PBool y, PFloat x => Qeq_bool x (if y then 1 else 0)
  | _, _ => false
  end.

(** [rowdict.get(key, '')] *)
Fixpoint get_key (key : pyobj) (rowdict : pydict) : pyobj :=
  match rowdict with
  | [] => PStr ""
  | (k, v) :: rowdict' => if key_eq key k then v else get_key key rowdict'
  end.

(** The files of the machine: the text at each path that has one. *)
Definition filesystem : Type := string -> option string.

Definition write_file (path text : string) (fs : filesystem) : filesystem :=
  fun p => if String.eqb p path then Some text else fs p.

(** [DictWriter.writeheader] then [DictWriter.writerows]. *)
Definition csv_text (fieldnames : list pyobj) (libros : list pydict) : result string :=
  header <- csv_row fieldnames ;;
  records <- mapM (fun libro => csv_row (map (fun k => get_key k libro) fieldnames))
               libros ;;
  Ok (header ++ String.concat "" records)%string.

(** [LibroModel.exportar_a_csv].  The path is taken to be writable. *)
Definition exportar_a_csv (file_path : string) (filtros : option pydict)
    (d : db) (fs : filesystem) : result (bool * filesystem) :=
  libros <- obtener_libros filtros d ;;
  match libros with
  | [] => Ok (false, fs)
  | first :: _ =>
      let fieldnames := map fst first in
      text <- csv_text fieldnames libros ;;
      Ok (true, write_file file_path text fs)
  end.

(* ------------------------------------------------------------------ *)
(** ** InformeModel *)

(** [InformeModel.generar_informe_lectura] *)
Definition generar_informe_lectura (libro_id : Z) (d : db) : result pydict :=
  libro <- select_libro_by_id [PInt libro_id] (libros d) ;;
  match libro with
  | [] => Ok []
  | first :: _ =>
      let libro_dict := dict_zip column_names first in
      let stats := obtener_estadisticas d in
      let libro_dict :=
        setitem "total_libros_leidos" (PInt (total_libros stats)) libro_dict in
      let libro_dict :=
        setitem "promedio_calificacion_global" (promedio_calificacion stats)
          libro_dict in
      Ok libro_dict
  end.

(* ------------------------------------------------------------------ *)
(** ** UsuarioModel *)

Definition usuario_column_names : list string :=
  ["id"; "nombre"; "email"; "avatar"; "preferencias";
   "fecha_creacion"; "fecha_actualizacion"].

(** [json.loads(x)] for an object [x]: only a str has a text to decode. *)
Definition json_loads (x : pyobj) : result pyobj :=
  match x with
  | PStr s => loads s
  | _ => Raise TypeError
  end.

(** [UsuarioModel.obtener_usuario] *)
Definition obtener_usuario (d : db) : result pydict :=
  (* SELECT * FROM usuario LIMIT 1, then [0] *)
  match rows (usuario d) with
  | [] => Raise IndexError
  | usuario :: _ =>
      let usuario_dict := dict_zip usuario_column_names (Usuario.tuple usuario) in
      stored <- getitem "preferencias" usuario_dict ;;
      preferencias <- json_loads stored ;;
      Ok (setitem "preferencias" preferencias usuario_dict)
  end.

(** [UPDATE usuario SET nombre = ?, email = ?, avatar = ?, preferencias = ?,
     fecha_actualizacion = CURRENT_TIMESTAMP WHERE id = ?] *)
Definition update_usuario (now : clock) (params : list pyobj) (t : table Usuario.t)
  : result (table Usuario.t) :=
  vs <- mapM bind_param params ;;
  match vs with
  | [nombre; email; avatar; preferencias; idv] =>
      let hit (r : Usuario.t) := sql_eq (VInt (Usuario.id r)) (operand AffInteger idv) in
      if existsb hit (rows t) && is_null (cast AffText nombre)
      then Raise IntegrityError
      else
        Ok (mk_table
              (map (fun r =>
                      if hit r then
                        Usuario.mk (Usuario.id r)
                          (cast AffText nombre) (cast AffText email)
                          (cast AffText avatar) (cast AffText preferencias)
                          (Usuario.fecha_creacion r) (VText (timestamp now))
                      else r)
                   (rows t))
              (seq t))
  | _ => Raise ProgrammingError
  end.

(** [UsuarioModel.actualizar_usuario] *)
Definition actualizar_usuario (now : clock) (usuario_data : pydict) (d : db)
  : result (bool * db) :=
  nombre <- getitem "nombre" usuario_data ;;
  email <- getitem "email" usuario_data ;;
  let avatar := get "avatar" (PStr "default_avatar.png") usuario_data in
  preferencias <- dumps (get "preferencias" (PDict []) usuario_data) ;;
  id <- getitem "id" usuario_data ;;
  t <- update_usuario now [nombre; email; avatar; PStr preferencias; id] (usuario d) ;;
  Ok (true, mk_db (libros d) t).

(* ------------------------------------------------------------------ *)
(** ** MainController: the form of a book and its conversions *)

(** What the form for a new book holds when its button is pressed: the
    text of each entry, the number of the rating spin box. *)
Record form : Type := mk_form {
  form_titulo : string;
  form_autor : string;
  form_genero : string;
  form_subgenero : string;
  form_anio_lectura : string;
  form_calificacion : Q;
  form_paginas : string;
  form_editorial : string;
  form_comentario : string
}.

(** [MainView.get_form_data] *)
Definition get_form_data (f : form) : pydict :=
  [(PStr "titulo", PStr (form_titulo f));
   (PStr "autor", PStr (form_autor f));
   (PStr "genero", PStr (form_genero f));
   (PStr "subgenero", PStr (form_subgenero f));
   (PStr "anio_lectura", PStr (form_anio_lectura f));
   (PStr "calificacion", PFloat (form_calificacion f));
   (PStr "paginas", PStr (form_paginas f));
   (PStr "editorial", PStr (form_editorial f));
   (PStr "comentario", PStr (form_comentario f))].

(** The message a call leaves on the screen. *)
Inductive message : Type :=
| CamposObligatorios            (* error: titulo and autor are required *)
| LibroAgregado                 (* info: the book was added *)
| LibroActualizado              (* info: the book was updated *)
| NoSePudoAgregar (e : exn)     (* error: the book could not be added *)
| NoSePudoActualizar (e : exn). (* error: the book could not be updated *)

(** [if book_data.get(key): try: book_data[key] = int(book_data[key])
     except ValueError: book_data[key] = default] *)
Definition convertir (key : string) (default : Z) (book_data : pydict) : result pydict :=
  if truthy (get key PNone book_data) then
    match (v <- getitem key book_data ;; py_int v) with
    | Ok z => Ok (setitem key (PInt z) book_data)
    | Raise ValueError => Ok (setitem key (PInt default) book_data)
    | Raise e => Raise e
    end
  else Ok book_data.

(** The block "Convertir tipos de datos" of [add_book] and [update_book]. *)
Definition convertir_tipos (now : clock) (book_data : pydict) : result pydict :=
  book_data <- convertir "anio_lectura" (year now) book_data ;;
  convertir "paginas" 0 book_data.

(** The check "Validar campos obligatorios". *)
Definition campos_obligatorios (book_data : pydict) : bool :=
  truthy (get "titulo" PNone book_data) && truthy (get "autor" PNone book_data).

(* ------------------------------------------------------------------ *)
(** ** Python: sets and [sorted] *)

(** [x < y], as [sorted] asks it of two elements of a set (None, bools,
    numbers and strs; a list or a dict is not hashable and is in no set):
    numbers by value, strs by code points, TypeError for any other pair. *)
Definition number_of (o : pyobj) : option Q :=
  match o with
  | PBool b => Some (inject_Z (if b then 1 else 0))
  | PInt z => Some (inject_Z z)
  | PFloat q => Some q
  | PNone | PStr _ | PList _ | PDict _ => None
  end.

Definition py_lt (x y : pyobj) : result bool :=
  match x, y with
  | PStr s, PStr t =>
      Ok (match String.compare s t with Lt => true | _ => false end)
  | _, _ =>
      match number_of x, number_of y with
      | Some p, Some q => Ok (match Qcompare p q with Lt => true | _ => false end)
      | _, _ => Raise TypeError
      end
  end.

(** A stable sort that only asks [<]: [x], which came before the elements
    of [l], goes in front of the first one that is not less than it. *)
Fixpoint insert_sorted (x : pyobj) (l : list pyobj) : result (list pyobj) :=
  match l with
  | [] => Ok [x]
  | y :: l' =>
      less <- py_lt y x ;;
      if less then l'' <- insert_sorted x l' ;; Ok (y :: l'')
      else Ok (x :: l)
  end.

Fixpoint sort_list (l : list pyobj) : result (list pyobj) :=
  match l with
  | [] => Ok []
  | x :: l' => s <- sort_list l' ;; insert_sorted x s
  end.

(** [sorted(l, reverse=reverse)]: the reversed sort is the sort of the
    reversed list, reversed. *)
Definition sorted (reverse : bool) (l : list pyobj) : result (list pyobj) :=
  if reverse then s <- sort_list (rev l) ;; Ok (rev s) else sort_list l.

(** [s.add(x)] on a set kept in the order its elements came in: an element
    equal to [x] stays, as it is; a list or a dict is not hashable. *)
Definition set_add (x : pyobj) (s : list pyobj) : result (list pyobj) :=
  match x with
  | PList _ | PDict _ => Raise TypeError
  | _ => Ok (if existsb (key_eq x) s then s else s ++ [x])
  end.

(** [{book[key] for book in all_books if book.get(key)}], added to [s]. *)
Fixpoint set_of (key : string) (all_books : list pydict) (s : list pyobj)
  : result (list pyobj) :=
  match all_books with
  | [] => Ok s
  | book :: all_books' =>
      if truthy (get key PNone book) then
        x <- getitem key book ;;
        s' <- set_add x s ;;
        set_of key all_books' s'
      else set_of key all_books' s
  end.

(* ------------------------------------------------------------------ *)
(** ** MainView: the table of the books and its filters *)

(** What the window holds of the books: the texts of the three filter
    combo boxes (their StringVars), the values each of them offers, and the
    rows of the table. *)
Record view : Type := mk_view {
  year_var : string;
  genre_var : string;
  rating_var : string;
  year_values : list pyobj;
  genre_values : list pyobj;
  rating_values : list pyobj;
  books_table : list (list pyobj)
}.

(** The columns of the table. *)
Definition columns : list string :=
  ["id"; "titulo"; "autor"; "genero"; "subgenero";
   "anio_lectura"; "calificacion"; "paginas"; "editorial"].

(** [MainView.populate_books_table] *)
Definition populate_books_table (books : list pydict) (v : view) : view :=
  mk_view (year_var v) (genre_var v) (rating_var v)
    (year_values v) (genre_values v) (rating_values v)
    (map (fun book => map (fun col => get col (PStr "") book) columns) books).

(** [MainView.populate_filters]: the window it leaves, and the exception it
    ends with when a sort raises.  [current(0)] puts the first value of a
    combo box in its StringVar. *)
Definition populate_filters (years genres : list pyobj) (v : view)
  : view * option exn :=
  match sorted true years with
  | Raise e => (v, Some e)
  | Ok years =>
      let v :=
        mk_view "Todos" (genre_var v) (rating_var v)
          (PStr "Todos" :: years) (genre_values v) (rating_values v)
          (books_table v) in
      match sorted false genres with
      | Raise e => (v, Some e)
      | Ok genres =>
          (mk_view (year_var v) "Todos" "Todas"
             (year_values v) (PStr "Todos" :: genres)
             (PStr "Todas" :: map (fun i => PStr (decimal i)) [1; 2; 3; 4; 5])
             (books_table v),
           None)
      end
  end.

(** [MainView.get_filters] *)
Definition get_filters (v : view) : result pydict :=
  let filters : pydict := [] in
  let year := year_var v in
  filters <-
    (if truthy (PStr year) && negb (String.eqb year "Todos")
     then z <- py_int (PStr year) ;; Ok (setitem "anio_lectura" (PInt z) filters)
     else Ok filters) ;;
  let genre := genre_var v in
  let filters :=
    if truthy (PStr genre) && negb (String.eqb genre "Todos")
    then setitem "genero" (PStr genre) filters
    else filters in
  let rating := rating_var v in
  if truthy (PStr rating) && negb (String.eqb rating "Todas")
  then z <- py_int (PStr rating) ;; Ok (setitem "calificacion_min" (PInt z) filters)
  else Ok filters.

(** [MainView.update_user_info], as far as it can raise: the labels take
    any object, loading the picture is under a bare [except], and
    [os.path.exists] takes a str or an int. *)
Definition update_user_info (user_data : pydict) : option exn :=
  let avatar := get "avatar" (PStr "") user_data in
  if truthy avatar then
    match avatar with
    | PFloat _ | PList _ | PDict _ => Some TypeError
    | PNone | PBool _ | PInt _ | PStr _ => None
    end
  else None.

(* ------------------------------------------------------------------ *)
(** ** MainController: the table, the selected book, the export, the user *)

(** [MainController._refresh_books_table]: the window it leaves, and the
    exception it ends with, if any. *)
Definition _refresh_books_table (filters : option pydict) (d : db) (v : view)
  : view * option exn :=
  match obtener_libros filters d with
  | Raise e => (v, Some e)
  | Ok books =>
      let v := populate_books_table books v in
      match (all_books <- obtener_libros None d ;;
             years <- set_of "anio_lectura" all_books [] ;;
             genres <- set_of "genero" all_books [] ;;
             years <- sorted true years ;;
             genres <- sorted false genres ;;
             Ok (years, genres)) with
      | Raise e => (v, Some e)
      | Ok (years, genres) => populate_filters years genres v
      end
  end.

(** [MainView.clear_form]: the form it leaves, every text empty but the
    year, which is the year of the call, and the rating 3.0. *)
Definition clear_form (now : clock) : form :=
  mk_form "" "" "" "" (decimal (year now)) 3 "" "" "".

(** [MainController.add_book], on the form [f] of the window: the database,
    the window and the form it leaves, and the message it shows. *)
Definition add_book (now : clock) (f : form) (d : db) (v : view)
  : db * view * form * message :=
  let book_data := get_form_data f in
  if negb (campos_obligatorios book_data) then (d, v, f, CamposObligatorios)
  else
    match (book_data <- convertir_tipos now book_data ;;
           crear_libro now book_data d) with
    | Raise e => (d, v, f, NoSePudoAgregar e)
    | Ok (_, d') =>
        let f' := clear_form now in
        match _refresh_books_table None d' v with
        | (v', Some e) => (d', v', f', NoSePudoAgregar e)
        | (v', None) => (d', v', f', LibroAgregado)
        end
    end.

(** [MainController.update_book] *)
Definition update_book (now : clock) (book_id : Z) (book_data : pydict) (d : db)
    (v : view) : db * view * message :=
  if negb (campos_obligatorios book_data) then (d, v, CamposObligatorios)
  else
    match (book_data <- convertir_tipos now book_data ;;
           actualizar_libro now book_id book_data d) with
    | Raise e => (d, v, NoSePudoActualizar e)
    | Ok (_, d') =>
        match _refresh_books_table None d' v with
        | (v', Some e) => (d', v', NoSePudoActualizar e)
        | (v', None) => (d', v', LibroActualizado)
        end
    end.

(** [MainController.filter_books] *)
Definition filter_books (d : db) (v : view) : view * option exn :=
  match get_filters v with
  | Raise e => (v, Some e)
  | Ok filters => _refresh_books_table (Some filters) d v
  end.

(** [MainController.clear_filters] *)
Definition clear_filters (d : db) (v : view) : view * option exn :=
  _refresh_books_table None d v.

(** The messages of the other actions. *)
Inductive aviso : Type :=
| SeleccionaUnLibro                 (* warning: select a book first *)
| LibroEliminado                    (* info: the book was deleted *)
| NoSePudoEliminar (e : exn)        (* error: the book could not be deleted *)
| LibrosExportados (file_path : string)  (* info: the books were exported *)
| NoHayLibros                       (* warning: no book with these filters *)
| NoSePudoExportar (e : exn)        (* error: the books could not be exported *)
| NombreObligatorio                 (* error: the name is required *)
| PerfilActualizado                 (* info: the profile was updated *)
| NoSePudoActualizarPerfil (e : exn). (* error: the profile could not be updated *)

(** [MainController.edit_book], for the id [get_selected_book_id] gave
    ([None] with no row selected): the book the dialog opens with, or the
    warning. *)
Definition edit_book (book_id : option Z) (d : db) : result (pydict + aviso) :=
  match book_id with
  | Some id =>
      if truthy (PInt id) then
        books <- obtener_libros (Some [(PStr "id", PInt id)]) d ;;
        match books with
        | book :: _ => Ok (inl book)
        | [] => Raise IndexError
        end
      else Ok (inr SeleccionaUnLibro)
  | None => Ok (inr SeleccionaUnLibro)
  end.

(** [MainView._save_book_edit], from what the dialog holds. *)
Definition _save_book_edit (now : clock) (book_id : Z) (f : form) (d : db)
    (v : view) : db * view * message :=
  update_book now book_id (get_form_data f) d v.

(** [MainController.delete_book], with the answer to the confirmation. *)
Definition delete_book (book_id : option Z) (confirm : bool) (d : db) (v : view)
  : db * view * option aviso :=
  match book_id with
  | Some id =>
      if truthy (PInt id) then
        if confirm then
          match eliminar_libro id d with
          | Raise e => (d, v, Some (NoSePudoEliminar e))
          | Ok (_, d') =>
              match _refresh_books_table None d' v with
              | (v', Some e) => (d', v', Some (NoSePudoEliminar e))
              | (v', None) => (d', v', Some LibroEliminado)
              end
          end
        else (d, v, None)
      else (d, v, Some SeleccionaUnLibro)
  | None => (d, v, Some SeleccionaUnLibro)
  end.

(** [MainController.export_to_csv], with the path the save dialog gave
    (the empty str when it was cancelled). *)
Definition export_to_csv (file_path : string) (d : db) (v : view) (fs : filesystem)
  : filesystem * option aviso :=
  match get_filters v with
  | Raise e => (fs, Some (NoSePudoExportar e))
  | Ok filters =>
      if truthy (PStr file_path) then
        match exportar_a_csv file_path (Some filters) d fs with
        | Raise e => (fs, Some (NoSePudoExportar e))
        | Ok (true, fs') => (fs', Some (LibrosExportados file_path))
        | Ok (false, fs') => (fs', Some NoHayLibros)
        end
      else (fs, None)
  end.

(** [d[k] = v] for any hashable key. *)
Fixpoint setitem_key (k v : pyobj) (d : pydict) : pydict :=
  match d with
  | [] => [(k, v)]
  | (k', v') :: d' =>
      if key_eq k k' then (k', v) :: d' else (k', v') :: setitem_key k v d'
  end.

(** [{**a, **b}] *)
Definition merge (a b : pydict) : pydict :=
  fold_left (fun d kv => setitem_key (fst kv) (snd kv) d) b a.

(** [MainController.update_user] *)
Definition update_user (now : clock) (user_data : pydict) (d : db) : db * aviso :=
  if negb (truthy (get "nombre" PNone user_data)) then (d, NombreObligatorio)
  else
    match obtener_usuario d with
    | Raise e => (d, NoSePudoActualizarPerfil e)
    | Ok current_data =>
        let updated_data := merge current_data user_data in
        match actualizar_usuario now updated_data d with
        | Raise e => (d, NoSePudoActualizarPerfil e)
        | Ok (_, d') =>
            match update_user_info updated_data with
            | Some e => (d', NoSePudoActualizarPerfil e)
            | None => (d', PerfilActualizado)
            end
        end
    end.

End Model.

(* ------------------------------------------------------------------ *)
(** ** An instance of the primitives, for the examples

    It covers what the examples below meet and nothing more: floats that
    are multiples of one half (what the rating spin box gives) print as
    Python and SQLite print them below 10^16, and are read back from this
    text; a TEXT is a number when it is a plain decimal integer.  No theorem
    depends on it. *)

Definition half_text (q : Q) : string :=
  let r := Qred q in
  match Qden r with
  | 1%positive => (decimal (Qnum r) ++ ".0")%string
  | 2%positive =>
      ((if (Qnum r <? 0)%Z then "-" else "") ++ decimal (Z.abs (Qnum r) / 2)%Z ++ ".5")%string
  | _ => (decimal (Qnum r) ++ "/" ++ decimal (Z.pos (Qden r)))%string
  end.

Fixpoint all_digits (s : string) : bool :=
  match s with
  | EmptyString => true
  | String c s' => is_digit c && all_digits s'
  end.

Fixpoint digits_value (s : string) (acc : Z) : Z :=
  match s with
  | EmptyString => acc
  | String c s' => digits_value s' (10 * acc + digit_value c)
  end.

Definition integer_literal (s : string) : option Q :=
  let unsigned (neg : bool) (t : string) :=
    match t with
    | EmptyString => None
    | _ =>
        if all_digits t
        then Some (inject_Z (if neg then - digits_value t 0 else digits_value t 0))
        else None
    end in
  match s with
  | String "-" t => unsigned true t
  | String "+" t => unsigned false t
  | _ => unsigned false s
  end.

Definition integer_prefix (s : string) : Q :=
  let unsigned (t : string) := inject_Z (digits_value (fst (span_digits t)) 0) in
  match s with
  | String "-" t => - unsigned t
  | String "+" t => unsigned t
  | _ => unsigned s
  end.

(** The float of a sign, digits, and a dot and digits if it has them. *)
Definition decimal_prefix (s : string) : Q :=
  let unsigned (t : string) :=
    let (int, rest) := span_digits t in
    match rest with
    | String "." u =>
        let frac := fst (span_digits u) in
        Qred (inject_Z (digits_value (int ++ frac) 0)
              / inject_Z (10 ^ Z.of_nat (String.length frac)))
    | _ => inject_Z (digits_value int 0)
    end in
  match s with
  | String "-" t => - unsigned t
  | String "+" t => unsigned t
  | _ => unsigned s
  end.

#[local] Instance sample : Primitives := {
  float_repr := half_text;
  container_repr := fun _ => Raise TypeError;
  float_of_literal := decimal_prefix;
  real_text := half_text;
  text_numeric := integer_literal;
  text_real := integer_prefix
}.

Example int_of_text_examples :
  int_of_text "2024" = Ok 2024 /\ int_of_text " -12 " = Ok (-12) /\
  int_of_text "1_000" = Ok 1000 /\ int_of_text "abc" = Raise ValueError /\
  int_of_text "" = Raise ValueError /\ int_of_text "12a" = Raise ValueError /\
  int_of_text "1__0" = Raise ValueError /\ int_of_text "_1" = Raise ValueError /\
  int_of_text "1_" = Raise ValueError /\ int_of_text "+007" = Ok 7 /\
  int_of_text "1 2" = Raise ValueError /\ int_of_text "- 1" = Raise ValueError /\
  decimal (-7) = "-7" /\ decimal 0 = "0".
Proof. repeat split; reflexivity. Qed.

(* ------------------------------------------------------------------ *)
(** * Properties *)

(** ** Results *)

Lemma bind_ok {A B : Type} (r : result A) (k : A -> result B) (b : B) :
  bind r k = Ok b -> exists a, r = Ok a /\ k a = Ok b.
Proof.
  destruct r as [a | e]; simpl; intros H; [ eauto | discriminate ].
Qed.

Lemma filter_all {A : Type} (f : A -> bool) (l : list A) :
  (forall x, In x l -> f x = true) -> filter f l = l.
Proof.
  induction l as [| x l IH]; simpl; intros H; [ reflexivity | ].
  rewrite (H x (or_introl eq_refl)), IH; auto.
Qed.

(** ** The keys [obtener_libros] reads *)

Definition supported (key : pyobj) : bool :=
  key_is "anio_lectura" key || key_is "genero" key
  || key_is "calificacion_min" key || key_is "calificacion_max" key
  || key_is "search" key.

Definition supported_item (item : pyobj * pyobj) : bool := supported (fst item).

Lemma add_condition_unsupported {prims : Primitives} state item :
  supported_item item = false -> add_condition state item = Ok state.
Proof.
  destruct state as [conditions params], item as [key value].
  unfold supported_item, supported, add_condition; simpl.
  intros H.
  repeat (apply orb_false_iff in H; destruct H as [H ?]).
  repeat match goal with E : key_is _ key = false |- _ => rewrite E; clear E end.
  reflexivity.
Qed.

Lemma add_conditions_supported {prims : Primitives} items : forall state,
  add_conditions state (filter supported_item items) = add_conditions state items.
Proof.
  induction items as [| item items IH]; intros state; simpl; [ reflexivity | ].
  destruct (supported_item item) eqn:E; simpl.
  - destruct (add_condition state item); simpl; auto.
  - rewrite (add_condition_unsupported state item E); simpl. apply IH.
Qed.

(** The conditions and parameters a dict of filters yields, whether it is
    empty or not. *)
Lemma obtener_libros_conditions {prims : Primitives} filtros d :
  obtener_libros (Some filtros) d =
  (state <- add_conditions ([], []) filtros ;;
   libros <- select_libros (fst state) (snd state) (libros d) ;;
   Ok (map (dict_zip column_names) libros)).
Proof.
  destruct filtros; reflexivity.
Qed.

Lemma obtener_libros_all {prims : Primitives} d :
  obtener_libros None d =
  Ok (map (dict_zip column_names)
        (map Libro.tuple (sort_by fecha_desc (rows (libros d))))).
Proof.
  unfold obtener_libros, select_libros; simpl.
  rewrite filter_all by reflexivity. reflexivity.
Qed.

Lemma obtener_libros_by_id {prims : Primitives} (n : pyobj) (d : db) :
  obtener_libros (Some [(PStr "id", n)]) d = obtener_libros None d.
Proof. reflexivity. Qed.

(** C10. [obtener_libros] reads five keys of its filters and no other: the
    call with a dict of filters is the call with the entries of every other
    key removed, errors included.  A filter on [id] is therefore no filter:
    it returns every book of the table, most recent reading first. *)
Theorem obtener_libros_ignores_other_keys {prims : Primitives} :
  (forall (filtros : pydict) (d : db),
      obtener_libros (Some filtros) d =
      obtener_libros (Some (filter supported_item filtros)) d) /\
  (forall (n : pyobj) (d : db),
      obtener_libros (Some [(PStr "id", n)]) d = obtener_libros None d /\
      obtener_libros (Some [(PStr "id", n)]) d =
      Ok (map (dict_zip column_names)
            (map Libro.tuple (sort_by fecha_desc (rows (libros d)))))).
Proof.
  split.
  - intros filtros d.
    rewrite !obtener_libros_conditions, add_conditions_supported. reflexivity.
  - intros n d. rewrite obtener_libros_by_id, obtener_libros_all.
    split; reflexivity.
Qed.

(** ** Starting the application again and again *)

(** The file after the constructor of DatabaseManager ran at each of the
    given times, oldest first, or the exception of the first start that
    failed. *)
Definition startups (clocks : list clock) (f : dbfile) : result dbfile :=
  fold_left
    (fun f now => f <- f ;; d <- _initialize_database now f ;; Ok (file_of d))
    clocks (Ok f).

(** The database of a first start: no book, and the default user. *)
Definition first_start (now : clock) : db :=
  mk_db empty_table (mk_table [default_usuario now empty_table] 1).

Lemma initialize_new_file now :
  _initialize_database now new_file = Ok (first_start now).
Proof. reflexivity. Qed.

Lemma initialize_has_usuario now f d :
  _initialize_database now f = Ok d -> rows (usuario d) <> [].
Proof.
  unfold _initialize_database; simpl.
  destruct (file_usuario f) as [t |]; simpl.
  - destruct (rows t) as [| r l] eqn:E; simpl.
    + destruct (rowid_free Usuario.id t); [ | discriminate ].
      intros [= <-]; simpl. rewrite E. discriminate.
    + intros [= <-]; simpl. rewrite E. discriminate.
  - intros [= <-]. discriminate.
Qed.

Lemma initialize_initialized now d :
  rows (usuario d) <> [] -> _initialize_database now (file_of d) = Ok d.
Proof.
  intros H. unfold _initialize_database; simpl.
  destruct (rows (usuario d)) as [| r l] eqn:E; [ contradiction | ].
  simpl. destruct d; reflexivity.
Qed.

Lemma startups_initialized clocks : forall d,
  rows (usuario d) <> [] -> startups clocks (file_of d) = Ok (file_of d).
Proof.
  unfold startups.
  induction clocks as [| now clocks IH]; intros d H; simpl; [ reflexivity | ].
  rewrite (initialize_initialized now d H). apply IH, H.
Qed.

Lemma startups_new_file now clocks :
  startups (now :: clocks) new_file = Ok (file_of (first_start now)).
Proof.
  unfold startups; simpl. apply (startups_initialized clocks (first_start now)).
  discriminate.
Qed.

(** C5. Initialization is idempotent: run on a file on which it has run, it
    changes nothing, so it adds no table and no row (and where the first run
    fails, there is no second); and a file that was new at the first start
    holds, after any number of starts, none of which fails, both tables and
    exactly one user, the default one of the first start. *)
Theorem initialize_database_idempotent :
  (forall (now1 now2 : clock) (f : dbfile),
      (d <- _initialize_database now1 f ;;
       _initialize_database now2 (file_of d))
      = _initialize_database now1 f) /\
  (forall (now1 now2 : clock) (f : dbfile) (d : db),
      _initialize_database now1 f = Ok d ->
      _initialize_database now2 (file_of d) = Ok d) /\
  (forall (now : clock) (clocks : list clock),
      exists f : dbfile,
        startups (now :: clocks) new_file = Ok f /\
        count_tables f = 2%nat /\
        option_map rows (file_libros f) = Some [] /\
        option_map rows (file_usuario f) = Some [default_usuario now empty_table] /\
        option_map (fun t => List.length (rows t)) (file_usuario f) = Some 1%nat).
Proof.
  split; [ | split ].
  - intros now1 now2 f.
    destruct (_initialize_database now1 f) as [d | e] eqn:E; simpl; [ | reflexivity ].
    apply initialize_initialized. apply (initialize_has_usuario now1 f d E).
  - intros now1 now2 f d E.
    apply initialize_initialized. apply (initialize_has_usuario now1 f d E).
  - intros now clocks. exists (file_of (first_start now)).
    split; [ apply startups_new_file | repeat split ].
Qed.

(** ** Rows by id *)

Lemma id_is_int {prims : Primitives} (n : Z) (r : Libro.t) :
  id_is (VInt n) r = (Libro.id r =? n).
Proof.
  unfold id_is, sql_eq; simpl.
  destruct (Z.compare_spec (Libro.id r) n) as [E | L | G].
  - symmetry. apply Z.eqb_eq, E.
  - symmetry. apply Z.eqb_neq. lia.
  - symmetry. apply Z.eqb_neq. lia.
Qed.

Lemma filter_ext_in {A : Type} (f g : A -> bool) (l : list A) :
  (forall x, f x = g x) -> filter f l = filter g l.
Proof.
  intros H. induction l as [| x l IH]; simpl; [ reflexivity | ].
  rewrite H, IH. reflexivity.
Qed.

Lemma filter_none {A : Type} (f : A -> bool) (l : list A) :
  (forall x, In x l -> f x = false) -> filter f l = [].
Proof.
  induction l as [| x l IH]; simpl; intros H; [ reflexivity | ].
  rewrite (H x (or_introl eq_refl)). apply IH. auto.
Qed.

Lemma filter_find {A : Type} (f : A -> bool) (l : list A) (x : A) :
  find f l = Some x -> exists l', filter f l = x :: l'.
Proof.
  induction l as [| y l IH]; simpl; [ discriminate | ].
  destruct (f y) eqn:E.
  - intros [= ->]. eauto.
  - apply IH.
Qed.

(** ** The global mean of the report *)

Lemma reals_of_null {prims : Primitives} (vs : list value) :
  Forall (fun v => v = VNull) vs -> reals_of vs = [].
Proof.
  induction 1 as [| v vs -> _ IH]; simpl; [ reflexivity | exact IH ].
Qed.

(** A rating that is [k] halves. *)
Definition halves (v : value) (k : Z) : Prop :=
  exists q : Q, v = VReal q /\ (q == inject_Z k / 2)%Q.

Lemma reals_of_halves {prims : Primitives} (vs : list value) (ks : list Z) :
  Forall2 halves vs ks ->
  List.length (reals_of vs) = List.length ks /\
  (fold_right Qplus 0%Q (reals_of vs) == inject_Z (fold_right Z.add 0%Z ks) / 2)%Q.
Proof.
  induction 1 as [| v k vs ks [q [-> Hq]] _ [IHl IHs]]; simpl.
  - split; [ reflexivity | ]. reflexivity.
  - split; [ rewrite IHl; reflexivity | ].
    rewrite IHs, Hq, inject_Z_plus. field.
Qed.

(** The mean of ratings in halves whose sum is [m] halves times their
    number. *)
Lemma avg_halves {prims : Primitives} (vs : list value) (ks : list Z) (m : Z) :
  Forall2 halves vs ks ->
  ks <> [] ->
  fold_right Z.add 0 ks = m * Z.of_nat (List.length ks) ->
  avg vs = VReal (Qred (inject_Z m / 2)).
Proof.
  intros Hvs Hne Hsum. unfold avg.
  destruct (reals_of_halves vs ks Hvs) as [Hl Hs].
  destruct (reals_of vs) as [| q qs] eqn:E.
  - destruct ks; [ contradiction | discriminate Hl ].
  - f_equal. apply Qred_complete.
    rewrite Hs, Hsum, Hl, inject_Z_mult.
    field. intros H.
    destruct ks as [| k ks]; [ contradiction | ].
    unfold Qeq in H. simpl in H. lia.
Qed.

(** C8, as the code has it.  [generar_informe_lectura] on an id of 64 bits
    that no book has returns the empty dict, with no exception; on the id
    of a stored book it returns the thirteen fields of this book followed
    by two entries and no more, the number of the rows of the table and the
    global mean of the ratings, both taken from the statistics of the
    database as it is at the call: the mean is the int 0 when no book has a
    rating; and when the ratings are halves from 0 to 5, as the spin box of
    the form gives them, whose sum is [m] halves times their number, it is
    the float [m / 2], or the int 0 when [m] is 0.  On an id beyond 64 bits
    the call raises OverflowError, whatever the table. *)
Theorem generar_informe_lectura_spec {prims : Primitives} (libro_id : Z) (d : db) :
  if is_int64 libro_id then
    ((forall r, In r (rows (libros d)) -> Libro.id r <> libro_id) ->
     generar_informe_lectura libro_id d = Ok []) /\
    (forall r, find (fun r => Libro.id r =? libro_id) (rows (libros d)) = Some r ->
     generar_informe_lectura libro_id d =
     Ok (dict_zip column_names (Libro.tuple r) ++
         [(PStr "total_libros_leidos", PInt (total_libros (obtener_estadisticas d)));
          (PStr "promedio_calificacion_global",
           promedio_calificacion (obtener_estadisticas d))]) /\
     total_libros (obtener_estadisticas d) = Z.of_nat (List.length (rows (libros d))) /\
     (Forall (fun v => v = VNull) (map Libro.calificacion (rows (libros d))) ->
      promedio_calificacion (obtener_estadisticas d) = PInt 0) /\
     (forall (ks : list Z) (m : Z),
         Forall2 halves (map Libro.calificacion (rows (libros d))) ks ->
         Forall (fun k => 0 <= k <= 10) ks ->
         fold_right Z.add 0 ks = m * Z.of_nat (List.length ks) ->
         promedio_calificacion (obtener_estadisticas d)
         = if m =? 0 then PInt 0 else PFloat (Qred (inject_Z m / 2))))
  else generar_informe_lectura libro_id d = Raise OverflowError.
Proof.
  unfold generar_informe_lectura, select_libro_by_id. simpl.
  destruct (is_int64 libro_id); [ | reflexivity ]. simpl.
  rewrite (filter_ext_in _ _ _ (id_is_int libro_id)).
  split.
  - intros H. rewrite filter_none; [ reflexivity | ].
    intros r Hr. apply Z.eqb_neq, H, Hr.
  - intros r H. destruct (filter_find _ _ _ H) as [l' ->]. simpl.
    split; [ reflexivity | ]. split; [ reflexivity | ]. split.
    + intros Hnull. unfold obtener_estadisticas, avg; simpl.
      rewrite (reals_of_null _ Hnull). reflexivity.
    + intros ks m Hks _ Hsum.
      assert (Hne : ks <> []).
      { intros ->. inversion Hks as [Hnil |].
        destruct (rows (libros d)); [ discriminate H | discriminate Hnil ]. }
      unfold obtener_estadisticas. cbn [promedio_calificacion].
      rewrite (avg_halves _ ks m Hks Hne Hsum). unfold py_or. cbn [fetch truthy].
      destruct (Z.eqb_spec m 0) as [-> | Hm]; [ reflexivity | ].
      replace (Qeq_bool (Qred (inject_Z m / 2)) 0) with false; [ reflexivity | ].
      symmetry. apply not_true_is_false. intros Hq.
      apply Qeq_bool_eq in Hq. rewrite Qred_correct in Hq.
      apply Hm. unfold Qeq in Hq. simpl in Hq. lia.
Qed.

Definition informe_example_db : db :=
  mk_db
    (mk_table
       [Libro.mk 1 (VText "It") (VText "King") (VText "Terror") (VText "")
          (VInt 2024) (VText "2024-10-31") (VReal 5) (VInt 1138) (VText "")
          (VText "") (VText "2024-11-01 09:00:00") (VText "2024-11-01 09:00:00")]
       1)
    empty_table.

(** Three books, rated 5, 5 and 2: the mean of the ratings is 4, not the
    rating of any of them. *)
Definition tres_calificaciones : db :=
  mk_db
    (mk_table
       [Libro.mk 1 (VText "It") (VText "King") (VText "Terror") (VText "")
          (VInt 2024) (VText "2024-10-31") (VReal 5) (VInt 1138) (VText "")
          (VText "") (VText "2024-11-01 09:00:00") (VText "2024-11-01 09:00:00");
        Libro.mk 2 (VText "Dune") (VText "Herbert") (VText "Novela") (VText "")
          (VInt 2024) (VText "2024-11-20") (VReal 5) (VInt 412) (VText "")
          (VText "") (VText "2024-11-21 09:00:00") (VText "2024-11-21 09:00:00");
        Libro.mk 3 (VText "Emma") (VText "Austen") (VText "Novela") (VText "")
          (VInt 2025) (VText "2025-01-10") (VReal 2) (VInt 474) (VText "")
          (VText "") (VText "2025-01-11 09:00:00") (VText "2025-01-11 09:00:00")]
       3)
    empty_table.

Lemma generar_informe_lectura_spec_witness :
  generar_informe_lectura 4 tres_calificaciones = Ok [] /\
  generar_informe_lectura 2 tres_calificaciones =
  Ok (dict_zip column_names
        [VInt 2; VText "Dune"; VText "Herbert"; VText "Novela"; VText "";
         VInt 2024; VText "2024-11-20"; VReal 5; VInt 412; VText "";
         VText ""; VText "2024-11-21 09:00:00"; VText "2024-11-21 09:00:00"] ++
      [(PStr "total_libros_leidos", PInt 3);
       (PStr "promedio_calificacion_global", PFloat 4)]) /\
  generar_informe_lectura (2 ^ 63) tres_calificaciones = Raise OverflowError.
Proof.
  split; [ | split ].
  - apply (proj1 (generar_informe_lectura_spec 4 tres_calificaciones)).
    intros r [<- | [<- | [<- | []]]]; simpl; lia.
  - pose proof (proj2 (generar_informe_lectura_spec 2 tres_calificaciones)) as H.
    destruct (H _ eq_refl) as [Hr [Ht [_ Hm]]].
    rewrite Hr, Ht.
    rewrite (Hm [10; 10; 4] 8).
    + reflexivity.
    + repeat constructor; eexists; (split; [ reflexivity | reflexivity ]).
    + repeat constructor; lia.
    + reflexivity.
  - exact (generar_informe_lectura_spec (2 ^ 63) tres_calificaciones).
Defined.

(** C8, where it fails.  An id beyond 64 bits, which no book has, does not
    give the empty dict: the call raises OverflowError. *)
Lemma informe_of_big_id_raises :
  (forall r, In r (rows (libros informe_example_db)) -> Libro.id r <> 2 ^ 63) /\
  generar_informe_lectura (2 ^ 63) informe_example_db = Raise OverflowError.
Proof.
  split; [ | reflexivity ].
  intros r [<- | []]. simpl. lia.
Qed.

(** ** Creating a book and asking for it back *)

Lemma mapM_length {A B : Type} (f : A -> result B) (l : list A) (l' : list B) :
  mapM f l = Ok l' -> List.length l' = List.length l.
Proof.
  revert l'. induction l as [| a l IH]; simpl; intros l' H.
  - injection H as <-. reflexivity.
  - apply bind_ok in H. destruct H as [b [_ H]].
    apply bind_ok in H. destruct H as [bs [Hbs H]].
    injection H as <-. simpl. f_equal. apply IH, Hbs.
Qed.

Lemma sort_by_length {A : Type} (le : A -> A -> bool) (l : list A) :
  List.length (sort_by le l) = List.length l.
Proof.
  assert (Hins : forall x l, List.length (insert_by le x l) = S (List.length l)).
  { intros x l0. induction l0 as [| y l0 IH]; simpl; [ reflexivity | ].
    destruct (le x y); simpl; [ reflexivity | rewrite IH; reflexivity ]. }
  induction l as [| x l IH]; simpl; [ reflexivity | ].
  rewrite Hins, IH. reflexivity.
Qed.

(** A book that [crear_libro] stores is the last row of the table, and a
    list filtered on its id has as many books as the table, not one. *)
Lemma crear_libro_then_list_by_id {prims : Primitives}
    (now : clock) (libro_data : pydict) (d d' : db) (id : Z) :
  crear_libro now libro_data d = Ok (id, d') ->
  exists r,
    rows (libros d') = rows (libros d) ++ [r] /\ Libro.id r = id /\
    exists found,
      obtener_libros (Some [(PStr "id", PInt id)]) d' = Ok found /\
      List.length found = S (List.length (rows (libros d))).
Proof.
  unfold crear_libro, insert_libro. intros H.
  apply bind_ok in H. destruct H as [params [_ H]].
  apply bind_ok in H. destruct H as [[id' t] [H E]].
  injection E as <- <-.
  apply bind_ok in H. destruct H as [vs [_ H]].
  destruct (libro_of _ vs _ _) as [r |]; [ | discriminate ].
  destruct (rowid_free Libro.id (libros d)); [ | discriminate ].
  destruct (not_null r); [ | discriminate ].
  injection H as <- <-. simpl.
  exists r. split; [ reflexivity | ]. split; [ reflexivity | ].
  eexists. split.
  - rewrite obtener_libros_by_id. apply obtener_libros_all.
  - simpl. rewrite !length_map, sort_by_length, length_app. simpl. lia.
Qed.

Definition segundo_libro : pydict :=
  [(PStr "titulo", PStr "Dune"); (PStr "autor", PStr "Herbert");
   (PStr "genero", PStr "Novela")].

Definition enero : clock := mk_clock 2025 "2025-01-15" "2025-01-15 18:30:00".
Definition segundo_alta : clock := mk_clock 2024 "2024-01-15" "2024-11-02 18:30:00".

(** C1, as the code runs it.  With one book in the table, [crear_libro]
    stores a second one under id 2, and the list filtered on this id has two
    books, the other one first: the filter on [id] is not applied. *)
Theorem crear_libro_list_by_id_returns_every_book :
  exists d',
    crear_libro segundo_alta segundo_libro informe_example_db = Ok (2, d') /\
    obtener_libros (Some [(PStr "id", PInt 2)]) d' =
    Ok [dict_zip column_names
          [VInt 1; VText "It"; VText "King"; VText "Terror"; VText "";
           VInt 2024; VText "2024-10-31"; VReal 5; VInt 1138; VText "";
           VText ""; VText "2024-11-01 09:00:00"; VText "2024-11-01 09:00:00"];
        dict_zip column_names
          [VInt 2; VText "Dune"; VText "Herbert"; VText "Novela"; VText "";
           VInt 2024; VText "2024-01-15"; VReal 0; VInt 0; VText "";
           VText ""; VText "2024-11-02 18:30:00"; VText "2024-11-02 18:30:00"]].
Proof.
  eexists. split; [ reflexivity | vm_compute; reflexivity ].
Qed.

(** ** Dicts *)

Lemma lookup_setitem_eq (k : string) (v : pyobj) (d : pydict) :
  lookup k (setitem k v d) = Some v.
Proof.
  induction d as [| [k' v'] d IH]; simpl.
  - rewrite String.eqb_refl. reflexivity.
  - destruct (key_is k k') eqn:E; simpl; rewrite E; [ reflexivity | exact IH ].
Qed.

Lemma lookup_setitem_ne (k k' : string) (v : pyobj) (d : pydict) :
  k <> k' -> lookup k' (setitem k v d) = lookup k' d.
Proof.
  intros Hne. induction d as [| [k0 v0] d IH]; simpl.
  - destruct (String.eqb_spec k k'); [ contradiction | reflexivity ].
  - destruct (key_is k k0) eqn:E; simpl.
    + destruct (key_is k' k0) eqn:E'; [ | reflexivity ].
      destruct k0; simpl in E, E'; try discriminate.
      apply String.eqb_eq in E, E'. congruence.
    + rewrite IH. reflexivity.
Qed.

(** ** The conversions of the coordinator *)

(** What [int()] makes of a text, [default] standing for a ValueError. *)
Definition int_or (default : Z) (s : string) : Z :=
  match int_of_text s with
  | Ok z => z
  | Raise _ => default
  end.

(** The entry of a numeric field after the conversion, from its text. *)
Definition converted (default : Z) (s : string) : pyobj :=
  if String.eqb s "" then PStr "" else PInt (int_or default s).

Lemma int_of_text_raises (s : string) (e : exn) :
  int_of_text s = Raise e -> e = ValueError.
Proof.
  unfold int_of_text.
  assert (H : forall (neg : bool) (t : string),
    match int_digits t 0 0%nat false with
    | Some (z, n) =>
        if Nat.leb n max_str_digits then Ok (if neg then - z else z)
        else Raise ValueError
    | None => Raise ValueError
    end = Raise e -> e = ValueError).
  { intros neg t. destruct (int_digits t 0 0%nat false) as [[z n] |].
    - destruct (Nat.leb n max_str_digits); intros [=]; auto.
    - intros [=]; auto. }
  destruct (lstrip s) as [| c t]; [ exact (H false EmptyString) | ].
  destruct c as [[] [] [] [] [] [] [] []];
    match goal with
    | |- context [int_digits ?u _ _ _] =>
        first [ exact (H false u) | exact (H true u) ]
    end.
Qed.

Lemma convertir_text (key : string) (default : Z) (book_data : pydict) (s : string) :
  lookup key book_data = Some (PStr s) ->
  convertir key default book_data =
  Ok (if String.eqb s "" then book_data
      else setitem key (PInt (int_or default s)) book_data).
Proof.
  intros H. unfold convertir, get, getitem, int_or. rewrite H. simpl.
  destruct (String.eqb s ""); simpl; [ reflexivity | ].
  destruct (int_of_text s) as [z | e] eqn:E; [ reflexivity | ].
  rewrite (int_of_text_raises s e E). reflexivity.
Qed.

Lemma lookup_converted (key : string) (default : Z) (book_data : pydict) (s : string) :
  lookup key book_data = Some (PStr s) ->
  lookup key (if String.eqb s "" then book_data
              else setitem key (PInt (int_or default s)) book_data)
  = Some (converted default s).
Proof.
  intros H. unfold converted.
  destruct (String.eqb_spec s "") as [-> | _]; [ exact H | apply lookup_setitem_eq ].
Qed.

Lemma lookup_converted_ne (key k : string) (default : Z) (book_data : pydict) (s : string) :
  key <> k ->
  lookup k (if String.eqb s "" then book_data
            else setitem key (PInt (int_or default s)) book_data)
  = lookup k book_data.
Proof.
  intros H. destruct (String.eqb s ""); [ reflexivity | apply lookup_setitem_ne, H ].
Qed.

(** C9, as the code has it.  When the year and the page count arrive as
    text, the conversion never fails and hands the repository a dict in
    which each of the two is: the empty text when the text is empty; the
    integer [int()] reads when it reads one; otherwise the default, the
    current year or zero.  Every other entry is as it came.  [add_book] and
    [update_book] then call the repository once, with this dict; when the
    call raises, nothing changes and the message is the error; when it
    returns, [add_book] clears the form, both refresh the table of the
    window, and the message is the success unless the refresh raised. *)
Theorem convertir_tipos_spec {prims : Primitives}
    (now : clock) (book_data : pydict) (anio paginas : string)
    (Hanio : lookup "anio_lectura" book_data = Some (PStr anio))
    (Hpaginas : lookup "paginas" book_data = Some (PStr paginas)) :
  exists converted_data,
    convertir_tipos now book_data = Ok converted_data /\
    lookup "anio_lectura" converted_data = Some (converted (year now) anio) /\
    lookup "paginas" converted_data = Some (converted 0 paginas) /\
    (forall k, k <> "anio_lectura" -> k <> "paginas" ->
               lookup k converted_data = lookup k book_data) /\
    (anio <> "" -> int_of_text anio = Raise ValueError ->
     lookup "anio_lectura" converted_data = Some (PInt (year now))) /\
    (paginas <> "" -> int_of_text paginas = Raise ValueError ->
     lookup "paginas" converted_data = Some (PInt 0)) /\
    (forall f d v,
        get_form_data f = book_data ->
        campos_obligatorios book_data = true ->
        add_book now f d v =
        match crear_libro now converted_data d with
        | Ok (_, d') =>
            match _refresh_books_table None d' v with
            | (v', None) => (d', v', clear_form now, LibroAgregado)
            | (v', Some e) => (d', v', clear_form now, NoSePudoAgregar e)
            end
        | Raise e => (d, v, f, NoSePudoAgregar e)
        end) /\
    (forall d v book_id,
        campos_obligatorios book_data = true ->
        update_book now book_id book_data d v =
        match actualizar_libro now book_id converted_data d with
        | Ok (_, d') =>
            match _refresh_books_table None d' v with
            | (v', None) => (d', v', LibroActualizado)
            | (v', Some e) => (d', v', NoSePudoActualizar e)
            end
        | Raise e => (d, v, NoSePudoActualizar e)
        end).
Proof.
  set (bd1 := if String.eqb anio "" then book_data
              else setitem "anio_lectura" (PInt (int_or (year now) anio)) book_data).
  assert (H1 : convertir "anio_lectura" (year now) book_data = Ok bd1)
    by (apply convertir_text, Hanio).
  assert (Hp1 : lookup "paginas" bd1 = Some (PStr paginas)).
  { unfold bd1. rewrite lookup_converted_ne by discriminate. exact Hpaginas. }
  set (bd2 := if String.eqb paginas "" then bd1
              else setitem "paginas" (PInt (int_or 0 paginas)) bd1).
  assert (H2 : convertir "paginas" 0 bd1 = Ok bd2) by (apply convertir_text, Hp1).
  assert (Hc : convertir_tipos now book_data = Ok bd2).
  { unfold convertir_tipos. rewrite H1. simpl. exact H2. }
  assert (La : lookup "anio_lectura" bd2 = Some (converted (year now) anio)).
  { unfold bd2. rewrite lookup_converted_ne by discriminate.
    apply lookup_converted, Hanio. }
  assert (Lp : lookup "paginas" bd2 = Some (converted 0 paginas)).
  { apply lookup_converted, Hp1. }
  exists bd2. split; [ exact Hc | ]. split; [ exact La | ]. split; [ exact Lp | ].
  split.
  { intros k Ha Hp. unfold bd2. rewrite lookup_converted_ne by congruence.
    unfold bd1. apply lookup_converted_ne. congruence. }
  split.
  { intros Hne Herr. rewrite La. unfold converted, int_or. rewrite Herr.
    destruct (String.eqb_spec anio ""); [ contradiction | reflexivity ]. }
  split.
  { intros Hne Herr. rewrite Lp. unfold converted, int_or. rewrite Herr.
    destruct (String.eqb_spec paginas ""); [ contradiction | reflexivity ]. }
  split.
  - intros f d v Hf Hv. unfold add_book. rewrite Hf, Hv, Hc. simpl.
    destruct (crear_libro now bd2 d) as [[id d'] | e]; [ | reflexivity ].
    destruct (_refresh_books_table None d' v) as [v' [e |]]; reflexivity.
  - intros d v book_id Hv. unfold update_book. rewrite Hv, Hc. simpl.
    destruct (actualizar_libro now book_id bd2 d) as [[ok d'] | e]; [ | reflexivity ].
    destruct (_refresh_books_table None d' v) as [v' [e |]]; reflexivity.
Qed.

Definition formulario_texto : form :=
  mk_form "Dune" "Herbert" "Novela" "" "dos mil" 4.5 "12x" "" "".

Lemma convertir_tipos_spec_witness :
  lookup "anio_lectura" (get_form_data formulario_texto) = Some (PStr "dos mil") /\
  lookup "paginas" (get_form_data formulario_texto) = Some (PStr "12x") /\
  exists converted_data,
    convertir_tipos enero (get_form_data formulario_texto) = Ok converted_data /\
    lookup "anio_lectura" converted_data = Some (PInt 2025) /\
    lookup "paginas" converted_data = Some (PInt 0).
Proof.
  split; [ reflexivity | ]. split; [ reflexivity | ].
  destruct (convertir_tipos_spec enero (get_form_data formulario_texto)
              "dos mil" "12x" eq_refl eq_refl)
    as [cd [Hc [_ [_ [_ [Ha [Hp _]]]]]]].
  exists cd. split; [ exact Hc | ]. split.
  - apply Ha; [ discriminate | reflexivity ].
  - apply Hp; [ discriminate | reflexivity ].
Defined.

Definition formulario_sin_anio : form :=
  mk_form "Dune" "Herbert" "Novela" "" "" 4.5 "" "" "".

(** The window before any table is shown in it. *)
Definition ventana : view := mk_view "" "" "" [] [] [] [].

(** C9, the counterexample.  An empty year is not an integer for [int()],
    yet [add_book] does not store the current year: it stores the empty
    text, and shows the message of success. *)
Lemma empty_year_is_not_replaced :
  int_of_text (form_anio_lectura formulario_sin_anio) = Raise ValueError /\
  exists d' v',
    add_book enero formulario_sin_anio (first_start enero) ventana
    = (d', v', clear_form enero, LibroAgregado) /\
    map Libro.anio_lectura (rows (libros d')) = [VText ""] /\
    map Libro.anio_lectura (rows (libros d')) <> [VInt (year enero)].
Proof.
  split; [ reflexivity | ].
  eexists. eexists. split; [ vm_compute; reflexivity | ].
  split; [ reflexivity | discriminate ].
Qed.

(** ** Updating a book *)

(** The objects the sqlite3 module accepts for a placeholder. *)
Definition bindable (o : pyobj) : bool :=
  match o with
  | PNone | PBool _ | PFloat _ | PStr _ => true
  | PInt z => is_int64 z
  | PList _ | PDict _ => false
  end.

(** The cell a bindable object is bound as. *)
Definition bound (o : pyobj) : value :=
  match o with
  | PNone | PList _ | PDict _ => VNull
  | PBool b => VInt (if b then 1 else 0)
  | PInt z => VInt z
  | PFloat q => VReal q
  | PStr s => VText s
  end.

(** A required field: there, bindable, and not None. *)
Definition required (k : string) (libro_data : pydict) : bool :=
  match lookup k libro_data with
  | Some PNone | None => false
  | Some v => bindable v
  end.

(** An optional field: bindable when it is there. *)
Definition optional (k : string) (libro_data : pydict) : bool :=
  match lookup k libro_data with
  | Some v => bindable v
  | None => true
  end.

(** A dict of the fields of a book that the table accepts. *)
Definition valid_libro_data (libro_data : pydict) : bool :=
  required "titulo" libro_data && required "autor" libro_data
  && required "genero" libro_data && optional "subgenero" libro_data
  && optional "anio_lectura" libro_data && optional "fecha_lectura" libro_data
  && optional "calificacion" libro_data && optional "paginas" libro_data
  && optional "editorial" libro_data && optional "comentario" libro_data.

(** The row [r] with its ten fields replaced from [libro_data], defaults
    included, its id and creation time kept, its update time set to now. *)
Definition replaced {prims : Primitives} (now : clock) (libro_data : pydict)
    (r : Libro.t) : Libro.t :=
  Libro.mk (Libro.id r)
    (cast AffText (bound (get "titulo" PNone libro_data)))
    (cast AffText (bound (get "autor" PNone libro_data)))
    (cast AffText (bound (get "genero" PNone libro_data)))
    (cast AffText (bound (get "subgenero" (PStr "") libro_data)))
    (cast AffInteger (bound (get "anio_lectura" (PInt (year now)) libro_data)))
    (cast AffNumeric (bound (get "fecha_lectura" (PStr (today now)) libro_data)))
    (cast AffReal (bound (get "calificacion" (PInt 0) libro_data)))
    (cast AffInteger (bound (get "paginas" (PInt 0) libro_data)))
    (cast AffText (bound (get "editorial" (PStr "") libro_data)))
    (cast AffText (bound (get "comentario" (PStr "") libro_data)))
    (Libro.fecha_creacion r)
    (VText (timestamp now)).

Lemma bind_param_bound {prims : Primitives} (o : pyobj) :
  bindable o = true -> bind_param o = Ok (bound o).
Proof.
  destruct o; simpl; intros H; try reflexivity; try discriminate.
  rewrite H. reflexivity.
Qed.

Lemma required_get (k : string) (d : pydict) :
  required k d = true ->
  getitem k d = Ok (get k PNone d) /\ bindable (get k PNone d) = true /\
  get k PNone d <> PNone.
Proof.
  unfold required, getitem, get. destruct (lookup k d) as [v |]; [ | discriminate ].
  destruct v; intros H; repeat split; try discriminate; exact H.
Qed.

Lemma optional_get (k : string) (default : pyobj) (d : pydict) :
  optional k d = true -> bindable default = true -> bindable (get k default d) = true.
Proof.
  unfold optional, get. destruct (lookup k d); auto.
Qed.

Lemma cast_text_not_null {prims : Primitives} (o : pyobj) :
  bindable o = true -> o <> PNone -> is_null (cast AffText (bound o)) = false.
Proof.
  destruct o; simpl; intros H Hn; try reflexivity; try discriminate.
  contradiction.
Qed.

Lemma map_ext_all {A B : Type} (f g : A -> B) (l : list A) :
  (forall x, f x = g x) -> map f l = map g l.
Proof.
  intros H. induction l as [| x l IH]; simpl; [ reflexivity | ].
  rewrite H, IH. reflexivity.
Qed.

Lemma map_unchanged {A : Type} (f : A -> A) (l : list A) :
  (forall x, In x l -> f x = x) -> map f l = l.
Proof.
  induction l as [| x l IH]; simpl; intros H; [ reflexivity | ].
  rewrite (H x (or_introl eq_refl)), IH; auto.
Qed.


Definition libro_completo : pydict :=
  [(PStr "titulo", PStr "It"); (PStr "autor", PStr "Stephen King");
   (PStr "genero", PStr "Terror"); (PStr "subgenero", PStr "");
   (PStr "anio_lectura", PInt 2024); (PStr "calificacion", PFloat 4.5);
   (PStr "paginas", PInt 1138); (PStr "editorial", PStr "Viking");
   (PStr "comentario", PStr "Releido.")].



(** ** The order of values *)

Lemma Qcompare_inject_Z (x y : Z) : (inject_Z x ?= inject_Z y)%Q = (x ?= y).
Proof. unfold Qcompare; simpl. rewrite !Z.mul_1_r. reflexivity. Qed.

Lemma Qcompare_le_trans (p q r : Q) :
  (p ?= q)%Q <> Gt -> (q ?= r)%Q <> Gt -> (p ?= r)%Q <> Gt.
Proof.
  rewrite <- !Qle_alt. apply Qle_trans.
Qed.

Lemma Qcompare_eq_l (p q r : Q) :
  (p ?= q)%Q = Eq -> (p ?= r)%Q = (q ?= r)%Q.
Proof.
  intros H. apply Qeq_alt in H. rewrite H. reflexivity.
Qed.

Lemma string_compare_le_trans (s t u : string) :
  String.compare s t <> Gt -> String.compare t u <> Gt -> String.compare s u <> Gt.
Proof.
  intros H1 H2 H3.
  assert (L : forall a b, String.compare a b <> Gt ->
                          a = b \/ String_as_OT.lt a b).
  { intros a b H. destruct (String.compare a b) eqn:E.
    - left. apply String_as_OT.cmp_eq, E.
    - right. apply String_as_OT.cmp_lt, E.
    - contradiction. }
  assert (G : String_as_OT.lt u s).
  { apply String_as_OT.cmp_lt. change (String.compare u s = Lt).
    rewrite String.compare_antisym, H3. reflexivity. }
  destruct (L _ _ H1) as [-> | L1], (L _ _ H2) as [-> | L2].
  - exact (String_as_OT.lt_not_eq _ _ G eq_refl).
  - exact (String_as_OT.lt_not_eq _ _ (String_as_OT.lt_trans _ _ _ L2 G) eq_refl).
  - exact (String_as_OT.lt_not_eq _ _ (String_as_OT.lt_trans _ _ _ L1 G) eq_refl).
  - exact (String_as_OT.lt_not_eq _ _
             (String_as_OT.lt_trans _ _ _ (String_as_OT.lt_trans _ _ _ L1 L2) G)
             eq_refl).
Qed.

Section Order.
Context {prims : Primitives}.

Lemma compare_values_antisym (a b : value) :
  compare_values b a = CompOpp (compare_values a b).
Proof.
  destruct a, b; simpl; try reflexivity.
  - apply Z.compare_antisym.
  - symmetry. apply Qcompare_antisym.
  - symmetry. apply Qcompare_antisym.
  - symmetry. apply Qcompare_antisym.
  - apply String.compare_antisym.
Qed.

Lemma compare_values_le_trans (a b c : value) :
  compare_values a b <> Gt -> compare_values b c <> Gt -> compare_values a c <> Gt.
Proof.
  destruct a, b, c; simpl; try rewrite <- !Qcompare_inject_Z;
    try congruence; try apply Qcompare_le_trans; try apply string_compare_le_trans.
Qed.

Lemma compare_values_eq_l (a b c : value) :
  compare_values a b = Eq -> compare_values a c = compare_values b c.
Proof.
  destruct a, b, c; simpl; try rewrite <- !Qcompare_inject_Z;
    try congruence; try apply Qcompare_eq_l.
  intros H. apply String.compare_eq_iff in H. rewrite H. reflexivity.
Qed.

Lemma compare_values_refl (a : value) : compare_values a a = Eq.
Proof.
  destruct a; simpl.
  - reflexivity.
  - apply Z.compare_refl.
  - apply Qeq_alt. reflexivity.
  - apply String_as_OT.cmp_eq. reflexivity.
Qed.

Lemma compare_values_eq_sym (a b : value) :
  compare_values a b = Eq -> compare_values b a = Eq.
Proof.
  intros H. rewrite compare_values_antisym, H. reflexivity.
Qed.

Lemma compare_values_eq_r (a b c : value) :
  compare_values a b = Eq -> compare_values c a = compare_values c b.
Proof.
  intros H. rewrite (compare_values_antisym a c), (compare_values_antisym b c).
  f_equal. apply compare_values_eq_l, H.
Qed.

Lemma asc_total (a b : value) : asc a b = false -> asc b a = true.
Proof.
  unfold asc. rewrite (compare_values_antisym a b).
  destruct (compare_values a b); simpl; congruence.
Qed.

Lemma asc_trans (a b c : value) : asc a b = true -> asc b c = true -> asc a c = true.
Proof.
  unfold asc. intros H1 H2.
  assert (H : compare_values a c <> Gt).
  { apply (compare_values_le_trans a b c).
    - destruct (compare_values a b); congruence.
    - destruct (compare_values b c); congruence. }
  destruct (compare_values a c); congruence.
Qed.

Lemma desc_total (a b : value) : desc a b = false -> desc b a = true.
Proof.
  unfold desc. rewrite (compare_values_antisym a b).
  destruct (compare_values a b); simpl; congruence.
Qed.

Lemma desc_asc (a b : value) : desc a b = asc b a.
Proof.
  unfold desc, asc. rewrite (compare_values_antisym a b).
  destruct (compare_values a b); reflexivity.
Qed.

End Order.

(** ** Insertion sort *)

Section Sort.
Variable A : Type.
Variable le : A -> A -> bool.
Hypothesis le_total : forall x y, le x y = false -> le y x = true.
Hypothesis le_trans : forall x y z, le x y = true -> le y z = true -> le x z = true.

Lemma insert_by_perm (x : A) (l : list A) : Permutation (insert_by le x l) (x :: l).
Proof.
  induction l as [| y l IH]; simpl; [ apply Permutation_refl | ].
  destruct (le x y); [ apply Permutation_refl | ].
  apply perm_trans with (y :: x :: l); [ apply perm_skip, IH | apply perm_swap ].
Qed.

Lemma sort_by_perm (l : list A) : Permutation (sort_by le l) l.
Proof.
  induction l as [| x l IH]; simpl; [ apply perm_nil | ].
  apply perm_trans with (x :: sort_by le l);
    [ apply insert_by_perm | apply perm_skip, IH ].
Qed.

Lemma insert_by_sorted (x : A) (l : list A) :
  StronglySorted (fun a b => le a b = true) l ->
  StronglySorted (fun a b => le a b = true) (insert_by le x l).
Proof.
  induction l as [| y l IH]; simpl; intros H.
  - constructor; constructor.
  - inversion H as [| ? ? Hs Hf]; subst.
    destruct (le x y) eqn:E.
    + constructor; [ exact H | ].
      constructor; [ exact E | ].
      apply Forall_forall. intros z Hz.
      apply (le_trans x y z E). exact (proj1 (Forall_forall _ _) Hf z Hz).
    + constructor; [ apply IH, Hs | ].
      apply Forall_forall. intros z Hz.
      apply (Permutation_in _ (insert_by_perm x l)) in Hz.
      destruct Hz as [<- | Hz]; [ apply le_total, E | ].
      exact (proj1 (Forall_forall _ _) Hf z Hz).
Qed.

Lemma sort_by_sorted (l : list A) :
  StronglySorted (fun a b => le a b = true) (sort_by le l).
Proof.
  induction l as [| x l IH]; simpl; [ constructor | apply insert_by_sorted, IH ].
Qed.

End Sort.

(** ** Groups and their counts *)

(** Two values that GROUP BY puts in one group. *)
Definition same (a b : value) : bool :=
  match compare_values a b with Eq => true | _ => false end.

(** How many of [keys] are in the group of [k]. *)
Definition occurrences (k : value) (keys : list value) : Z :=
  Z.of_nat (List.length (filter (same k) keys)).

(** [a] is strictly before [b] in the order of values. *)
Definition before (a b : value) : Prop := compare_values a b = Lt.

(** The groups of a breakdown: [groups] lists, once each, the groups of
    [keys] that are not empty, with the number of keys in each. *)
Definition breakdown_of (keys : list value) (groups : list (value * Z)) : Prop :=
  (forall k n, In (k, n) groups -> n = occurrences k keys /\ 0 < n) /\
  (forall k, In k keys -> exists k' n, In (k', n) groups /\ same k k' = true) /\
  NoDup groups /\
  (forall g h, In g groups -> In h groups -> same (fst g) (fst h) = true -> g = h).

Lemma same_eq_l (a b c : value) : same a b = true -> same a c = same b c.
Proof.
  unfold same. intros H.
  destruct (compare_values a b) eqn:E; try discriminate.
  rewrite (compare_values_eq_l a b c E). reflexivity.
Qed.

Lemma same_eq_r (a b c : value) : same a b = true -> same c a = same c b.
Proof.
  unfold same. intros H.
  destruct (compare_values a b) eqn:E; try discriminate.
  rewrite (compare_values_eq_r a b c E). reflexivity.
Qed.

Lemma same_refl (a : value) : same a a = true.
Proof. unfold same. rewrite compare_values_refl. reflexivity. Qed.

Lemma before_not_same (a b : value) : before a b -> same a b = false.
Proof. unfold before, same. intros ->. reflexivity. Qed.

Lemma asc_before (a b c : value) : asc a b = true -> before b c -> before a c.
Proof.
  unfold asc, before. intros H1 H2.
  destruct (compare_values a c) eqn:E; [ | reflexivity | ].
  - rewrite (compare_values_eq_l a c b E) in H1.
    rewrite (compare_values_antisym b c), H2 in H1. discriminate.
  - exfalso.
    apply (compare_values_le_trans c a b).
    + rewrite (compare_values_antisym a c), E. discriminate.
    + destruct (compare_values a b); congruence.
    + rewrite (compare_values_antisym b c), H2. reflexivity.
Qed.

(** The sum of the counts of the groups of [k]. *)
Definition group_total (k : value) (groups : list (value * Z)) : Z :=
  fold_right Z.add 0 (map snd (filter (fun g => same k (fst g)) groups)).

Lemma occurrences_cons (k x : value) (l : list value) :
  occurrences k (x :: l) = (if same k x then 1 else 0) + occurrences k l.
Proof.
  unfold occurrences. cbn [filter].
  destruct (same k x); [ cbn [List.length]; rewrite Nat2Z.inj_succ; lia | lia ].
Qed.

Lemma group_total_cons (k : value) (g : value * Z) (groups : list (value * Z)) :
  group_total k (g :: groups)
  = (if same k (fst g) then snd g else 0) + group_total k groups.
Proof.
  unfold group_total; simpl. destruct (same k (fst g)); simpl; lia.
Qed.

Lemma count_runs_cons (x : value) (l : list value) :
  (exists k n rest, count_runs l = (k, n) :: rest /\ compare_values x k = Eq /\
                    count_runs (x :: l) = (x, n + 1) :: rest) \/
  (count_runs (x :: l) = (x, 1) :: count_runs l /\
   forall k n rest, count_runs l = (k, n) :: rest -> compare_values x k <> Eq).
Proof.
  simpl. destruct (count_runs l) as [| [k n] rest] eqn:E.
  - right. split; [ reflexivity | discriminate ].
  - destruct (compare_values x k) eqn:C.
    + left. exists k, n, rest. auto.
    + right. split; [ reflexivity | ]. intros k' n' r' [= <- <- <-]. congruence.
    + right. split; [ reflexivity | ]. intros k' n' r' [= <- <- <-]. congruence.
Qed.

Lemma count_runs_total (k : value) (l : list value) :
  group_total k (count_runs l) = occurrences k l.
Proof.
  induction l as [| x l IH]; [ reflexivity | ].
  rewrite occurrences_cons, <- IH.
  destruct (count_runs_cons x l) as [[k1 [n [rest [E [C ->]]]]] | [-> _]].
  - rewrite E, !group_total_cons; simpl.
    assert (S : same k x = same k k1).
    { apply same_eq_r. unfold same. rewrite C. reflexivity. }
    rewrite S. destruct (same k k1); lia.
  - rewrite group_total_cons; simpl. reflexivity.
Qed.

Lemma count_runs_positive (l : list value) :
  Forall (fun g => 0 < snd g) (count_runs l).
Proof.
  induction l as [| x l IH]; [ constructor | ].
  destruct (count_runs_cons x l) as [[k1 [n [rest [E [C ->]]]]] | [-> _]].
  - rewrite E in IH. inversion IH; subst; simpl in *.
    constructor; [ simpl; lia | assumption ].
  - constructor; [ simpl; lia | exact IH ].
Qed.

Lemma count_runs_keys (l : list value) (k : value) (n : Z) :
  In (k, n) (count_runs l) -> In k l.
Proof.
  revert k n. induction l as [| x l IH]; intros k n; [ intros [] | ].
  destruct (count_runs_cons x l) as [[k1 [m [rest [E [C ->]]]]] | [-> _]].
  - intros [[= <- <-] | H]; [ left; reflexivity | ].
    right. apply (IH k n). rewrite E. right. exact H.
  - intros [[= <- <-] | H]; [ left; reflexivity | ].
    right. apply (IH k n H).
Qed.

Lemma count_runs_sorted (l : list value) :
  StronglySorted (fun a b => asc a b = true) l ->
  StronglySorted (fun g h => before (fst g) (fst h)) (count_runs l).
Proof.
  induction l as [| x l IH]; intros H; [ constructor | ].
  inversion H as [| ? ? Hs Hf]; subst. specialize (IH Hs).
  destruct (count_runs_cons x l) as [[k1 [m [rest [E [C ->]]]]] | [-> Hne]].
  - rewrite E in IH. inversion IH as [| ? ? Hs' Hf']; subst.
    constructor; [ exact Hs' | ].
    apply Forall_forall. intros g Hg. simpl.
    unfold before. rewrite (compare_values_eq_l x k1 (fst g) C).
    exact (proj1 (Forall_forall _ _) Hf' g Hg).
  - constructor; [ exact IH | ].
    destruct (count_runs l) as [| [k1 m] rest] eqn:E; [ constructor | ].
    assert (Hx1 : before x k1).
    { assert (Hin : In k1 l) by (apply (count_runs_keys l k1 m); rewrite E; left; reflexivity).
      pose proof (proj1 (Forall_forall _ _) Hf k1 Hin) as Ha.
      pose proof (Hne k1 m rest eq_refl) as Hn.
      unfold asc in Ha. unfold before.
      destruct (compare_values x k1); congruence. }
    constructor; [ exact Hx1 | ].
    inversion IH as [| ? ? Hs' Hf']; subst.
    apply Forall_forall. intros g Hg. simpl.
    apply (asc_before x k1 (fst g)).
    + unfold asc. rewrite Hx1. reflexivity.
    + exact (proj1 (Forall_forall _ _) Hf' g Hg).
Qed.

Lemma group_total_unique (groups : list (value * Z)) :
  StronglySorted (fun g h => before (fst g) (fst h)) groups ->
  forall k n, In (k, n) groups -> group_total k groups = n.
Proof.
  induction groups as [| g groups IH]; intros H k n Hin; [ destruct Hin | ].
  inversion H as [| ? ? Hs Hf]; subst.
  rewrite group_total_cons.
  destruct Hin as [-> | Hin]; simpl.
  - rewrite same_refl.
    assert (Z0 : group_total k groups = 0).
    { unfold group_total. rewrite filter_none; [ reflexivity | ].
      intros h Hh. apply before_not_same.
      exact (proj1 (Forall_forall _ _) Hf h Hh). }
    lia.
  - rewrite (IH Hs k n Hin).
    assert (B : before (fst g) k) by exact (proj1 (Forall_forall _ _) Hf (k, n) Hin).
    assert (S : same k (fst g) = false).
    { unfold same, before in *. rewrite (compare_values_antisym (fst g) k), B.
      reflexivity. }
    rewrite S. lia.
Qed.

Lemma sorted_groups_distinct (groups : list (value * Z)) :
  StronglySorted (fun g h => before (fst g) (fst h)) groups ->
  NoDup groups /\
  (forall g h, In g groups -> In h groups -> same (fst g) (fst h) = true -> g = h).
Proof.
  induction 1 as [| g groups Hs [IHn IHp] Hf].
  - split; [ constructor | intros g h [] ].
  - assert (Hb : forall h, In h groups -> same (fst g) (fst h) = false).
    { intros h Hh. apply before_not_same.
      exact (proj1 (Forall_forall _ _) Hf h Hh). }
    split.
    + constructor; [ | exact IHn ].
      intros Hin. specialize (Hb g Hin). rewrite same_refl in Hb. discriminate.
    + intros a b [<- | Ha] [<- | Hb'] Hsame.
      * reflexivity.
      * rewrite (Hb b Hb') in Hsame. discriminate.
      * assert (S : same (fst g) (fst a) = true).
        { unfold same in *. rewrite (compare_values_antisym (fst a) (fst g)).
          destruct (compare_values (fst a) (fst g)); simpl; congruence. }
        rewrite (Hb a Ha) in S. discriminate.
      * apply IHp; assumption.
Qed.

Lemma occurrences_in (k : value) (keys : list value) :
  In k keys -> 0 < occurrences k keys.
Proof.
  induction keys as [| x keys IH]; intros Hin; [ destruct Hin | ].
  rewrite occurrences_cons. destruct Hin as [-> | Hin].
  - rewrite same_refl. unfold occurrences. lia.
  - specialize (IH Hin). destruct (same k x); lia.
Qed.

Lemma group_total_positive (k : value) (groups : list (value * Z)) :
  0 < group_total k groups ->
  exists k' n, In (k', n) groups /\ same k k' = true.
Proof.
  induction groups as [| g groups IH]; [ unfold group_total; simpl; lia | ].
  rewrite group_total_cons. destruct (same k (fst g)) eqn:E.
  - intros _. exists (fst g), (snd g).
    split; [ left; destruct g; reflexivity | exact E ].
  - intros Hpos. destruct IH as [k' [n [Hin' Hs']]]; [ lia | ].
    exists k', n. split; [ right; exact Hin' | exact Hs' ].
Qed.

(** GROUP BY with its counts is a breakdown of the keys, in their order. *)
Lemma group_count_breakdown (keys : list value) :
  breakdown_of keys (group_count keys) /\
  StronglySorted (fun g h => before (fst g) (fst h)) (group_count keys).
Proof.
  unfold group_count.
  assert (Hs : StronglySorted (fun g h => before (fst g) (fst h))
                 (count_runs (sort_by asc keys))).
  { apply count_runs_sorted, sort_by_sorted; [ exact asc_total | exact asc_trans ]. }
  assert (Ho : forall k, occurrences k (sort_by asc keys) = occurrences k keys).
  { intros k. unfold occurrences. f_equal.
    apply Permutation_length.
    assert (P : forall l l' : list value, Permutation l l' ->
                Permutation (filter (same k) l) (filter (same k) l')).
    { induction 1; simpl.
      - constructor.
      - destruct (same k x); [ apply perm_skip | ]; assumption.
      - destruct (same k x), (same k y);
          try apply perm_swap; apply Permutation_refl.
      - eapply perm_trans; eassumption. }
    apply P, sort_by_perm. }
  split; [ | exact Hs ].
  split; [ | split; [ | split ] ].
  - intros k n Hin. split.
    + rewrite <- Ho, <- count_runs_total. symmetry.
      apply group_total_unique; assumption.
    + exact (proj1 (Forall_forall _ _) (count_runs_positive _) (k, n) Hin).
  - intros k Hin. apply group_total_positive.
    rewrite count_runs_total, Ho. apply occurrences_in, Hin.
  - apply sorted_groups_distinct, Hs.
  - apply sorted_groups_distinct, Hs.
Qed.

Lemma breakdown_of_perm (keys : list value) (groups groups' : list (value * Z)) :
  Permutation groups groups' -> breakdown_of keys groups -> breakdown_of keys groups'.
Proof.
  intros P [H1 [H2 [H3 H4]]].
  assert (P' : Permutation groups' groups) by (apply Permutation_sym, P).
  split; [ | split; [ | split ] ].
  - intros k n Hin. apply H1. exact (Permutation_in _ P' Hin).
  - intros k Hin. destruct (H2 k Hin) as [k' [n [Hin' Hs]]].
    exists k', n. split; [ exact (Permutation_in _ P Hin') | exact Hs ].
  - exact (Permutation_NoDup P H3).
  - intros g h Hg Hh. apply H4; [ exact (Permutation_in _ P' Hg) | exact (Permutation_in _ P' Hh) ].
Qed.

Lemma sorted_desc_strict (groups : list (value * Z)) :
  NoDup groups ->
  (forall g h, In g groups -> In h groups -> same (fst g) (fst h) = true -> g = h) ->
  StronglySorted (fun g h => desc (fst g) (fst h) = true) groups ->
  StronglySorted (fun g h => before (fst h) (fst g)) groups.
Proof.
  intros Hn Hp Hs. induction Hs as [| g groups Hs IH Hf].
  - constructor.
  - inversion Hn as [| ? ? Hnot Hn']; subst.
    constructor.
    + apply IH; [ exact Hn' | ].
      intros a b Ha Hb. apply Hp; right; assumption.
    + apply Forall_forall. intros h Hh.
      pose proof (proj1 (Forall_forall _ _) Hf h Hh) as Hd.
      assert (Hne : same (fst g) (fst h) = false).
      { destruct (same (fst g) (fst h)) eqn:E; [ | reflexivity ].
        assert (g = h) by (apply Hp; [ left; reflexivity | right; exact Hh | exact E ]).
        subst h. contradiction. }
      unfold desc in Hd. unfold same in Hne. unfold before.
      rewrite (compare_values_antisym (fst g) (fst h)).
      destruct (compare_values (fst g) (fst h)); simpl; congruence.
Qed.

Lemma sorted_firstn_skipn {A : Type} (R : A -> A -> Prop) (n : nat) (l : list A) :
  StronglySorted R l ->
  forall x y, In x (firstn n l) -> In y (skipn n l) -> R x y.
Proof.
  revert l. induction n as [| n IH]; intros l Hs x y Hx Hy; [ destruct Hx | ].
  destruct l as [| z l]; [ destruct Hx | ].
  inversion Hs as [| ? ? Hs' Hf]; subst. simpl in Hx, Hy.
  destruct Hx as [<- | Hx].
  - apply (proj1 (Forall_forall _ _) Hf).
    rewrite <- (firstn_skipn n l). apply in_or_app. right. exact Hy.
  - apply (IH l Hs' x y Hx Hy).
Qed.

(** ** Statistics *)

Lemma por_anio_total (g h : value * Z) :
  desc (fst g) (fst h) = false -> desc (fst h) (fst g) = true.
Proof. apply desc_total. Qed.

Lemma por_anio_trans (g h i : value * Z) :
  desc (fst g) (fst h) = true -> desc (fst h) (fst i) = true ->
  desc (fst g) (fst i) = true.
Proof.
  rewrite !desc_asc. intros H1 H2. exact (asc_trans _ _ _ H2 H1).
Qed.

Lemma por_cuenta_total (g h : value * Z) :
  (snd h <=? snd g) = false -> (snd g <=? snd h) = true.
Proof. intros H. apply Z.leb_gt in H. apply Z.leb_le. lia. Qed.

Lemma por_cuenta_trans (g h i : value * Z) :
  (snd h <=? snd g) = true -> (snd i <=? snd h) = true -> (snd i <=? snd g) = true.
Proof. rewrite !Z.leb_le. lia. Qed.

(** C3. The statistics of an empty table are a total of 0, the mean 0 (the
    int, not None) and two empty breakdowns.  Those of a table of one book
    rated 5, read in 2024, of genre Terror are a total of 1, the mean 5.0,
    the years [(2024, 1)] and the genres [("Terror", 1)].  In general the
    total is the number of rows; the breakdown by year lists each year of
    the table once with the number of its books, years strictly
    descending; the breakdown by genre is the first five entries of the
    list of the genres of the table, each once with the number of its
    books, ordered by this number descending, so that no genre left out has
    more books than a genre listed. *)
Theorem obtener_estadisticas_spec {prims : Primitives} :
  (forall d : db,
      rows (libros d) = [] ->
      obtener_estadisticas d = mk_stats 0 [] (PInt 0) []) /\
  (forall (d : db) (r : Libro.t),
      rows (libros d) = [r] ->
      Libro.calificacion r = VReal 5 ->
      Libro.anio_lectura r = VInt 2024 ->
      Libro.genero r = VText "Terror" ->
      obtener_estadisticas d =
      mk_stats 1 [(PInt 2024, 1)] (PFloat 5) [(PStr "Terror", 1)]) /\
  (forall d : db,
      total_libros (obtener_estadisticas d) = Z.of_nat (List.length (rows (libros d))) /\
      (exists por_anio,
          libros_por_anio (obtener_estadisticas d) = map fetch_pair por_anio /\
          breakdown_of (map Libro.anio_lectura (rows (libros d))) por_anio /\
          StronglySorted (fun g h => before (fst h) (fst g)) por_anio) /\
      (exists por_genero,
          generos_populares (obtener_estadisticas d)
          = map fetch_pair (firstn 5 por_genero) /\
          breakdown_of (map Libro.genero (rows (libros d))) por_genero /\
          StronglySorted (fun g h => snd h <= snd g) por_genero /\
          (forall g h, In g (firstn 5 por_genero) -> In h (skipn 5 por_genero) ->
                       snd h <= snd g) /\
          List.length (generos_populares (obtener_estadisticas d))
          = Nat.min 5 (List.length por_genero))).
Proof.
  split; [ | split ].
  - intros d H. unfold obtener_estadisticas. rewrite H. reflexivity.
  - intros d r H Hc Ha Hg. unfold obtener_estadisticas. rewrite H. simpl.
    rewrite Hc, Ha, Hg. reflexivity.
  - intros d. split; [ reflexivity | ]. split.
    + set (keys := map Libro.anio_lectura (rows (libros d))).
      destruct (group_count_breakdown keys) as [Hb _].
      set (sorted := sort_by (fun a b : value * Z => desc (fst a) (fst b))
                       (group_count keys)).
      assert (Hb' : breakdown_of keys sorted).
      { apply (breakdown_of_perm keys (group_count keys));
          [ apply Permutation_sym, sort_by_perm | exact Hb ]. }
      exists sorted. split; [ reflexivity | ]. split; [ exact Hb' | ].
      destruct Hb' as [_ [_ [Hn Hp]]].
      apply sorted_desc_strict; [ exact Hn | exact Hp | ].
      apply sort_by_sorted; [ exact por_anio_total | exact por_anio_trans ].
    + set (keys := map Libro.genero (rows (libros d))).
      destruct (group_count_breakdown keys) as [Hb _].
      set (sorted := sort_by (fun a b : value * Z => snd b <=? snd a)
                       (group_count keys)).
      assert (Hs : StronglySorted (fun g h : value * Z => snd h <= snd g) sorted).
      { assert (Hs' : StronglySorted
                        (fun g h : value * Z => (snd h <=? snd g) = true) sorted).
        { apply sort_by_sorted; [ exact por_cuenta_total | exact por_cuenta_trans ]. }
        clear -Hs'. induction Hs' as [| g l Hl IH Hf]; constructor; [ exact IH | ].
        apply Forall_forall. intros h Hh. apply Z.leb_le.
        exact (proj1 (Forall_forall _ _) Hf h Hh). }
      exists sorted. split; [ reflexivity | ]. split.
      { apply (breakdown_of_perm keys (group_count keys));
          [ apply Permutation_sym, sort_by_perm | exact Hb ]. }
      split; [ exact Hs | ]. split.
      { intros g h Hg Hh. exact (sorted_firstn_skipn _ 5 sorted Hs g h Hg Hh). }
      change (generos_populares (obtener_estadisticas d))
        with (map fetch_pair (firstn 5 sorted)).
      rewrite length_map, length_firstn. reflexivity.
Qed.

Definition tres_libros : db :=
  mk_db
    (mk_table
       [Libro.mk 1 (VText "It") (VText "King") (VText "Terror") (VText "")
          (VInt 2024) (VText "2024-10-31") (VReal 5) (VInt 1138) (VText "")
          (VText "") (VText "2024-11-01 09:00:00") (VText "2024-11-01 09:00:00");
        Libro.mk 2 (VText "Dune") (VText "Herbert") (VText "Novela") (VText "")
          (VInt 2021) (VText "2021-03-02") (VReal 4) (VInt 600) (VText "")
          (VText "") (VText "2024-11-01 09:05:00") (VText "2024-11-01 09:05:00");
        Libro.mk 3 (VText "Misery") (VText "King") (VText "Terror") (VText "")
          (VInt 2021) (VText "2021-07-19") (VReal 3) (VInt 420) (VText "")
          (VText "") (VText "2024-11-01 09:10:00") (VText "2024-11-01 09:10:00")]
       3)
    empty_table.

Lemma obtener_estadisticas_spec_witness :
  obtener_estadisticas (mk_db empty_table empty_table) = mk_stats 0 [] (PInt 0) [] /\
  obtener_estadisticas informe_example_db =
  mk_stats 1 [(PInt 2024, 1)] (PFloat 5) [(PStr "Terror", 1)] /\
  obtener_estadisticas tres_libros =
  mk_stats 3 [(PInt 2024, 1); (PInt 2021, 2)] (PFloat 4)
    [(PStr "Terror", 2); (PStr "Novela", 1)].
Proof.
  split; [ | split ].
  - exact (proj1 obtener_estadisticas_spec (mk_db empty_table empty_table) eq_refl).
  - exact (proj1 (proj2 obtener_estadisticas_spec) informe_example_db _
             eq_refl eq_refl eq_refl eq_refl).
  - vm_compute. reflexivity.
Defined.

(** ** Filters *)

(** The text [str()] gives for an object that is not a container. *)
Definition text_of {prims : Primitives} (o : pyobj) : string :=
  match py_str o with
  | Ok s => s
  | Raise _ => EmptyString
  end.

(** The objects whose [str()] is spelled out in the model and exists. *)
Definition printable (o : pyobj) : bool :=
  match o with
  | PNone | PBool _ | PFloat _ | PStr _ => true
  | PInt z => Z.abs z <? 10 ^ Z.of_nat max_str_digits
  | PList _ | PDict _ => false
  end.

(** A filter the statement can be run with: a value sqlite3 can bind for
    the four comparisons, a value with a text for the search. *)
Definition filter_ok (item : pyobj * pyobj) : bool :=
  let (key, value) := item in
  if key_is "anio_lectura" key then bindable value
  else if key_is "genero" key then bindable value
  else if key_is "calificacion_min" key then bindable value
  else if key_is "calificacion_max" key then bindable value
  else if key_is "search" key then printable value
  else true.

(** The LIKE pattern of a search. *)
Definition search_pattern {prims : Primitives} (o : pyobj) : value :=
  VText ("%" ++ text_of o ++ "%")%string.

(** What one filter asks of a row, as the statement evaluates it. *)
Definition selects {prims : Primitives} (item : pyobj * pyobj) (r : Libro.t) : bool :=
  let (key, value) := item in
  if key_is "anio_lectura" key then
    sql_eq (Libro.anio_lectura r) (operand AffInteger (bound value))
  else if key_is "genero" key then
    sql_eq (Libro.genero r) (operand AffText (bound value))
  else if key_is "calificacion_min" key then
    sql_ge (Libro.calificacion r) (operand AffReal (bound value))
  else if key_is "calificacion_max" key then
    sql_le (Libro.calificacion r) (operand AffReal (bound value))
  else if key_is "search" key then
    sql_like (Libro.titulo r) (search_pattern value)
    || sql_like (Libro.autor r) (search_pattern value)
  else true.

(** The search in the words of the specification: [needle] is a substring
    of [hay], letters compared without regard to case. *)
Fixpoint prefix_ci (needle hay : string) : bool :=
  match needle, hay with
  | EmptyString, _ => true
  | String _ _, EmptyString => false
  | String a needle', String b hay' =>
      Ascii.eqb (fold_case a) (fold_case b) && prefix_ci needle' hay'
  end.

Fixpoint contains_ci (needle hay : string) : bool :=
  prefix_ci needle hay ||
  match hay with
  | EmptyString => false
  | String _ hay' => contains_ci needle hay'
  end.

(** The two characters LIKE reads as wildcards. *)
Definition wildcard (c : ascii) : bool := Ascii.eqb c "%" || Ascii.eqb c "_".

Lemma like_percent (pat s : string) :
  like (String "%" pat) s =
  like pat s || match s with
                | EmptyString => false
                | String _ s' => like (String "%" pat) s'
                end.
Proof. destruct s; reflexivity. Qed.

Lemma like_any (s : string) : like "%" s = true.
Proof.
  induction s as [| c s IH]; [ reflexivity | ].
  rewrite like_percent, IH. apply orb_true_r.
Qed.

Lemma like_prefix (needle s : string) :
  has_char wildcard needle = false ->
  like (needle ++ "%") s = prefix_ci needle s.
Proof.
  revert s. induction needle as [| a needle IH]; intros s H.
  - apply like_any.
  - simpl in H. apply orb_false_iff in H. destruct H as [Ha H].
    unfold wildcard in Ha. apply orb_false_iff in Ha. destruct Ha as [Hp Hu].
    simpl. rewrite Hp, Hu.
    destruct s as [| b s]; [ reflexivity | ].
    rewrite IH by exact H. reflexivity.
Qed.

Lemma like_substring (needle s : string) :
  has_char wildcard needle = false ->
  like ("%" ++ needle ++ "%") s = contains_ci needle s.
Proof.
  intros H. change ("%" ++ needle ++ "%")%string with (String "%" (needle ++ "%")).
  induction s as [| c s IH].
  - rewrite like_percent, like_prefix by exact H. reflexivity.
  - rewrite like_percent, like_prefix, IH by exact H. reflexivity.
Qed.

Lemma mapM_app {A B : Type} (f : A -> result B) (l1 l2 : list A) (r1 r2 : list B) :
  mapM f l1 = Ok r1 -> mapM f l2 = Ok r2 -> mapM f (l1 ++ l2) = Ok (r1 ++ r2).
Proof.
  revert r1. induction l1 as [| a l1 IH]; simpl; intros r1 H1 H2.
  - injection H1 as <-. exact H2.
  - destruct (f a) as [b | e]; simpl in *; [ | discriminate ].
    destruct (mapM f l1) as [bs | e]; simpl in *; [ | discriminate ].
    injection H1 as <-. rewrite (IH bs eq_refl H2). reflexivity.
Qed.

Section Filters.
Context {prims : Primitives}.

Lemma py_str_printable (o : pyobj) :
  printable o = true -> py_str o = Ok (text_of o).
Proof.
  unfold text_of, printable, py_str.
  destruct o; intros H; try reflexivity; try discriminate.
  unfold int_str. rewrite H. reflexivity.
Qed.

(** What one filter adds to the conditions and to the parameters. *)
Definition increment (item : pyobj * pyobj) : list clause * list pyobj :=
  let (key, value) := item in
  if key_is "anio_lectura" key then ([AnioEq], [value])
  else if key_is "genero" key then ([GeneroEq], [value])
  else if key_is "calificacion_min" key then ([CalifGe], [value])
  else if key_is "calificacion_max" key then ([CalifLe], [value])
  else if key_is "search" key then
    ([SearchLike],
     [PStr ("%" ++ text_of value ++ "%")%string;
      PStr ("%" ++ text_of value ++ "%")%string])
  else ([], []).

Lemma add_condition_increment (state : list clause * list pyobj) (item : pyobj * pyobj) :
  filter_ok item = true ->
  add_condition state item
  = Ok (fst state ++ fst (increment item), snd state ++ snd (increment item)).
Proof.
  destruct state as [cs ps], item as [key value].
  unfold filter_ok, add_condition, increment; simpl.
  destruct (key_is "anio_lectura" key); [ reflexivity | ].
  destruct (key_is "genero" key); [ reflexivity | ].
  destruct (key_is "calificacion_min" key); [ reflexivity | ].
  destruct (key_is "calificacion_max" key); [ reflexivity | ].
  destruct (key_is "search" key).
  - intros H. rewrite (py_str_printable _ H). reflexivity.
  - intros _. rewrite !app_nil_r. reflexivity.
Qed.

(** The rows a list of bound conditions selects, one filter at a time. *)
Lemma increment_holds (item : pyobj * pyobj) (cs : list clause) (vs : list value)
    (r : Libro.t) :
  filter_ok item = true ->
  exists ws,
    mapM bind_param (snd (increment item)) = Ok ws /\
    List.length (snd (increment item))
    = fold_right Nat.add 0%nat (map placeholders (fst (increment item))) /\
    where_holds (fst (increment item) ++ cs) (ws ++ vs) r
    = selects item r && where_holds cs vs r.
Proof.
  destruct item as [key value].
  unfold filter_ok, increment, selects.
  destruct (key_is "anio_lectura" key);
    [ intros H; exists [bound value]; simpl; rewrite (bind_param_bound _ H); auto | ].
  destruct (key_is "genero" key);
    [ intros H; exists [bound value]; simpl; rewrite (bind_param_bound _ H); auto | ].
  destruct (key_is "calificacion_min" key);
    [ intros H; exists [bound value]; simpl; rewrite (bind_param_bound _ H); auto | ].
  destruct (key_is "calificacion_max" key);
    [ intros H; exists [bound value]; simpl; rewrite (bind_param_bound _ H); auto | ].
  destruct (key_is "search" key).
  - intros _. exists [search_pattern value; search_pattern value]. auto.
  - intros _. exists []. auto.
Qed.

Lemma add_conditions_holds (items : pydict) :
  forallb filter_ok items = true ->
  exists cs ps vs,
    (forall state,
        add_conditions state items = Ok (fst state ++ cs, snd state ++ ps)) /\
    mapM bind_param ps = Ok vs /\
    List.length ps = fold_right Nat.add 0%nat (map placeholders cs) /\
    forall r, where_holds cs vs r = forallb (fun item => selects item r) items.
Proof.
  induction items as [| item items IH]; simpl; intros H.
  - exists [], [], []. repeat split; auto.
    intros [cs ps]. simpl. rewrite !app_nil_r. reflexivity.
  - apply andb_true_iff in H. destruct H as [Hi H].
    destruct (IH H) as [cs [ps [vs [Hadd [Hbind [Hlen Hwhere]]]]]].
    destruct (increment_holds item cs vs
                (Libro.mk 0 VNull VNull VNull VNull VNull VNull VNull VNull VNull
                   VNull VNull VNull) Hi) as [ws [Hw [Hl _]]].
    exists (fst (increment item) ++ cs), (snd (increment item) ++ ps), (ws ++ vs).
    split; [ | split; [ | split ] ].
    + intros state. rewrite (add_condition_increment state item Hi). simpl.
      rewrite Hadd. simpl. rewrite !app_assoc. reflexivity.
    + apply mapM_app; assumption.
    + rewrite length_app, map_app, Hl, Hlen.
      clear. induction (map placeholders (fst (increment item))) as [| n l IH];
        simpl; [ reflexivity | rewrite <- IH; lia ].
    + intros r. destruct (increment_holds item cs vs r Hi) as [ws' [Hw' [_ Hh]]].
      rewrite Hw in Hw'. injection Hw' as <-.
      rewrite Hh, Hwhere. reflexivity.
Qed.

Lemma fecha_desc_total (a b : Libro.t) : fecha_desc a b = false -> fecha_desc b a = true.
Proof. apply desc_total. Qed.

Lemma fecha_desc_trans (a b c : Libro.t) :
  fecha_desc a b = true -> fecha_desc b c = true -> fecha_desc a c = true.
Proof.
  unfold fecha_desc.
  change (desc (Libro.fecha_lectura a) (Libro.fecha_lectura b) = true ->
          desc (Libro.fecha_lectura b) (Libro.fecha_lectura c) = true ->
          desc (Libro.fecha_lectura a) (Libro.fecha_lectura c) = true).
  rewrite !desc_asc. intros H1 H2. exact (asc_trans _ _ _ H2 H1).
Qed.

(** The list [obtener_libros] returns for filters it can run with. *)
Lemma obtener_libros_selected (filtros : pydict) (d : db) :
  forallb filter_ok filtros = true ->
  obtener_libros (Some filtros) d =
  Ok (map (dict_zip column_names)
        (map Libro.tuple
           (sort_by fecha_desc
              (filter (fun r => forallb (fun item => selects item r) filtros)
                 (rows (libros d)))))).
Proof.
  intros H. rewrite obtener_libros_conditions.
  destruct (add_conditions_holds filtros H) as [cs [ps [vs [Hadd [Hbind [Hlen Hwhere]]]]]].
  rewrite (Hadd ([], [])). simpl. unfold select_libros.
  rewrite Hlen, Nat.eqb_refl, Hbind. simpl.
  rewrite (filter_ext_in _ _ _ Hwhere). reflexivity.
Qed.

End Filters.

(** C2, as the code has it.  For filters whose values sqlite3 can bind (a
    search value with a text), [obtener_libros] returns the rows that every
    filter selects, and only them, most recent reading first: the year and
    the genre by SQL equality, the two ratings by SQL [>=] and [<=], the
    search by [titulo LIKE p OR autor LIKE p] with [p] the search text
    between two [%].  When the search text has neither [%] nor [_], a row
    with a text for title and author is selected exactly when one of the
    two contains the search text, ASCII letters compared without regard to
    case.  With no filter every row is returned. *)
Theorem obtener_libros_spec {prims : Primitives}
    (filtros : pydict) (d : db)
    (Hok : forallb filter_ok filtros = true) :
  (exists selected,
      obtener_libros (Some filtros) d
      = Ok (map (dict_zip column_names) (map Libro.tuple selected)) /\
      Permutation selected
        (filter (fun r => forallb (fun item => selects item r) filtros)
           (rows (libros d))) /\
      StronglySorted (fun a b => fecha_desc a b = true) selected) /\
  (forall (o : pyobj) (r : Libro.t) (titulo autor : string),
      has_char wildcard (text_of o) = false ->
      Libro.titulo r = VText titulo -> Libro.autor r = VText autor ->
      selects (PStr "search", o) r
      = contains_ci (text_of o) titulo || contains_ci (text_of o) autor) /\
  (exists todos,
      obtener_libros None d
      = Ok (map (dict_zip column_names) (map Libro.tuple todos)) /\
      obtener_libros (Some []) d = obtener_libros None d /\
      Permutation todos (rows (libros d)) /\
      StronglySorted (fun a b => fecha_desc a b = true) todos).
Proof.
  split; [ | split ].
  - eexists. split; [ apply obtener_libros_selected, Hok | ]. split.
    + apply sort_by_perm.
    + apply sort_by_sorted; [ exact fecha_desc_total | exact fecha_desc_trans ].
  - intros o r titulo autor Hw Ht Ha.
    change (selects (PStr "search", o) r)
      with (sql_like (Libro.titulo r) (search_pattern o)
            || sql_like (Libro.autor r) (search_pattern o)).
    rewrite Ht, Ha. unfold sql_like, search_pattern, as_text.
    rewrite !like_substring by exact Hw. reflexivity.
  - eexists. split; [ apply obtener_libros_all | ]. split; [ reflexivity | ]. split.
    + apply sort_by_perm.
    + apply sort_by_sorted; [ exact fecha_desc_total | exact fecha_desc_trans ].
Qed.

Definition filtros_2021 : pydict :=
  [(PStr "anio_lectura", PInt 2021); (PStr "calificacion_min", PInt 4);
   (PStr "search", PStr "UN")].

Lemma obtener_libros_spec_witness :
  forallb filter_ok filtros_2021 = true /\
  (exists selected,
      obtener_libros (Some filtros_2021) tres_libros
      = Ok (map (dict_zip column_names) (map Libro.tuple selected)) /\
      Permutation selected
        (filter (fun r => forallb (fun item => selects item r) filtros_2021)
           (rows (libros tres_libros))) /\
      StronglySorted (fun a b => fecha_desc a b = true) selected) /\
  obtener_libros (Some filtros_2021) tres_libros
  = Ok [dict_zip column_names
          [VInt 2; VText "Dune"; VText "Herbert"; VText "Novela"; VText "";
           VInt 2021; VText "2021-03-02"; VReal 4; VInt 600; VText "";
           VText ""; VText "2024-11-01 09:05:00"; VText "2024-11-01 09:05:00"]].
Proof.
  split; [ reflexivity | ]. split.
  - exact (proj1 (obtener_libros_spec filtros_2021 tres_libros eq_refl)).
  - vm_compute. reflexivity.
Defined.

(** C2, the counterexample.  The search text [_] is a substring of neither
    ["It"] nor ["King"], yet the search selects the book: LIKE reads [_] as
    any one character. *)
Lemma search_wildcard_selects_without_substring :
  contains_ci "_" "It" = false /\ contains_ci "_" "King" = false /\
  obtener_libros (Some [(PStr "search", PStr "_")]) informe_example_db
  = Ok [dict_zip column_names
          [VInt 1; VText "It"; VText "King"; VText "Terror"; VText "";
           VInt 2024; VText "2024-10-31"; VReal 5; VInt 1138; VText "";
           VText ""; VText "2024-11-01 09:00:00"; VText "2024-11-01 09:00:00"]].
Proof.
  split; [ reflexivity | ]. split; [ reflexivity | ]. vm_compute. reflexivity.
Qed.

(** ** CSV export *)

(** The filters of a call, none when the argument is left out. *)
Definition filters_of (filtros : option pydict) : pydict :=
  match filtros with
  | Some items => items
  | None => []
  end.

(** The rows a call of [obtener_libros] returns, in its order. *)
Definition selected {prims : Primitives} (filtros : option pydict) (d : db)
  : list Libro.t :=
  sort_by fecha_desc
    (filter (fun r => forallb (fun item => selects item r) (filters_of filtros))
       (rows (libros d))).

(** The text of a cell in the file, before quoting. *)
Definition field_text {prims : Primitives} (v : value) : string :=
  match v with
  | VNull => EmptyString
  | _ => text_of (fetch v)
  end.

(** The header and the record of a row: the fields, quoted where the
    writer quotes, joined by commas and ended by CR LF. *)
Definition csv_header : string := (String.concat "," column_names ++ CRLF)%string.

Definition csv_record {prims : Primitives} (r : Libro.t) : string :=
  (String.concat "," (map (fun v => csv_quote (field_text v)) (Libro.tuple r))
   ++ CRLF)%string.

(** A row all of whose cells have a text. *)
Definition printable_row (r : Libro.t) : bool :=
  forallb (fun v => printable (fetch v)) (Libro.tuple r).

Definition is_break (c : ascii) : bool := Ascii.eqb c CR || Ascii.eqb c LF.

(** A row none of whose cells has a line break in its text. *)
Definition single_line {prims : Primitives} (r : Libro.t) : bool :=
  forallb (fun v => negb (has_char is_break (field_text v))) (Libro.tuple r).

Fixpoint count_char (c : ascii) (s : string) : nat :=
  match s with
  | EmptyString => 0
  | String c' s' => ((if Ascii.eqb c' c then 1 else 0) + count_char c s')%nat
  end.

Lemma mapM_map {A B : Type} (f : A -> result B) (g : A -> B) (l : list A) :
  (forall x, In x l -> f x = Ok (g x)) -> mapM f l = Ok (map g l).
Proof.
  induction l as [| a l IH]; simpl; intros H; [ reflexivity | ].
  rewrite (H a (or_introl eq_refl)). simpl.
  rewrite IH by (intros x Hx; apply H; right; exact Hx). reflexivity.
Qed.

Lemma count_char_app (c : ascii) (s t : string) :
  count_char c (s ++ t) = (count_char c s + count_char c t)%nat.
Proof.
  induction s as [| a s IH]; simpl; [ reflexivity | rewrite IH; lia ].
Qed.

Lemma count_char_none (c : ascii) (p : ascii -> bool) (s : string) :
  p c = true -> has_char p s = false -> count_char c s = 0%nat.
Proof.
  intros Hc. induction s as [| a s IH]; simpl; intros H; [ reflexivity | ].
  apply orb_false_iff in H. destruct H as [Ha H].
  destruct (Ascii.eqb_spec a c) as [-> | _]; [ congruence | apply IH, H ].
Qed.

Lemma count_char_double_quotes (c : ascii) (s : string) :
  Ascii.eqb dquote c = false -> count_char c (double_quotes s) = count_char c s.
Proof.
  intros Hq. induction s as [| a s IH]; [ reflexivity | ].
  cbn [double_quotes count_char].
  destruct (Ascii.eqb_spec a dquote) as [-> | _]; cbn [count_char]; rewrite IH.
  - rewrite Hq. reflexivity.
  - reflexivity.
Qed.

Lemma count_char_csv_quote (c : ascii) (s : string) :
  Ascii.eqb dquote c = false -> count_char c (csv_quote s) = count_char c s.
Proof.
  intros Hq. unfold csv_quote. destruct (has_char csv_special s); [ | reflexivity ].
  cbn [count_char]. rewrite Hq, count_char_app, count_char_double_quotes by exact Hq.
  cbn [count_char]. rewrite Hq. lia.
Qed.

Lemma count_char_concat (c : ascii) (sep : string) (l : list string) :
  count_char c sep = 0%nat ->
  (forall s, In s l -> count_char c s = 0%nat) ->
  count_char c (String.concat sep l) = 0%nat.
Proof.
  intros Hsep. induction l as [| s l IH]; intros H; [ reflexivity | ].
  destruct l as [| t l]; simpl.
  - apply H. left. reflexivity.
  - rewrite !count_char_app, Hsep, (H s (or_introl eq_refl)).
    simpl in IH. rewrite IH; [ reflexivity | ].
    intros u Hu. apply H. right. exact Hu.
Qed.

Lemma count_char_records {A : Type} (c : ascii) (f : A -> string) (l : list A) :
  (forall x, In x l -> count_char c (f x) = 1%nat) ->
  count_char c (String.concat "" (map f l)) = List.length l.
Proof.
  induction l as [| x l IH]; intros H; [ reflexivity | ].
  assert (E : String.concat "" (map f (x :: l))
              = (f x ++ String.concat "" (map f l))%string).
  { simpl. destruct (map f l); [ | reflexivity ].
    simpl. clear. induction (f x) as [| a s IHs]; simpl; congruence. }
  rewrite E, count_char_app, (H x (or_introl eq_refl)), IH; [ reflexivity | ].
  intros y Hy. apply H. right. exact Hy.
Qed.

Section Csv.
Context {prims : Primitives}.

Lemma csv_field_fetch (v : value) :
  printable (fetch v) = true -> csv_field (fetch v) = Ok (csv_quote (field_text v)).
Proof.
  intros H. destruct v; cbn [fetch] in *; [ reflexivity | | | ];
    unfold csv_field; rewrite (py_str_printable _ H); reflexivity.
Qed.

Lemma csv_row_record (r : Libro.t) :
  printable_row r = true ->
  csv_row (map (fun k => get_key k (dict_zip column_names (Libro.tuple r)))
             (map PStr column_names))
  = Ok (csv_record r).
Proof.
  intros H. unfold printable_row in H.
  change (map (fun k => get_key k (dict_zip column_names (Libro.tuple r)))
            (map PStr column_names))
    with (map fetch (Libro.tuple r)).
  unfold csv_row.
  rewrite (mapM_map csv_field (fun o => csv_quote (match o with
                                                    | PNone => EmptyString
                                                    | _ => text_of o
                                                    end))).
  - cbn [bind]. unfold csv_record. rewrite map_map.
    do 3 f_equal. apply map_ext_all. intros v. destruct v; reflexivity.
  - intros o Ho. apply in_map_iff in Ho. destruct Ho as [v [<- Hv]].
    rewrite csv_field_fetch.
    + destruct v; reflexivity.
    + exact (proj1 (forallb_forall _ _) H v Hv).
Qed.

Lemma csv_record_breaks (r : Libro.t) (c : ascii) :
  is_break c = true -> single_line r = true ->
  count_char c (String.concat ","
                  (map (fun v => csv_quote (field_text v)) (Libro.tuple r))) = 0%nat.
Proof.
  intros Hc H. unfold single_line in H.
  assert (Hq : Ascii.eqb dquote c = false).
  { unfold is_break in Hc. apply orb_true_iff in Hc.
    destruct Hc as [Hc | Hc]; apply Ascii.eqb_eq in Hc; subst c; reflexivity. }
  apply count_char_concat.
  - unfold is_break in Hc. apply orb_true_iff in Hc.
    destruct Hc as [Hc | Hc]; apply Ascii.eqb_eq in Hc; subst c; reflexivity.
  - intros s Hs. apply in_map_iff in Hs. destruct Hs as [v [<- Hv]].
    rewrite count_char_csv_quote by exact Hq.
    apply (count_char_none c is_break); [ exact Hc | ].
    apply negb_true_iff. exact (proj1 (forallb_forall _ _) H v Hv).
Qed.

End Csv.

Lemma mapM_map_compose {A B C : Type} (f : B -> result C) (h : A -> B) (g : A -> C)
    (l : list A) :
  (forall x, In x l -> f (h x) = Ok (g x)) -> mapM f (map h l) = Ok (map g l).
Proof.
  induction l as [| a l IH]; simpl; intros H; [ reflexivity | ].
  rewrite (H a (or_introl eq_refl)). simpl.
  rewrite IH by (intros x Hx; apply H; right; exact Hx). reflexivity.
Qed.

Section CsvExport.
Context {prims : Primitives}.

Lemma obtener_libros_is_selected (filtros : option pydict) (d : db) :
  forallb filter_ok (filters_of filtros) = true ->
  obtener_libros filtros d
  = Ok (map (dict_zip column_names) (map Libro.tuple (selected filtros d))).
Proof.
  destruct filtros as [items |]; intros H.
  - apply obtener_libros_selected, H.
  - rewrite obtener_libros_all. unfold selected. simpl.
    rewrite filter_all by reflexivity. reflexivity.
Qed.

Lemma selected_in (filtros : option pydict) (d : db) (r : Libro.t) :
  In r (selected filtros d) -> In r (rows (libros d)).
Proof.
  unfold selected. intros H.
  apply (Permutation_in _ (sort_by_perm _ fecha_desc _)) in H.
  apply filter_In in H. exact (proj1 H).
Qed.

Lemma csv_text_selected (rs : list Libro.t) :
  forallb printable_row rs = true ->
  csv_text (map PStr column_names)
    (map (dict_zip column_names) (map Libro.tuple rs))
  = Ok (csv_header ++ String.concat "" (map csv_record rs))%string.
Proof.
  intros H. unfold csv_text.
  change (csv_row (map PStr column_names)) with (@Ok string csv_header).
  cbn [bind]. rewrite map_map.
  rewrite (mapM_map_compose _ _ csv_record); [ reflexivity | ].
  intros r Hr. apply csv_row_record.
  exact (proj1 (forallb_forall _ _) H r Hr).
Qed.

Lemma csv_record_lines (r : Libro.t) (c : ascii) :
  is_break c = true -> single_line r = true -> count_char c (csv_record r) = 1%nat.
Proof.
  intros Hc H. unfold csv_record.
  rewrite count_char_app, (csv_record_breaks r c Hc H).
  unfold is_break in Hc. apply orb_true_iff in Hc.
  destruct Hc as [Hc | Hc]; apply Ascii.eqb_eq in Hc; subst c; reflexivity.
Qed.

(** C4, as the code has it.  For filters the statement can be run with, on a
    table whose cells all have a text: when no book is selected,
    [exportar_a_csv] returns False and the files are as they were; when
    some are, it returns True and the file at the path holds the header,
    the thirteen column names in the order of the keys of the first book,
    and then one record per selected book, in the order of the list, each
    ended by CR LF, every other file being as it was.  When no cell of the
    selected books has a line break in its text, the file has one more
    line than there are selected books. *)
Theorem exportar_a_csv_spec
    (file_path : string) (filtros : option pydict) (d : db) (fs : filesystem)
    (Hok : forallb filter_ok (filters_of filtros) = true)
    (Hrows : forallb printable_row (rows (libros d)) = true) :
  obtener_libros filtros d
  = Ok (map (dict_zip column_names) (map Libro.tuple (selected filtros d))) /\
  (selected filtros d = [] ->
   exportar_a_csv file_path filtros d fs = Ok (false, fs)) /\
  (selected filtros d <> [] ->
   exists fs',
     exportar_a_csv file_path filtros d fs = Ok (true, fs') /\
     fs' file_path
     = Some (csv_header ++ String.concat "" (map csv_record (selected filtros d)))%string /\
     (forall p, p <> file_path -> fs' p = fs p) /\
     (forallb single_line (selected filtros d) = true ->
      forall c, is_break c = true ->
      count_char c
        (csv_header ++ String.concat "" (map csv_record (selected filtros d)))
      = S (List.length (selected filtros d)))).
Proof.
  pose proof (obtener_libros_is_selected filtros d Hok) as Hlist.
  split; [ exact Hlist | ].
  assert (Hsel : forallb printable_row (selected filtros d) = true).
  { apply forallb_forall. intros r Hr.
    exact (proj1 (forallb_forall _ _) Hrows r (selected_in _ _ _ Hr)). }
  unfold exportar_a_csv. rewrite Hlist. cbn [bind].
  split.
  - intros ->. reflexivity.
  - intros Hne. destruct (selected filtros d) as [| r0 rs] eqn:E; [ contradiction | ].
    cbn [map]. cbv zeta.
    change (map fst (dict_zip column_names (Libro.tuple r0)))
      with (map PStr column_names).
    change (csv_record r0 :: map csv_record rs) with (map csv_record (r0 :: rs)).
    change (dict_zip column_names (Libro.tuple r0)
            :: map (dict_zip column_names) (map Libro.tuple rs))
      with (map (dict_zip column_names) (map Libro.tuple (r0 :: rs))).
    rewrite (csv_text_selected (r0 :: rs) Hsel). cbn [bind].
    eexists. split; [ reflexivity | ]. split; [ | split ].
    + unfold write_file. rewrite String.eqb_refl. reflexivity.
    + intros p Hp. unfold write_file.
      destruct (String.eqb_spec p file_path); [ contradiction | reflexivity ].
    + intros Hlines c Hc. rewrite count_char_app.
      rewrite (count_char_records c csv_record (r0 :: rs)).
      * unfold is_break in Hc. apply orb_true_iff in Hc.
        destruct Hc as [Hc | Hc]; apply Ascii.eqb_eq in Hc; subst c; reflexivity.
      * intros r Hr. apply csv_record_lines; [ exact Hc | ].
        exact (proj1 (forallb_forall _ _) Hlines r Hr).
Qed.

End CsvExport.

Definition sin_archivos : filesystem := fun _ => None.

Lemma exportar_a_csv_spec_witness :
  forallb filter_ok (filters_of (Some filtros_2021)) = true /\
  forallb printable_row (rows (libros tres_libros)) = true /\
  selected (Some filtros_2021) tres_libros <> [] /\
  forallb single_line (selected (Some filtros_2021) tres_libros) = true /\
  exists fs',
    exportar_a_csv "lecturas.csv" (Some filtros_2021) tres_libros sin_archivos
    = Ok (true, fs') /\
    fs' "lecturas.csv"
    = Some (csv_header
            ++ String.concat ""
                 (map csv_record (selected (Some filtros_2021) tres_libros)))%string /\
    count_char LF
      (csv_header
       ++ String.concat ""
            (map csv_record (selected (Some filtros_2021) tres_libros)))
    = 2%nat.
Proof.
  assert (Hok : forallb filter_ok (filters_of (Some filtros_2021)) = true)
    by reflexivity.
  assert (Hrows : forallb printable_row (rows (libros tres_libros)) = true)
    by (vm_compute; reflexivity).
  assert (Hne : selected (Some filtros_2021) tres_libros <> [])
    by (vm_compute; discriminate).
  assert (Hlines : forallb single_line (selected (Some filtros_2021) tres_libros) = true)
    by (vm_compute; reflexivity).
  split; [ exact Hok | ]. split; [ exact Hrows | ]. split; [ exact Hne | ].
  split; [ exact Hlines | ].
  destruct (proj2 (proj2 (exportar_a_csv_spec "lecturas.csv" (Some filtros_2021)
                            tres_libros sin_archivos Hok Hrows)) Hne)
    as [fs' [He [Hf [_ Hc]]]].
  exists fs'. split; [ exact He | ]. split; [ exact Hf | ].
  exact (Hc Hlines LF eq_refl).
Defined.

(** A table of one book whose comment has two lines. *)
Definition libro_con_salto : db :=
  mk_db
    (mk_table
       [Libro.mk 1 (VText "It") (VText "King") (VText "Terror") (VText "")
          (VInt 2024) (VText "2024-10-31") (VReal 5) (VInt 1138) (VText "")
          (VText (String "a" (String LF (String "b" EmptyString))))
          (VText "2024-11-01 09:00:00") (VText "2024-11-01 09:00:00")]
       1)
    empty_table.

(** C4, the counterexample.  One book is exported, and the file has three
    lines, not two: the comment is written between quotes with its line
    break. *)
Lemma multiline_comment_spans_two_lines :
  List.length (selected None libro_con_salto) = 1%nat /\
  exists fs' text,
    exportar_a_csv "lecturas.csv" None libro_con_salto sin_archivos = Ok (true, fs') /\
    fs' "lecturas.csv" = Some text /\
    count_char LF text = 3%nat.
Proof.
  split; [ reflexivity | ].
  eexists. eexists. split; [ vm_compute; reflexivity | ].
  split; [ vm_compute; reflexivity | ]. vm_compute. reflexivity.
Qed.

(** ** Integers and their decimal text *)

(** The value of a run of decimal digits read after [acc]. *)
Fixpoint uint_acc (d : Decimal.uint) (acc : Z) : Z :=
  match d with
  | Decimal.Nil => acc
  | Decimal.D0 d' => uint_acc d' (10 * acc + 0)
  | Decimal.D1 d' => uint_acc d' (10 * acc + 1)
  | Decimal.D2 d' => uint_acc d' (10 * acc + 2)
  | Decimal.D3 d' => uint_acc d' (10 * acc + 3)
  | Decimal.D4 d' => uint_acc d' (10 * acc + 4)
  | Decimal.D5 d' => uint_acc d' (10 * acc + 5)
  | Decimal.D6 d' => uint_acc d' (10 * acc + 6)
  | Decimal.D7 d' => uint_acc d' (10 * acc + 7)
  | Decimal.D8 d' => uint_acc d' (10 * acc + 8)
  | Decimal.D9 d' => uint_acc d' (10 * acc + 9)
  end.

Lemma of_uint_acc_Z (d : Decimal.uint) : forall acc : positive,
  Z.pos (Pos.of_uint_acc d acc) = uint_acc d (Z.pos acc).
Proof.
  induction d; intros acc; cbn [Pos.of_uint_acc uint_acc]; try reflexivity;
    rewrite IHd; f_equal; lia.
Qed.

Lemma of_uint_Z (d : Decimal.uint) : Z.of_N (Pos.of_uint d) = uint_acc d 0.
Proof.
  induction d; cbn [Pos.of_uint uint_acc Z.of_N]; try reflexivity; try exact IHd;
    rewrite of_uint_acc_Z; reflexivity.
Qed.

Lemma uint_acc_lower (d : Decimal.uint) : forall acc : Z,
  0 <= acc -> acc * 10 ^ Z.of_nat (Decimal.nb_digits d) <= uint_acc d acc.
Proof.
  induction d; intros acc H; cbn [uint_acc Decimal.nb_digits];
    try (rewrite Z.pow_0_r; lia);
    rewrite Nat2Z.inj_succ, Z.pow_succ_r by lia;
    (eapply Z.le_trans; [ | apply IHd; lia ]);
    assert (0 < 10 ^ Z.of_nat (Decimal.nb_digits d)) by (apply Z.pow_pos_nonneg; lia);
    nia.
Qed.

Lemma int_digits_uint (d : Decimal.uint) : forall (acc : Z) (n : nat),
  int_digits (NilEmpty.string_of_uint d) acc n true
  = Some (uint_acc d acc, (n + Decimal.nb_digits d)%nat).
Proof.
  induction d; intros acc n; cbn [NilEmpty.string_of_uint uint_acc Decimal.nb_digits];
    try (simpl; rewrite Nat.add_0_r; reflexivity);
    cbn [int_digits]; change (is_digit _) with true; cbv iota;
    rewrite IHd; f_equal; f_equal; first [ reflexivity | lia ].
Qed.

Lemma to_uint_head (p : positive) :
  exists c s d',
    NilEmpty.string_of_uint (Pos.to_uint p) = String c s /\
    s = NilEmpty.string_of_uint d' /\
    is_digit c = true /\ Ascii.eqb c "0" = false /\
    Decimal.nb_digits (Pos.to_uint p) = S (Decimal.nb_digits d') /\
    uint_acc (Pos.to_uint p) 0 = uint_acc d' (digit_value c) /\
    1 <= digit_value c.
Proof.
  assert (Hn : Decimal.unorm (Pos.to_uint p) = Pos.to_uint p).
  { rewrite <- DecimalPos.Unsigned.to_of, DecimalPos.Unsigned.of_to. reflexivity. }
  pose proof (DecimalPos.Unsigned.to_uint_nonzero p) as Hz.
  destruct (Pos.to_uint p) as [| d | d | d | d | d | d | d | d | d | d] eqn:E;
    try (eexists; eexists; exists d;
         repeat split; first [ reflexivity | (cbv; discriminate) ]).
  - discriminate Hn.
  - exfalso. unfold Decimal.unorm in Hn.
    destruct (Decimal.nzhead (Decimal.D0 d)) eqn:Eh; try discriminate Hn.
    + apply Hz. symmetry. exact Hn.
    + exact (DecimalFacts.nzhead_nonzero _ _ Eh).
Qed.

Lemma to_uint_digits (p : positive) :
  Z.pos p < 10 ^ Z.of_nat max_str_digits ->
  (Decimal.nb_digits (Pos.to_uint p) <= max_str_digits)%nat.
Proof.
  intros H.
  destruct (to_uint_head p) as [c [s [d' [_ [_ [_ [_ [Hn [Hv Hc]]]]]]]]].
  assert (Hp : Z.pos p = uint_acc (Pos.to_uint p) 0).
  { rewrite <- of_uint_Z, DecimalPos.Unsigned.of_to. reflexivity. }
  rewrite Hv in Hp.
  pose proof (uint_acc_lower d' (digit_value c) ltac:(lia)) as Hl.
  assert (Hpow : 10 ^ Z.of_nat (Decimal.nb_digits d') < 10 ^ Z.of_nat max_str_digits).
  { assert (0 < 10 ^ Z.of_nat (Decimal.nb_digits d')) by (apply Z.pow_pos_nonneg; lia).
    nia. }
  apply Z.pow_lt_mono_r_iff in Hpow; lia.
Qed.

Lemma decimal_pos (p : positive) :
  decimal (Z.pos p) = NilEmpty.string_of_uint (Pos.to_uint p).
Proof.
  unfold decimal; simpl. unfold NilZero.string_of_uint.
  pose proof (DecimalPos.Unsigned.to_uint_nonnil p).
  destruct (Pos.to_uint p); [ contradiction | reflexivity .. ].
Qed.

Lemma decimal_neg (p : positive) :
  decimal (Z.neg p) = String "-" (NilEmpty.string_of_uint (Pos.to_uint p)).
Proof.
  unfold decimal; simpl. unfold NilZero.string_of_uint.
  pose proof (DecimalPos.Unsigned.to_uint_nonnil p).
  destruct (Pos.to_uint p); [ contradiction | reflexivity .. ].
Qed.

Lemma int_of_text_digits (p : positive) (neg : bool) :
  Z.pos p < 10 ^ Z.of_nat max_str_digits ->
  match int_digits (NilEmpty.string_of_uint (Pos.to_uint p)) 0 0%nat false with
  | Some (z, n) =>
      if Nat.leb n max_str_digits then Ok (if neg then - z else z)
      else Raise ValueError
  | None => Raise ValueError
  end = Ok (if neg then Z.neg p else Z.pos p).
Proof.
  intros H.
  pose proof (to_uint_digits p H) as Hd.
  destruct (to_uint_head p) as [c [s [d' [Hs [Hs' [Hc [_ [Hn [Hv _]]]]]]]]].
  assert (Hp : Z.pos p = uint_acc (Pos.to_uint p) 0).
  { rewrite <- of_uint_Z, DecimalPos.Unsigned.of_to. reflexivity. }
  rewrite Hs, Hs'. cbn [int_digits]. rewrite Hc.
  rewrite int_digits_uint. cbn [Nat.add].
  rewrite <- Hn. apply Nat.leb_le in Hd. rewrite Hd.
  replace (10 * 0 + digit_value c) with (digit_value c) by lia.
  rewrite <- Hv, <- Hp. destruct neg; reflexivity.
Qed.

(** [int()] reads back the text [str()] gives. *)
Lemma int_of_text_decimal (z : Z) :
  Z.abs z < 10 ^ Z.of_nat max_str_digits -> int_of_text (decimal z) = Ok z.
Proof.
  destruct z as [| p | p]; intros H.
  - reflexivity.
  - rewrite decimal_pos.
    destruct (to_uint_head p) as [c [s [d' [Hs [_ [Hc _]]]]]].
    unfold int_of_text.
    assert (Hl : lstrip (NilEmpty.string_of_uint (Pos.to_uint p))
                 = NilEmpty.string_of_uint (Pos.to_uint p)).
    { rewrite Hs. cbn [lstrip].
      destruct c as [[] [] [] [] [] [] [] []]; try discriminate Hc; reflexivity. }
    rewrite Hl.
    pose proof (int_of_text_digits p false H) as Hi. cbv iota in Hi.
    rewrite Hs in *.
    destruct c as [[] [] [] [] [] [] [] []]; try discriminate Hc; exact Hi.
  - rewrite decimal_neg. unfold int_of_text. cbn [lstrip is_space].
    change (is_space "-") with false. cbv iota.
    exact (int_of_text_digits p true H).
Qed.

(** ** Reading back what [json.dumps] writes *)

Lemma append_assoc (a b c : string) : ((a ++ b) ++ c = a ++ (b ++ c))%string.
Proof. induction a as [| x a IH]; simpl; [ reflexivity | rewrite IH; reflexivity ]. Qed.

Lemma length_append (a b : string) :
  String.length (a ++ b) = (String.length a + String.length b)%nat.
Proof. induction a as [| x a IH]; simpl; [ reflexivity | rewrite IH; reflexivity ]. Qed.

(** What may follow a number in a document. *)
Definition number_ends (rest : string) : bool :=
  match rest with
  | EmptyString => true
  | String c _ =>
      negb (is_digit c || Ascii.eqb c "." || Ascii.eqb c "e" || Ascii.eqb c "E")
  end.

(** The characters a JSON value can start with. *)
Definition value_start (c : ascii) : bool :=
  is_digit c || Ascii.eqb c "-" || Ascii.eqb c dquote || Ascii.eqb c "["
  || Ascii.eqb c "{" || Ascii.eqb c "n" || Ascii.eqb c "t" || Ascii.eqb c "f".

Definition starts_value (s : string) : bool :=
  match s with
  | EmptyString => false
  | String c _ => value_start c
  end.

Lemma number_ends_cases (c : ascii) (r : string) :
  number_ends (String c r) = true ->
  is_digit c = false /\ Ascii.eqb c "." = false /\
  (Ascii.eqb c "e" || Ascii.eqb c "E") = false.
Proof.
  unfold number_ends. intros H. apply negb_true_iff in H.
  repeat (apply orb_false_iff in H; destruct H as [H ?]).
  repeat split; try assumption. apply orb_false_iff. split; assumption.
Qed.

Lemma span_digits_uint (d : Decimal.uint) (rest : string) :
  number_ends rest = true ->
  span_digits (NilEmpty.string_of_uint d ++ rest)
  = (NilEmpty.string_of_uint d, rest).
Proof.
  intros H.
  induction d; cbn [NilEmpty.string_of_uint append span_digits];
    try (change (is_digit _) with true; cbv iota; rewrite IHd; reflexivity).
  destruct rest as [| c r]; [ reflexivity | ].
  destruct (number_ends_cases c r H) as [Hd _].
  cbn [span_digits]. rewrite Hd. reflexivity.
Qed.

Lemma scan_frac_ends (rest : string) :
  number_ends rest = true -> scan_frac rest = (EmptyString, rest).
Proof.
  destruct rest as [| c r]; [ reflexivity | ]. intros H.
  destruct (number_ends_cases c r H) as [_ [Hp _]].
  unfold scan_frac. rewrite Hp. reflexivity.
Qed.

Lemma scan_exp_ends (rest : string) :
  number_ends rest = true -> scan_exp rest = (EmptyString, rest).
Proof.
  destruct rest as [| c r]; [ reflexivity | ]. intros H.
  destruct (number_ends_cases c r H) as [_ [_ He]].
  unfold scan_exp. rewrite He. reflexivity.
Qed.

Section Numbers.
Context {prims : Primitives}.

Lemma scan_number_tail (sign int rest : string) (z : Z) :
  number_ends rest = true ->
  int_of_text (sign ++ int) = Ok z ->
  match scan_frac rest with
  | (frac, s3) =>
      let (exp, s4) := scan_exp s3 in
      match frac, exp with
      | EmptyString, EmptyString =>
          Some (z <- int_of_text (sign ++ int) ;; Ok (PInt z), s4)
      | _, _ =>
          Some (Ok (PFloat (float_of_literal (sign ++ int ++ frac ++ exp))), s4)
      end
  end = Some (Ok (PInt z), rest).
Proof.
  intros H Hi. rewrite (scan_frac_ends rest H), (scan_exp_ends rest H), Hi.
  reflexivity.
Qed.

Lemma digit_not_minus (c : ascii) :
  is_digit c = true -> Ascii.eqb c "-" = false.
Proof.
  destruct c as [[] [] [] [] [] [] [] []]; intros H; try discriminate H; reflexivity.
Qed.

(** The number scanner reads back the text of an int. *)
Lemma scan_number_decimal (z : Z) (rest : string) :
  Z.abs z < 10 ^ Z.of_nat max_str_digits ->
  number_ends rest = true ->
  scan_number (decimal z ++ rest) = Some (Ok (PInt z), rest).
Proof.
  intros Hz H. pose proof (int_of_text_decimal z Hz) as Hi.
  destruct z as [| p | p].
  - unfold scan_number. cbn [decimal append]. simpl scan_integer.
    change (decimal 0) with "0" in *. cbn [append fst snd Ascii.eqb].
    apply (scan_number_tail EmptyString "0" rest 0 H Hi).
  - rewrite decimal_pos in *.
    destruct (to_uint_head p) as [c [s [d' [Hs [Hs' [Hc [H0 _]]]]]]].
    rewrite Hs in *. subst s. unfold scan_number. cbn [append].
    rewrite (digit_not_minus c Hc). cbn [fst snd scan_integer].
    rewrite H0, Hc, (span_digits_uint d' rest H). cbn [fst snd].
    exact (scan_number_tail EmptyString _ rest _ H Hi).
  - rewrite decimal_neg in *.
    destruct (to_uint_head p) as [c [s [d' [Hs [Hs' [Hc [H0 _]]]]]]].
    rewrite Hs in *. subst s. unfold scan_number. cbn [append].
    change (Ascii.eqb "-" "-") with true. cbv iota. cbn [fst snd scan_integer].
    rewrite H0, Hc, (span_digits_uint d' rest H). cbn [fst snd].
    exact (scan_number_tail "-" _ rest _ H Hi).
Qed.

Lemma scan_once_number (fuel : nat) (c : ascii) (s : string) :
  (is_digit c || Ascii.eqb c "-") = true ->
  scan_once (S fuel) (String c s)
  = match scan_number (String c s) with
    | Some (r, rest) => o <- r ;; Ok (o, rest)
    | None => Raise ValueError
    end.
Proof.
  destruct c as [[] [] [] [] [] [] [] []]; intros H; try discriminate H; reflexivity.
Qed.

Lemma decimal_head (z : Z) :
  exists c s, decimal z = String c s /\ (is_digit c || Ascii.eqb c "-") = true.
Proof.
  destruct z as [| p | p].
  - exists "0"%char, EmptyString. split; reflexivity.
  - rewrite decimal_pos.
    destruct (to_uint_head p) as [c [s [d' [Hs [_ [Hc _]]]]]].
    exists c, s. split; [ exact Hs | rewrite Hc; reflexivity ].
  - rewrite decimal_neg. eexists. eexists. split; reflexivity.
Qed.

Lemma scan_once_decimal (fuel : nat) (z : Z) (rest : string) :
  Z.abs z < 10 ^ Z.of_nat max_str_digits ->
  number_ends rest = true ->
  scan_once (S fuel) (decimal z ++ rest) = Ok (PInt z, rest).
Proof.
  intros Hz H. pose proof (scan_number_decimal z rest Hz H) as Hn.
  destruct (decimal_head z) as [c [s [E Hc]]]. rewrite E in *.
  cbn [append] in *. rewrite (scan_once_number fuel c _ Hc), Hn. reflexivity.
Qed.

End Numbers.

(** ** Floats in a document *)

(** Whether two floats are the same fraction, numerator and denominator. *)
Definition same_float (q q' : Q) : bool :=
  (Qnum q =? Qnum q') && (Qden q =? Qden q')%positive.

Section Floats.
Context {prims : Primitives}.

(** A float whose [repr] is a JSON number with a fraction or an exponent
    that reads back as the same float.  Python guarantees it of every
    finite float: [repr] gives the shortest text that [float()] reads back
    as the float, with a [.0] when it would have neither fraction nor
    exponent. *)
Definition float_ok (q : Q) : bool :=
  match scan_number (float_repr q) with
  | Some (Ok (PFloat q'), EmptyString) => same_float q q'
  | _ => false
  end.

Lemma same_float_eq (q q' : Q) : same_float q q' = true -> q = q'.
Proof.
  destruct q as [n d], q' as [n' d']. unfold same_float. simpl.
  intros H. apply andb_true_iff in H. destruct H as [Hn Hd].
  apply Z.eqb_eq in Hn. apply Pos.eqb_eq in Hd. subst. reflexivity.
Qed.

Lemma span_digits_append (s rest : string) :
  number_ends rest = true ->
  span_digits (s ++ rest) = (fst (span_digits s), (snd (span_digits s) ++ rest)%string).
Proof.
  intros H. induction s as [| c s IH]; cbn [append span_digits].
  - destruct rest as [| c r]; [ reflexivity | ].
    destruct (number_ends_cases c r H) as [Hd _].
    cbn [span_digits]. rewrite Hd. reflexivity.
  - destruct (is_digit c); [ rewrite IH | ]; reflexivity.
Qed.

Lemma scan_integer_append (s rest int s2 : string) :
  number_ends rest = true ->
  scan_integer s = Some (int, s2) ->
  scan_integer (s ++ rest) = Some (int, (s2 ++ rest)%string).
Proof.
  intros H. destruct s as [| c s]; [ discriminate | ].
  cbn [append scan_integer].
  destruct (Ascii.eqb c "0"); [ intros [= <- <-]; reflexivity | ].
  destruct (is_digit c); [ | discriminate ].
  intros [= <- <-]. rewrite (span_digits_append s rest H). reflexivity.
Qed.

Lemma scan_frac_append (s rest : string) :
  number_ends rest = true ->
  scan_frac (s ++ rest) = (fst (scan_frac s), (snd (scan_frac s) ++ rest)%string).
Proof.
  intros H. destruct s as [| c s].
  - cbn [append]. rewrite (scan_frac_ends rest H). reflexivity.
  - cbn [append scan_frac]. destruct (Ascii.eqb c "."); [ | reflexivity ].
    rewrite (span_digits_append s rest H).
    destruct (span_digits s) as [ds r]. cbn [fst snd].
    destruct ds; reflexivity.
Qed.

Lemma scan_exp_append (s rest : string) :
  number_ends rest = true ->
  snd (scan_exp s) = EmptyString ->
  scan_exp (s ++ rest) = (fst (scan_exp s), rest).
Proof.
  intros H. destruct s as [| e s].
  - intros _. cbn [append]. rewrite (scan_exp_ends rest H). reflexivity.
  - cbn [append scan_exp].
    destruct (Ascii.eqb e "e" || Ascii.eqb e "E"); [ | discriminate ].
    destruct s as [| g s].
    + discriminate.
    + cbn [append].
      destruct (Ascii.eqb g "-" || Ascii.eqb g "+"); cbn [fst snd].
      * rewrite (span_digits_append s rest H).
        destruct (span_digits s) as [ds r]. cbn [fst snd].
        destruct ds; [ discriminate | ]. cbn [fst snd]. intros ->. reflexivity.
      * change (String g (s ++ rest)) with (String g s ++ rest)%string.
        rewrite (span_digits_append (String g s) rest H).
        destruct (span_digits (String g s)) as [ds r]. cbn [fst snd].
        destruct ds; [ discriminate | ]. cbn [fst snd]. intros ->. reflexivity.
Qed.

(** A number that takes a whole text is read the same with a text after
    it that no number goes on with. *)
Lemma scan_number_append (s rest : string) (r : result pyobj) :
  number_ends rest = true ->
  scan_number s = Some (r, EmptyString) ->
  scan_number (s ++ rest) = Some (r, rest).
Proof.
  intros H. unfold scan_number.
  set (signed := fun s : string =>
    match s with
    | String c s' =>
        if Ascii.eqb c "-" then (String c EmptyString, s') else (EmptyString, s)
    | EmptyString => (EmptyString, s)
    end).
  change (match scan_integer (snd (signed s)) with
          | None => None
          | Some (int, s2) =>
              let (frac, s3) := scan_frac s2 in
              let (exp, s4) := scan_exp s3 in
              match frac, exp with
              | EmptyString, EmptyString =>
                  Some (z <- int_of_text (fst (signed s) ++ int) ;; Ok (PInt z), s4)
              | _, _ =>
                  Some (Ok (PFloat (float_of_literal
                                      (fst (signed s) ++ int ++ frac ++ exp))), s4)
              end
          end = Some (r, EmptyString) ->
          match scan_integer (snd (signed (s ++ rest)%string)) with
          | None => None
          | Some (int, s2) =>
              let (frac, s3) := scan_frac s2 in
              let (exp, s4) := scan_exp s3 in
              match frac, exp with
              | EmptyString, EmptyString =>
                  Some (z <- int_of_text (fst (signed (s ++ rest)%string) ++ int) ;;
                        Ok (PInt z), s4)
              | _, _ =>
                  Some (Ok (PFloat (float_of_literal
                                      (fst (signed (s ++ rest)%string)
                                       ++ int ++ frac ++ exp))), s4)
              end
          end = Some (r, rest)).
  destruct (scan_integer (snd (signed s))) as [[int s2] |] eqn:Ei; [ | discriminate ].
  assert (Hs : signed (s ++ rest)%string
               = (fst (signed s), (snd (signed s) ++ rest)%string)).
  { destruct s as [| c s]; [ discriminate Ei | ].
    unfold signed. cbn [append]. destruct (Ascii.eqb c "-"); reflexivity. }
  rewrite Hs. cbn [fst snd].
  rewrite (scan_integer_append _ rest int s2 H Ei).
  rewrite (scan_frac_append s2 rest H).
  destruct (scan_frac s2) as [frac s3]. cbn [fst snd].
  destruct (scan_exp s3) as [exp s4] eqn:Ee.
  assert (H4 : forall x : result pyobj,
             Some (x, s4) = Some (r, EmptyString) ->
             s4 = EmptyString /\ x = r) by (intros x [= -> ->]; auto).
  intros Hr.
  assert (E4 : s4 = EmptyString).
  { destruct frac, exp; apply H4 in Hr; tauto. }
  subst s4.
  rewrite (scan_exp_append s3 rest H) by (rewrite Ee; reflexivity).
  rewrite Ee. cbn [fst].
  destruct frac, exp; apply H4 in Hr; destruct Hr as [_ <-]; reflexivity.
Qed.

Lemma scan_number_head (s rest : string) (r : result pyobj) :
  scan_number s = Some (r, rest) ->
  exists c t, s = String c t /\ (is_digit c || Ascii.eqb c "-") = true.
Proof.
  unfold scan_number. destruct s as [| c t]; [ discriminate | ].
  intros H. exists c, t. split; [ reflexivity | ].
  destruct (Ascii.eqb c "-"); [ apply orb_true_r | ].
  cbn [snd scan_integer] in H.
  destruct (Ascii.eqb_spec c "0") as [-> | _]; [ reflexivity | ].
  destruct (is_digit c); [ reflexivity | discriminate ].
Qed.

(** The decoder reads back the text of a float. *)
Lemma scan_once_float (fuel : nat) (q : Q) (rest : string) :
  float_ok q = true ->
  number_ends rest = true ->
  scan_once (S fuel) (float_repr q ++ rest) = Ok (PFloat q, rest).
Proof.
  unfold float_ok. intros Hq H.
  destruct (scan_number (float_repr q)) as [[r s4] |] eqn:E; [ | discriminate ].
  destruct r as [o | e]; [ | discriminate ].
  destruct o as [| | | q' | | |]; try discriminate.
  destruct s4; [ | discriminate ].
  apply same_float_eq in Hq. subst q'.
  destruct (scan_number_head _ _ _ E) as [c [t [Et Hc]]].
  pose proof (scan_number_append _ rest _ H E) as Hn.
  rewrite Et in *. cbn [append] in *.
  rewrite (scan_once_number fuel c _ Hc), Hn. reflexivity.
Qed.

Lemma float_repr_starts (q : Q) :
  float_ok q = true -> starts_value (float_repr q) = true.
Proof.
  unfold float_ok. intros Hq.
  destruct (scan_number (float_repr q)) as [[r s4] |] eqn:E; [ | discriminate ].
  destruct (scan_number_head _ _ _ E) as [c [t [-> Hc]]].
  unfold starts_value, value_start.
  apply orb_true_iff in Hc. destruct Hc as [-> | ->]; [ reflexivity | ].
  rewrite orb_true_r. reflexivity.
Qed.

End Floats.

Lemma scan_string_escape_char (a : ascii) (tail : string) :
  scan_string (escape_char a ++ tail) = cons_char a (scan_string tail).
Proof.
  destruct a as [[] [] [] [] [] [] [] []]; reflexivity.
Qed.

(** The string scanner reads back the text of a str. *)
Lemma scan_string_escape (s rest : string) :
  scan_string (escape s ++ String dquote rest) = Some (s, rest).
Proof.
  induction s as [| a s IH].
  - reflexivity.
  - cbn [escape]. rewrite append_assoc, scan_string_escape_char, IH. reflexivity.
Qed.

Lemma json_string_append (s rest : string) :
  (json_string s ++ rest = String dquote (escape s ++ String dquote rest))%string.
Proof.
  unfold json_string. cbn [append]. rewrite append_assoc. reflexivity.
Qed.

(** Induction on Python objects, through lists and dict values. *)
Fixpoint pyobj_induction (P : pyobj -> Prop)
    (HNone : P PNone) (HBool : forall b, P (PBool b)) (HInt : forall z, P (PInt z))
    (HFloat : forall q, P (PFloat q)) (HStr : forall s, P (PStr s))
    (HList : forall l, Forall P l -> P (PList l))
    (HDict : forall d, Forall (fun kv => P (snd kv)) d -> P (PDict d))
    (o : pyobj) {struct o} : P o :=
  match o with
  | PNone => HNone
  | PBool b => HBool b
  | PInt z => HInt z
  | PFloat q => HFloat q
  | PStr s => HStr s
  | PList l =>
      HList l
        ((fix each (l : list pyobj) : Forall P l :=
            match l with
            | [] => Forall_nil P
            | x :: l' =>
                Forall_cons x
                  (pyobj_induction P HNone HBool HInt HFloat HStr HList HDict x)
                  (each l')
            end) l)
  | PDict d =>
      HDict d
        ((fix each (d : list (pyobj * pyobj)) : Forall (fun kv => P (snd kv)) d :=
            match d with
            | [] => Forall_nil _
            | kv :: d' =>
                Forall_cons kv
                  (pyobj_induction P HNone HBool HInt HFloat HStr HList HDict (snd kv))
                  (each d')
            end) d)
  end.

(** Keys no two of which are equal, as in a dict. *)
Fixpoint distinct_keys (keys : list pyobj) : bool :=
  match keys with
  | [] => true
  | k :: keys' => negb (existsb (key_eq k) keys') && distinct_keys keys'
  end.

(** The objects JSON has a form for: None, booleans, ints that have a str,
    floats, strs, lists of such objects, and dicts of such objects under
    str keys. *)
Fixpoint json_ok {prims : Primitives} (o : pyobj) : bool :=
  match o with
  | PNone | PBool _ | PStr _ => true
  | PInt z => Z.abs z <? 10 ^ Z.of_nat max_str_digits
  | PFloat q => float_ok q
  | PList l => forallb json_ok l
  | PDict d =>
      forallb (fun kv => match fst kv with
                         | PStr _ => json_ok (snd kv)
                         | _ => false
                         end) d
      && distinct_keys (map fst d)
  end.

Section Dumps.
Context {prims : Primitives}.

(** The text of one entry of a dict. *)
Definition member_text (kv : pyobj * pyobj) : result string :=
  kt <- key_text (fst kv) ;;
  vt <- dumps (snd kv) ;;
  Ok (json_string kt ++ ": " ++ vt)%string.

Lemma dumps_list (l : list pyobj) :
  dumps (PList l)
  = (texts <- mapM dumps l ;; Ok ("[" ++ String.concat ", " texts ++ "]")%string).
Proof.
  cbn [dumps]. f_equal.
  induction l as [| x l IH]; [ reflexivity | ].
  cbn [mapM]. rewrite <- IH. reflexivity.
Qed.

Lemma dumps_dict (d : list (pyobj * pyobj)) :
  dumps (PDict d)
  = (texts <- mapM member_text d ;; Ok ("{" ++ String.concat ", " texts ++ "}")%string).
Proof.
  cbn [dumps]. f_equal.
  induction d as [| [k v] d IH]; [ reflexivity | ].
  cbn [mapM]. rewrite <- IH. unfold member_text. cbn [fst snd].
  destruct (key_text k); [ | reflexivity ].
  destruct (dumps v); reflexivity.
Qed.

End Dumps.

(** The texts of the entries of a list or of a dict, separated by a comma
    and a space and followed by the closing bracket. *)
Fixpoint joined (close : string) (texts : list string) : string :=
  match texts with
  | [] => close
  | t :: ts =>
      (t ++ match ts with
            | [] => close
            | _ :: _ => ", " ++ joined close ts
            end)%string
  end.

Lemma concat_joined (close : string) (texts : list string) :
  (String.concat ", " texts ++ close)%string = joined close texts.
Proof.
  induction texts as [| t ts IH]; [ reflexivity | ].
  destruct ts as [| t2 ts]; [ reflexivity | ].
  change (String.concat ", " (t :: t2 :: ts))
    with (t ++ ", " ++ String.concat ", " (t2 :: ts))%string.
  rewrite !append_assoc, IH. reflexivity.
Qed.

Lemma skip_ws_value (c : ascii) (s : string) :
  value_start c = true -> skip_ws (String c s) = String c s.
Proof.
  destruct c as [[] [] [] [] [] [] [] []]; intros H; try discriminate H; reflexivity.
Qed.

Lemma skip_ws_starts (s : string) : starts_value s = true -> skip_ws s = s.
Proof.
  destruct s as [| c s]; [ discriminate | apply skip_ws_value ].
Qed.

Lemma starts_value_append (s t : string) :
  starts_value s = true -> starts_value (s ++ t) = true.
Proof. destruct s; [ discriminate | auto ]. Qed.

Section Roundtrip.
Context {prims : Primitives}.

Lemma scan_once_list (fuel : nat) (c : ascii) (s : string) :
  value_start c = true ->
  scan_once (S fuel) (String "[" (String c s))
  = (lr <- scan_items fuel (String c s) ;; Ok (PList (fst lr), snd lr)).
Proof.
  destruct c as [[] [] [] [] [] [] [] []]; intros H; try discriminate H; reflexivity.
Qed.

Lemma scan_items_step (fuel : nat) (s : string) :
  scan_items (S fuel) s
  = (vr <- scan_once fuel s ;;
     match skip_ws (snd vr) with
     | String "]" rest => Ok ([fst vr], rest)
     | String "," rest =>
         lr <- scan_items fuel (skip_ws rest) ;;
         Ok (fst vr :: fst lr, snd lr)
     | _ => Raise ValueError
     end).
Proof. reflexivity. Qed.

Lemma scan_members_step (fuel : nat) (key vt tail : string) :
  scan_members (S fuel) (json_string key ++ ": " ++ vt ++ tail)
  = (vr <- scan_once fuel (skip_ws (String " " (vt ++ tail))) ;;
     match skip_ws (snd vr) with
     | String "}" rest => Ok ([(key, fst vr)], rest)
     | String "," rest =>
         mr <- scan_members fuel (skip_ws rest) ;;
         Ok ((key, fst vr) :: fst mr, snd mr)
     | _ => Raise ValueError
     end).
Proof.
  rewrite json_string_append. cbn [scan_members].
  change (Ascii.eqb dquote dquote) with true. cbv iota.
  rewrite scan_string_escape. reflexivity.
Qed.

(** The text of an object JSON has a form for starts as a value does. *)
Lemma dumps_starts (o : pyobj) (text : string) :
  json_ok o = true -> dumps o = Ok text -> starts_value text = true.
Proof.
  destruct o as [| b | z | q | s | l | d]; intros Hj Hd.
  - injection Hd as <-. reflexivity.
  - injection Hd as <-. destruct b; reflexivity.
  - cbn [dumps] in Hd. unfold int_str in Hd. cbn [json_ok] in Hj. rewrite Hj in Hd.
    injection Hd as <-. destruct (decimal_head z) as [c [s [-> Hc]]].
    unfold starts_value, value_start.
    apply orb_true_iff in Hc. destruct Hc as [-> | ->]; [ reflexivity | ].
    rewrite orb_true_r. reflexivity.
  - injection Hd as <-. apply float_repr_starts, Hj.
  - injection Hd as <-. reflexivity.
  - rewrite dumps_list in Hd. destruct (mapM dumps l); [ | discriminate ].
    injection Hd as <-. reflexivity.
  - rewrite dumps_dict in Hd. destruct (mapM member_text d); [ | discriminate ].
    injection Hd as <-. reflexivity.
Qed.

(** What the round trip says of one object. *)
Definition reads_back (o : pyobj) : Prop :=
  json_ok o = true ->
  forall (text rest : string) (fuel : nat),
    dumps o = Ok text -> number_ends rest = true ->
    (String.length text < fuel)%nat ->
    scan_once fuel (text ++ rest) = Ok (o, rest).

Lemma scan_items_joined (l : list pyobj) :
  Forall reads_back l -> forallb json_ok l = true ->
  forall texts, mapM dumps l = Ok texts -> l <> [] ->
  forall (rest : string) (fuel : nat),
    (String.length (joined "]" texts) < fuel)%nat ->
    scan_items fuel (joined "]" texts ++ rest) = Ok (l, rest).
Proof.
  induction l as [| x l IH]; intros HP Hj texts Hm Hne rest fuel Hf;
    [ contradiction | ].
  inversion HP as [| ? ? Hx HP']; subst.
  cbn [forallb] in Hj. apply andb_true_iff in Hj. destruct Hj as [Hjx Hj].
  cbn [mapM] in Hm.
  destruct (dumps x) as [t |] eqn:Ex; [ | discriminate ].
  destruct (mapM dumps l) as [ts |] eqn:El; [ | discriminate ].
  injection Hm as <-.
  destruct fuel as [| fuel]; [ lia | ].
  rewrite scan_items_step.
  destruct l as [| x2 l].
  - injection El as <-. cbn [joined] in *. rewrite append_assoc.
    rewrite length_append in Hf. cbn [String.length] in Hf.
    rewrite (Hx Hjx t _ fuel Ex) by (try reflexivity; lia).
    reflexivity.
  - cbn [mapM] in El.
    destruct (dumps x2) as [t2 |] eqn:Ex2; [ | discriminate ].
    destruct (mapM dumps l) as [ts' |] eqn:El'; [ | discriminate ].
    injection El as <-.
    assert (Hs2 : starts_value (joined "]" (t2 :: ts')) = true).
    { cbn [joined]. apply starts_value_append.
      cbn [forallb] in Hj. apply andb_true_iff in Hj.
      exact (dumps_starts x2 t2 (proj1 Hj) Ex2). }
    change (joined "]" (t :: t2 :: ts'))
      with (t ++ String "," (String " " (joined "]" (t2 :: ts'))))%string in *.
    rewrite append_assoc. cbn [append].
    rewrite length_append in Hf. cbn [String.length] in Hf.
    rewrite (Hx Hjx t _ fuel Ex) by (try reflexivity; lia).
    cbn [bind fst snd].
    change (skip_ws (String "," ?r)) with (String "," r).
    cbv iota.
    change (skip_ws (String " " ?r)) with (skip_ws r).
    rewrite (skip_ws_starts _ (starts_value_append _ rest Hs2)).
    rewrite (IH HP' Hj (t2 :: ts'));
      [ reflexivity | reflexivity | discriminate | lia ].
Qed.

End Roundtrip.

(** The name of a str key. *)
Definition key_name (k : pyobj) : string :=
  match k with
  | PStr s => s
  | _ => EmptyString
  end.

(** An entry of a dict that JSON has a form for. *)
Definition member_ok {prims : Primitives} (kv : pyobj * pyobj) : bool :=
  match fst kv with
  | PStr _ => json_ok (snd kv)
  | _ => false
  end.

Lemma append_nil_r (s : string) : (s ++ "")%string = s.
Proof. induction s as [| c s IH]; simpl; [ reflexivity | rewrite IH; reflexivity ]. Qed.

Lemma setitem_fresh (k : string) (v : pyobj) (d : pydict) :
  (forall a, In a d -> key_is k (fst a) = false) ->
  setitem k v d = d ++ [(PStr k, v)].
Proof.
  induction d as [| [k' v'] d IH]; intros H; [ reflexivity | ].
  cbn [setitem]. pose proof (H (k', v') (or_introl eq_refl)) as Hk.
  cbn [fst] in Hk. rewrite Hk.
  rewrite IH by (intros a Ha; apply H; right; exact Ha). reflexivity.
Qed.

Lemma dict_of_pairs_distinct {prims : Primitives} (d : pydict) : forall acc : pydict,
  forallb member_ok d = true ->
  distinct_keys (map fst d) = true ->
  (forall a kv, In a acc -> In kv d -> key_is (key_name (fst kv)) (fst a) = false) ->
  fold_left (fun d kv => setitem (fst kv) (snd kv) d)
    (map (fun kv => (key_name (fst kv), snd kv)) d) acc
  = acc ++ d.
Proof.
  induction d as [| [k v] d IH]; intros acc Hm Hd Hacc.
  - cbn. rewrite app_nil_r. reflexivity.
  - cbn [forallb] in Hm. apply andb_true_iff in Hm. destruct Hm as [Hk Hm].
    cbn [map distinct_keys fst] in Hd. apply andb_true_iff in Hd.
    destruct Hd as [Hnk Hd].
    unfold member_ok in Hk. cbn [fst snd] in Hk.
    destruct k as [| | | | k | |]; try discriminate Hk.
    cbn [map fold_left fst snd key_name].
    rewrite setitem_fresh.
    + rewrite IH; [ rewrite <- app_assoc; reflexivity | exact Hm | exact Hd | ].
      intros a kv Ha Hkv. apply in_app_or in Ha. destruct Ha as [Ha | [<- | []]].
      * apply Hacc; [ exact Ha | right; exact Hkv ].
      * cbn [fst].
        apply negb_true_iff in Hnk.
        assert (Hf : forall kv', In kv' d -> key_eq (PStr k) (fst kv') = false).
        { intros kv' Hin.
          destruct (key_eq (PStr k) (fst kv')) eqn:E; [ | reflexivity ].
          rewrite <- Hnk. symmetry. apply existsb_exists.
          exists (fst kv'). split; [ apply in_map, Hin | exact E ]. }
        specialize (Hf kv Hkv).
        pose proof (proj1 (forallb_forall _ _) Hm kv Hkv) as Hok.
        unfold member_ok in Hok.
        destruct (fst kv) as [| | | | k2 | |]; try discriminate Hok.
        exact Hf.
    + intros a Ha.
      exact (Hacc a (PStr k, v) Ha (or_introl eq_refl)).
Qed.

Section RoundtripDict.
Context {prims : Primitives}.

Lemma scan_once_string (fuel : nat) (s rest : string) :
  scan_once (S fuel) (json_string s ++ rest) = Ok (PStr s, rest).
Proof.
  rewrite json_string_append. cbn [scan_once].
  change (Ascii.eqb dquote dquote) with true. cbv iota.
  rewrite scan_string_escape. reflexivity.
Qed.

Lemma scan_once_dict (fuel : nat) (s : string) :
  scan_once (S fuel) (String "{" (String dquote s))
  = (pr <- scan_members fuel (String dquote s) ;;
     Ok (PDict (dict_of_pairs (fst pr)), snd pr)).
Proof. reflexivity. Qed.

Lemma member_text_str (kv : pyobj * pyobj) (text : string) :
  member_ok kv = true -> member_text kv = Ok text ->
  exists vt,
    dumps (snd kv) = Ok vt /\ json_ok (snd kv) = true /\
    text = (json_string (key_name (fst kv)) ++ ": " ++ vt)%string.
Proof.
  destruct kv as [k v]. unfold member_ok, member_text. cbn [fst snd].
  destruct k as [| | | | k | |]; try discriminate.
  intros Hj. cbn [key_text bind key_name].
  destruct (dumps v) as [vt |]; [ | discriminate ].
  intros [= <-]. exists vt. auto.
Qed.

Lemma scan_members_joined (d : pydict) :
  Forall (fun kv => reads_back (snd kv)) d -> forallb member_ok d = true ->
  forall texts, mapM member_text d = Ok texts -> d <> [] ->
  forall (rest : string) (fuel : nat),
    (String.length (joined "}" texts) < fuel)%nat ->
    scan_members fuel (joined "}" texts ++ rest)
    = Ok (map (fun kv => (key_name (fst kv), snd kv)) d, rest).
Proof.
  induction d as [| kv d IH]; intros HP Hj texts Hm Hne rest fuel Hf;
    [ contradiction | ].
  inversion HP as [| ? ? Hx HP']; subst.
  cbn [forallb] in Hj. apply andb_true_iff in Hj. destruct Hj as [Hjx Hj].
  cbn [mapM] in Hm.
  destruct (member_text kv) as [t |] eqn:Ex; [ | discriminate ].
  destruct (mapM member_text d) as [ts |] eqn:El; [ | discriminate ].
  injection Hm as <-.
  destruct (member_text_str kv t Hjx Ex) as [vt [Ev [Hjv ->]]].
  destruct fuel as [| fuel]; [ lia | ].
  destruct d as [| kv2 d].
  - injection El as <-. cbn [joined] in *.
    rewrite !append_assoc. rewrite !length_append in Hf. cbn [String.length] in Hf.
    rewrite scan_members_step.
    change (skip_ws (String " " ?r)) with (skip_ws r).
    rewrite (skip_ws_starts _ (starts_value_append _ _ (dumps_starts _ _ Hjv Ev))).
    rewrite (Hx Hjv vt _ fuel Ev) by (try reflexivity; lia).
    reflexivity.
  - cbn [mapM] in El.
    destruct (member_text kv2) as [t2 |] eqn:Ex2; [ | discriminate ].
    destruct (mapM member_text d) as [ts' |] eqn:El'; [ | discriminate ].
    injection El as <-.
    assert (Hs2 : starts_value (joined "}" (t2 :: ts')) = true).
    { cbn [joined]. apply starts_value_append.
      cbn [forallb] in Hj. apply andb_true_iff in Hj.
      destruct (member_text_str kv2 t2 (proj1 Hj) Ex2) as [vt2 [_ [_ ->]]].
      reflexivity. }
    change (joined "}" ((json_string (key_name (fst kv)) ++ ": " ++ vt)%string
                        :: t2 :: ts'))
      with ((json_string (key_name (fst kv)) ++ ": " ++ vt)
            ++ String "," (String " " (joined "}" (t2 :: ts'))))%string in *.
    rewrite !append_assoc. rewrite !length_append in Hf. cbn [String.length] in Hf.
    rewrite scan_members_step.
    change (skip_ws (String " " ?r)) with (skip_ws r).
    rewrite (skip_ws_starts _ (starts_value_append _ _ (dumps_starts _ _ Hjv Ev))).
    rewrite (Hx Hjv vt _ fuel Ev) by (try reflexivity; lia).
    cbn [bind fst snd append].
    change (skip_ws (String "," ?r)) with (String "," r).
    cbv iota.
    change (skip_ws (String " " ?r)) with (skip_ws r).
    rewrite (skip_ws_starts _ (starts_value_append _ rest Hs2)).
    rewrite (IH HP' Hj (t2 :: ts'));
      [ reflexivity | reflexivity | discriminate | lia ].
Qed.

End RoundtripDict.

Section LoadsDumps.
Context {prims : Primitives}.

Lemma joined_starts (close : string) (o : pyobj) (t : string) (ts : list string) :
  json_ok o = true -> dumps o = Ok t -> starts_value (joined close (t :: ts)) = true.
Proof.
  intros Hj Hd. cbn [joined]. apply starts_value_append.
  exact (dumps_starts o t Hj Hd).
Qed.

(** The decoder reads back every object JSON has a form for, given fuel
    past the length of its text. *)
Lemma dumps_reads_back (o : pyobj) : reads_back o.
Proof.
  induction o as [| b | z | q | s | l IH | d IH] using pyobj_induction;
    intros Hj text rest fuel Hd Hr Hf.
  - injection Hd as <-. destruct fuel; [ inversion Hf | ].
    destruct rest; reflexivity.
  - injection Hd as <-. destruct fuel; [ inversion Hf | ].
    destruct b, rest; reflexivity.
  - cbn [dumps] in Hd. unfold int_str in Hd. cbn [json_ok] in Hj. rewrite Hj in Hd.
    injection Hd as <-. destruct fuel; [ inversion Hf | ].
    apply scan_once_decimal; [ apply Z.ltb_lt, Hj | exact Hr ].
  - injection Hd as <-. destruct fuel; [ inversion Hf | ].
    apply scan_once_float; [ exact Hj | exact Hr ].
  - injection Hd as <-. destruct fuel; [ inversion Hf | apply scan_once_string ].
  - rewrite dumps_list in Hd.
    destruct (mapM dumps l) as [texts |] eqn:Em; [ | discriminate ].
    injection Hd as <-. cbn [json_ok] in Hj.
    destruct fuel as [| fuel]; [ inversion Hf | ].
    cbn [append]. rewrite append_assoc, <- append_assoc, concat_joined.
    cbn [String.length append] in Hf. rewrite concat_joined in Hf.
    destruct l as [| x l].
    + injection Em as <-. reflexivity.
    + cbn [mapM] in Em.
      destruct (dumps x) as [t |] eqn:Ex; [ | discriminate ].
      destruct (mapM dumps l) as [ts |] eqn:El; [ | discriminate ].
      injection Em as <-.
      cbn [forallb] in Hj.
      pose proof (joined_starts "]" x t ts (proj1 (proj1 (andb_true_iff _ _) Hj)) Ex)
        as Hs.
      pose proof (scan_items_joined (x :: l) IH Hj (t :: ts)) as Hi.
      cbn [mapM] in Hi. rewrite Ex, El in Hi.
      specialize (Hi eq_refl ltac:(discriminate) rest fuel ltac:(lia)).
      destruct (joined "]" (t :: ts)) as [| c body] eqn:Eb; [ discriminate Hs | ].
      cbn [append] in *. rewrite (scan_once_list fuel c _ Hs), Hi. reflexivity.
  - rewrite dumps_dict in Hd.
    destruct (mapM member_text d) as [texts |] eqn:Em; [ | discriminate ].
    injection Hd as <-. cbn [json_ok] in Hj.
    apply andb_true_iff in Hj. destruct Hj as [Hj Hk].
    change (forallb member_ok d = true) in Hj.
    destruct fuel as [| fuel]; [ inversion Hf | ].
    cbn [append]. rewrite append_assoc, <- append_assoc, concat_joined.
    cbn [String.length append] in Hf. rewrite concat_joined in Hf.
    destruct d as [| kv d].
    + injection Em as <-. reflexivity.
    + pose proof (scan_members_joined (kv :: d) IH Hj texts Em
                    ltac:(discriminate) rest fuel ltac:(lia)) as Hi.
      cbn [mapM] in Em.
      destruct (member_text kv) as [t |] eqn:Ex; [ | discriminate ].
      destruct (mapM member_text d) as [ts |] eqn:El; [ | discriminate ].
      injection Em as <-.
      cbn [forallb] in Hj.
      destruct (member_text_str kv t (proj1 (proj1 (andb_true_iff _ _) Hj)) Ex)
        as [vt [_ [_ ->]]].
      cbn [joined] in *. rewrite json_string_append in *. cbn [append] in *.
      rewrite scan_once_dict, Hi. cbn [bind fst snd].
      unfold dict_of_pairs.
      rewrite (dict_of_pairs_distinct (kv :: d) []);
        [ reflexivity | cbn [forallb]; exact Hj | exact Hk | intros a kv' [] ].
Qed.

(** [json.loads] of what [json.dumps] wrote is the object written. *)
Lemma loads_dumps (o : pyobj) (text : string) :
  json_ok o = true -> dumps o = Ok text -> loads text = Ok o.
Proof.
  intros Hj Hd. unfold loads.
  rewrite (skip_ws_starts text (dumps_starts o text Hj Hd)).
  rewrite <- (append_nil_r text) at 2.
  rewrite (dumps_reads_back o Hj text EmptyString _ Hd eq_refl (Nat.lt_succ_diag_r _)).
  reflexivity.
Qed.

(** [json.dumps] succeeds on every object JSON has a form for. *)
Lemma dumps_ok (o : pyobj) : json_ok o = true -> exists text, dumps o = Ok text.
Proof.
  induction o as [| b | z | q | s | l IH | d IH] using pyobj_induction; intros Hj.
  - eexists; reflexivity.
  - eexists; reflexivity.
  - cbn [json_ok] in Hj. cbn [dumps]. unfold int_str. rewrite Hj. eexists; reflexivity.
  - eexists; reflexivity.
  - eexists; reflexivity.
  - rewrite dumps_list. cbn [json_ok] in Hj.
    assert (Hm : exists texts, mapM dumps l = Ok texts).
    { induction l as [| x l IHl]; [ eexists; reflexivity | ].
      inversion IH as [| ? ? Hx Hl]; subst.
      cbn [forallb] in Hj. apply andb_true_iff in Hj. destruct Hj as [Hjx Hj].
      destruct (Hx Hjx) as [t Et]. destruct (IHl Hl Hj) as [ts Ets].
      exists (t :: ts). cbn [mapM]. rewrite Et, Ets. reflexivity. }
    destruct Hm as [texts ->]. eexists; reflexivity.
  - rewrite dumps_dict. cbn [json_ok] in Hj.
    apply andb_true_iff in Hj. destruct Hj as [Hj _].
    assert (Hm : exists texts, mapM member_text d = Ok texts).
    { induction d as [| [k v] d IHd]; [ eexists; reflexivity | ].
      inversion IH as [| ? ? Hx Hl]; subst.
      cbn [forallb fst snd] in Hj. apply andb_true_iff in Hj. destruct Hj as [Hjx Hj].
      destruct k as [| | | | k | |]; try discriminate Hjx.
      destruct (Hx Hjx) as [t Et]. destruct (IHd Hl Hj) as [ts Ets].
      eexists. cbn [mapM]. unfold member_text at 1. cbn [fst snd key_text bind].
      cbn [snd] in Et. rewrite Et, Ets. reflexivity. }
    destruct Hm as [texts ->]. eexists; reflexivity.
Qed.

End LoadsDumps.

(** ** The preferences of the user *)

(** A field that is there with a value sqlite3 can bind. *)
Definition present (k : string) (usuario_data : pydict) : bool :=
  match lookup k usuario_data with
  | Some v => bindable v
  | None => false
  end.

Section Preferencias.
Context {prims : Primitives}.

Lemma present_get (k : string) (d : pydict) :
  present k d = true ->
  exists v, getitem k d = Ok v /\ bindable v = true.
Proof.
  unfold present, getitem. destruct (lookup k d) as [v |]; [ | discriminate ].
  intros H. exists v. auto.
Qed.

Lemma obtener_usuario_first (d : db) (u : Usuario.t) (others : list Usuario.t)
    (text : string) (prefs : pyobj) :
  rows (usuario d) = u :: others ->
  Usuario.preferencias u = VText text ->
  loads text = Ok prefs ->
  exists usuario_dict,
    obtener_usuario d = Ok usuario_dict /\
    lookup "preferencias" usuario_dict = Some prefs.
Proof.
  intros Hrows Hp Hl. unfold obtener_usuario. rewrite Hrows.
  destruct u as [id nombre email avatar preferencias creacion actualizacion].
  cbn [Usuario.preferencias] in Hp. subst preferencias.
  change (getitem "preferencias"
            (dict_zip usuario_column_names
               (Usuario.tuple
                  (Usuario.mk id nombre email avatar (VText text) creacion
                     actualizacion))))
    with (@Ok pyobj (PStr text)).
  cbn [bind json_loads]. rewrite Hl. cbn [bind].
  eexists. split; [ reflexivity | apply lookup_setitem_eq ].
Qed.

(** C6, as the code has it.  Let the record given to [actualizar_usuario]
    carry: under [id], the id of the stored profile, the first row of the
    table, an int of 64 bits; under [nombre], a value sqlite3 binds that is
    not None; under [email], a value sqlite3 binds; under [avatar], if it
    has this key, a value sqlite3 binds; under [preferencias], an object
    JSON has a form for (None, booleans, ints that have a str, floats,
    strs, lists, and dicts under distinct str keys, nested at will).  Then
    the update returns True and [obtener_usuario] yields these preferences,
    entry for entry and in the same order. *)
Theorem preferencias_round_trip
    (now : clock) (usuario_data : pydict) (d : db)
    (u : Usuario.t) (others : list Usuario.t) (preferencias : pyobj)
    (Hrows : rows (usuario d) = u :: others)
    (Hnombre : required "nombre" usuario_data = true)
    (Hemail : present "email" usuario_data = true)
    (Havatar : optional "avatar" usuario_data = true)
    (Hprefs : lookup "preferencias" usuario_data = Some preferencias)
    (Hjson : json_ok preferencias = true)
    (Hid : lookup "id" usuario_data = Some (PInt (Usuario.id u)))
    (Hid64 : is_int64 (Usuario.id u) = true) :
  exists d' usuario_dict,
    actualizar_usuario now usuario_data d = Ok (true, d') /\
    obtener_usuario d' = Ok usuario_dict /\
    lookup "preferencias" usuario_dict = Some preferencias.
Proof.
  destruct (required_get _ _ Hnombre) as [Gn [Bn Nn]].
  destruct (present_get _ _ Hemail) as [email [Ge Be]].
  pose proof (optional_get "avatar" (PStr "default_avatar.png") _ Havatar eq_refl)
    as Ba.
  destruct (dumps_ok preferencias Hjson) as [text Hd].
  pose proof (loads_dumps preferencias text Hjson Hd) as Hl.
  unfold actualizar_usuario. rewrite Gn, Ge. cbn [bind].
  replace (get "preferencias" (PDict []) usuario_data) with preferencias
    by (unfold get; rewrite Hprefs; reflexivity).
  rewrite Hd. cbn [bind].
  unfold getitem at 1. rewrite Hid. cbn [bind].
  unfold update_usuario. cbn [mapM].
  rewrite (bind_param_bound _ Bn), (bind_param_bound _ Be), (bind_param_bound _ Ba).
  cbn [bind bind_param]. rewrite Hid64. cbn [bind].
  rewrite (cast_text_not_null _ Bn Nn), andb_false_r.
  rewrite Hrows. cbn [bind map rows].
  assert (Hhit : sql_eq (VInt (Usuario.id u))
                   (operand AffInteger (VInt (Usuario.id u))) = true).
  { unfold sql_eq; simpl. rewrite Z.compare_refl. reflexivity. }
  rewrite Hhit.
  match goal with
  | |- exists d' usuario_dict, Ok (true, ?D) = _ /\ _ =>
      exists D;
      destruct (obtener_usuario_first D _ _ text preferencias eq_refl eq_refl Hl)
        as [usuario_dict [H1 H2]];
      exists usuario_dict; auto
  end.
Qed.

End Preferencias.

(** The database a first start leaves, and the record [update_profile]
    builds: the stored profile with the preferences replaced. *)
Definition primer_inicio : db := first_start enero.

Definition perfil_con (preferencias : pyobj) : pydict :=
  [(PStr "id", PInt 1); (PStr "nombre", PStr "Lector");
   (PStr "email", PStr "lector@example.com");
   (PStr "avatar", PStr "default_avatar.png");
   (PStr "preferencias", preferencias);
   (PStr "fecha_creacion", PStr "2025-01-15 18:30:00");
   (PStr "fecha_actualizacion", PStr "2025-01-15 18:30:00")].

Definition tema_oscuro : pyobj := PDict [(PStr "theme", PStr "dark")].

(** Preferences of every kind: [{"theme": "dark", "zoom": 1.5, "size": 12,
    "sound": False, "font": None, "recent": [2024, 4.0, {"genre": "Terror"}]}]. *)
Definition preferencias_varias : pyobj :=
  PDict [(PStr "theme", PStr "dark"); (PStr "zoom", PFloat (3 # 2));
         (PStr "size", PInt 12); (PStr "sound", PBool false);
         (PStr "font", PNone);
         (PStr "recent",
          PList [PInt 2024; PFloat (4 # 1);
                 PDict [(PStr "genre", PStr "Terror")]])].

Lemma preferencias_round_trip_witness :
  obtener_usuario primer_inicio = Ok (perfil_con (PDict [])) /\
  json_ok tema_oscuro = true /\
  (exists d' usuario_dict,
      actualizar_usuario segundo_alta (perfil_con tema_oscuro) primer_inicio
      = Ok (true, d') /\
      obtener_usuario d' = Ok usuario_dict /\
      lookup "preferencias" usuario_dict = Some tema_oscuro) /\
  json_ok preferencias_varias = true /\
  exists d' usuario_dict,
    actualizar_usuario segundo_alta (perfil_con preferencias_varias) primer_inicio
    = Ok (true, d') /\
    obtener_usuario d' = Ok usuario_dict /\
    lookup "preferencias" usuario_dict = Some preferencias_varias.
Proof.
  split; [ reflexivity | ]. split; [ reflexivity | ]. split.
  - exact (preferencias_round_trip segundo_alta (perfil_con tema_oscuro)
             primer_inicio (default_usuario enero empty_table) [] tema_oscuro
             eq_refl eq_refl eq_refl eq_refl eq_refl eq_refl eq_refl eq_refl).
  - split; [ reflexivity | ].
    exact (preferencias_round_trip segundo_alta (perfil_con preferencias_varias)
             primer_inicio (default_usuario enero empty_table) []
             preferencias_varias
             eq_refl eq_refl eq_refl eq_refl eq_refl eq_refl eq_refl eq_refl).
Defined.

(** C6, where it fails.  Preferences keyed by the int 1, the Python dict
    [{1: 'x'}], are written as the JSON object with the key ["1"]: the
    update returns True and [obtener_usuario] then yields [{'1': 'x'}],
    whose key, the str ['1'], is not equal to the int 1 of the original. *)
Lemma int_key_comes_back_as_text :
  exists d' usuario_dict,
    actualizar_usuario segundo_alta (perfil_con (PDict [(PInt 1, PStr "x")]))
      primer_inicio
    = Ok (true, d') /\
    obtener_usuario d' = Ok usuario_dict /\
    lookup "preferencias" usuario_dict = Some (PDict [(PStr "1", PStr "x")]) /\
    key_eq (PStr "1") (PInt 1) = false.
Proof.
  eexists. eexists. split; [ vm_compute; reflexivity | ].
  split; [ vm_compute; reflexivity | ]. split; reflexivity.
Qed.

(* ------------------------------------------------------------------ *)
(** * Further properties of the model and of the controller *)

(** ** Creating a book *)

Lemma next_rowid_above {R : Type} (rowid : R -> Z) (t : table R) :
  seq t < next_rowid rowid t /\
  forall r, In r (rows t) -> rowid r < next_rowid rowid t.
Proof.
  unfold next_rowid. induction (rows t) as [| x l [IH1 IH2]]; simpl.
  - split; [ lia | intros r [] ].
  - split; [ lia | ]. intros r [<- | H]; [ lia | ]. specialize (IH2 r H). lia.
Qed.

(** The row [crear_libro] stores under [id]: its ten fields from
    [libro_data] as [replaced] puts them, defaults included, and both of
    its times set to now. *)
Definition stored {prims : Primitives} (now : clock) (libro_data : pydict) (id : Z)
  : Libro.t :=
  replaced now libro_data
    (Libro.mk id VNull VNull VNull VNull VNull VNull VNull VNull VNull VNull
       (VText (timestamp now)) VNull).

Lemma is_int64_rowid_free {R : Type} (rowid : R -> Z) (t : table R) :
  is_int64 (next_rowid rowid t) = true -> rowid_free rowid t = true.
Proof.
  unfold is_int64, rowid_free. intros H. apply andb_true_iff in H. apply H.
Qed.

Lemma crear_libro_stored {prims : Primitives} (now : clock) (libro_data : pydict)
    (d : db) :
  is_int64 (year now) = true ->
  valid_libro_data libro_data = true ->
  crear_libro now libro_data d =
  if rowid_free Libro.id (libros d) then
    Ok (next_rowid Libro.id (libros d),
        mk_db
          (mk_table
             (rows (libros d)
              ++ [stored now libro_data (next_rowid Libro.id (libros d))])
             (next_rowid Libro.id (libros d)))
          (usuario d))
  else Raise OperationalError.
Proof.
  intros Hyear Hdata. unfold valid_libro_data in Hdata.
  repeat (apply andb_true_iff in Hdata; destruct Hdata as [Hdata ?]).
  destruct (required_get _ _ Hdata) as [Gt [Bt Nt]].
  match goal with H : required "autor" _ = true |- _ =>
    destruct (required_get _ _ H) as [Ga [Ba Na]] end.
  match goal with H : required "genero" _ = true |- _ =>
    destruct (required_get _ _ H) as [Gg [Bg Ng]] end.
  unfold crear_libro, libro_params, insert_libro.
  rewrite Gt, Ga, Gg. simpl.
  rewrite (bind_param_bound _ Bt), (bind_param_bound _ Ba), (bind_param_bound _ Bg).
  simpl.
  repeat (rewrite bind_param_bound by (apply optional_get; [ assumption | auto ]);
          simpl).
  destruct (rowid_free Libro.id (libros d)); [ | reflexivity ].
  unfold not_null; simpl.
  rewrite (cast_text_not_null _ Bt Nt), (cast_text_not_null _ Ba Na),
    (cast_text_not_null _ Bg Ng).
  reflexivity.
Qed.

(** X1. For a dict of fields that the table accepts, [crear_libro] returns
    the next rowid of the table, one more than the largest id it ever gave
    out, and adds one row under it after the rows that were there: the
    fields of the dict, each under the affinity of its column, with the
    default of every field the dict leaves out, and both times set to the
    time of the call.  The rows that were there and the table of the user
    are unchanged.  This as long as the next rowid is at most 2^63 - 1;
    past it nothing is stored and the call raises OperationalError. *)
Theorem crear_libro_spec {prims : Primitives}
    (now : clock) (libro_data : pydict) (d : db)
    (Hyear : is_int64 (year now) = true)
    (Hdata : valid_libro_data libro_data = true) :
  let id := next_rowid Libro.id (libros d) in
  crear_libro now libro_data d =
  (if id <=? 2 ^ 63 - 1 then
     Ok (id,
         mk_db (mk_table (rows (libros d) ++ [stored now libro_data id]) id)
           (usuario d))
   else Raise OperationalError) /\
  seq (libros d) < id /\
  (forall r, In r (rows (libros d)) -> Libro.id r < id).
Proof.
  intros id. split; [ apply crear_libro_stored; assumption | ].
  apply next_rowid_above.
Qed.

Lemma crear_libro_spec_witness :
  is_int64 (year segundo_alta) = true /\
  valid_libro_data segundo_libro = true /\
  crear_libro segundo_alta segundo_libro informe_example_db =
  Ok (2,
      mk_db
        (mk_table
           (rows (libros informe_example_db)
            ++ [Libro.mk 2 (VText "Dune") (VText "Herbert") (VText "Novela")
                  (VText "") (VInt 2024) (VText "2024-01-15") (VReal 0) (VInt 0)
                  (VText "") (VText "") (VText "2024-11-02 18:30:00")
                  (VText "2024-11-02 18:30:00")])
           2)
        (usuario informe_example_db)).
Proof.
  split; [ reflexivity | ]. split; [ reflexivity | ].
  exact (proj1 (crear_libro_spec segundo_alta segundo_libro informe_example_db
                  eq_refl eq_refl)).
Defined.

(** A table whose last rowid is the largest there is. *)
Definition tabla_llena : db :=
  mk_db
    (mk_table
       [Libro.mk (2 ^ 63 - 1) (VText "It") (VText "King") (VText "Terror")
          (VText "") (VInt 2024) (VText "2024-10-31") (VReal 5) (VInt 1138)
          (VText "") (VText "") (VText "2024-11-01 09:00:00")
          (VText "2024-11-01 09:00:00")]
       (2 ^ 63 - 1))
    empty_table.

Example crear_libro_tabla_llena :
  crear_libro segundo_alta segundo_libro tabla_llena = Raise OperationalError.
Proof. reflexivity. Qed.

(** X2. A dict that holds a title, an author and a genre, all three str,
    and nothing else, is stored with the defaults of [crear_libro]: the
    empty text for subgenre, publisher and comment, the year and the date
    of the call (the date as the text it is, when SQLite does not read it as
    a number), the rating 0 as the REAL 0.0 and 0 pages; on a table whose
    next rowid is past 2^63 - 1 it is not stored and the call raises
    OperationalError. *)
Theorem crear_libro_defaults {prims : Primitives}
    (now : clock) (titulo autor genero : string) (d : db)
    (Hyear : is_int64 (year now) = true)
    (Htoday : text_numeric (today now) = None) :
  let id := next_rowid Libro.id (libros d) in
  crear_libro now
    [(PStr "titulo", PStr titulo); (PStr "autor", PStr autor);
     (PStr "genero", PStr genero)] d =
  if id <=? 2 ^ 63 - 1 then
    Ok (id,
        mk_db
          (mk_table
             (rows (libros d)
              ++ [Libro.mk id (VText titulo) (VText autor) (VText genero)
                    (VText "") (VInt (year now)) (VText (today now)) (VReal 0)
                    (VInt 0) (VText "") (VText "")
                    (VText (timestamp now)) (VText (timestamp now))])
             id)
          (usuario d))
  else Raise OperationalError.
Proof.
  intros id. rewrite crear_libro_stored; [ | exact Hyear | reflexivity ].
  change (rowid_free Libro.id (libros d)) with (id <=? 2 ^ 63 - 1).
  destruct (id <=? 2 ^ 63 - 1); [ | reflexivity ].
  unfold stored, replaced, cast, numeric. simpl. rewrite Htoday. reflexivity.
Qed.

Lemma crear_libro_defaults_witness :
  is_int64 (year segundo_alta) = true /\
  text_numeric (today segundo_alta) = None /\
  crear_libro segundo_alta
    [(PStr "titulo", PStr "Dune"); (PStr "autor", PStr "Herbert");
     (PStr "genero", PStr "Novela")] informe_example_db =
  Ok (2,
      mk_db
        (mk_table
           (rows (libros informe_example_db)
            ++ [Libro.mk 2 (VText "Dune") (VText "Herbert") (VText "Novela")
                  (VText "") (VInt 2024) (VText "2024-01-15") (VReal 0) (VInt 0)
                  (VText "") (VText "") (VText "2024-11-02 18:30:00")
                  (VText "2024-11-02 18:30:00")])
           2)
        (usuario informe_example_db)).
Proof.
  split; [ reflexivity | ]. split; [ reflexivity | ].
  exact (crear_libro_defaults segundo_alta "Dune" "Herbert" "Novela"
           informe_example_db eq_refl eq_refl).
Defined.

Lemma filter_app_last {A : Type} (f : A -> bool) (l : list A) (x : A) :
  (forall y, In y l -> f y = false) -> f x = true -> filter f (l ++ [x]) = [x].
Proof.
  intros Hl Hx. rewrite filter_app, (filter_none _ _ Hl). simpl. rewrite Hx.
  reflexivity.
Qed.

(** X3. A book that [crear_libro] stored is found again under the id it
    returned: [generar_informe_lectura] on this id gives the thirteen
    fields of the stored row, and a total of books one more than before. *)
Theorem crear_libro_then_informe {prims : Primitives}
    (now : clock) (libro_data : pydict) (d : db)
    (Hyear : is_int64 (year now) = true)
    (Hdata : valid_libro_data libro_data = true)
    (Hid : is_int64 (next_rowid Libro.id (libros d)) = true) :
  let id := next_rowid Libro.id (libros d) in
  exists d',
    crear_libro now libro_data d = Ok (id, d') /\
    generar_informe_lectura id d' =
    Ok (dict_zip column_names (Libro.tuple (stored now libro_data id)) ++
        [(PStr "total_libros_leidos",
          PInt (Z.of_nat (List.length (rows (libros d))) + 1));
         (PStr "promedio_calificacion_global",
          promedio_calificacion (obtener_estadisticas d'))]).
Proof.
  intros id. eexists. split.
  { rewrite crear_libro_stored by assumption.
    rewrite (is_int64_rowid_free _ _ Hid). reflexivity. }
  unfold generar_informe_lectura, select_libro_by_id.
  cbn [mapM bind bind_param]. fold id in Hid |- *. rewrite Hid.
  cbn [bind libros rows].
  rewrite (filter_ext_in _ _ _ (id_is_int id)).
  rewrite filter_app_last.
  - cbn [map]. set (stats := obtener_estadisticas _).
    assert (Htotal : total_libros stats
                     = Z.of_nat (List.length (rows (libros d))) + 1).
    { subst stats. unfold obtener_estadisticas. cbn [total_libros libros rows].
      rewrite length_app, Nat2Z.inj_add. reflexivity. }
    rewrite Htotal. reflexivity.
  - intros r Hr. apply Z.eqb_neq.
    pose proof (proj2 (next_rowid_above Libro.id (libros d)) r Hr) as Hlt.
    fold id in Hlt. lia.
  - apply Z.eqb_refl.
Qed.

Lemma crear_libro_then_informe_witness :
  exists d',
    crear_libro segundo_alta segundo_libro informe_example_db = Ok (2, d') /\
    generar_informe_lectura 2 d' =
    Ok (dict_zip column_names
          [VInt 2; VText "Dune"; VText "Herbert"; VText "Novela"; VText "";
           VInt 2024; VText "2024-01-15"; VReal 0; VInt 0; VText "";
           VText ""; VText "2024-11-02 18:30:00"; VText "2024-11-02 18:30:00"]
        ++ [(PStr "total_libros_leidos", PInt 2);
            (PStr "promedio_calificacion_global", PFloat (5 # 2))]).
Proof.
  destruct (crear_libro_then_informe segundo_alta segundo_libro informe_example_db
              eq_refl eq_refl eq_refl) as [d' [H1 H2]].
  exists d'. split; [ exact H1 | ].
  etransitivity; [ exact H2 | ].
  cbv in H1. injection H1 as <-. reflexivity.
Defined.

(** ** What [crear_libro] rejects *)

(** The first of the three fields read with [libro_data[...]] that the dict
    does not hold. *)
Definition missing (libro_data : pydict) : option string :=
  find (fun k => match lookup k libro_data with None => true | Some _ => false end)
    ["titulo"; "autor"; "genero"].

(** X4. A dict that lacks one of [titulo], [autor] and [genero] is not
    stored: [crear_libro] and [actualizar_libro] both raise KeyError, on
    the first of the three, in this order, that the dict lacks. *)
Theorem libro_data_missing_key {prims : Primitives}
    (now : clock) (libro_id : Z) (libro_data : pydict) (d : db) (k : string)
    (Hmissing : missing libro_data = Some k) :
  crear_libro now libro_data d = Raise (KeyError k) /\
  actualizar_libro now libro_id libro_data d = Raise (KeyError k).
Proof.
  unfold missing in Hmissing. cbn [find] in Hmissing.
  unfold crear_libro, actualizar_libro, libro_params, getitem.
  destruct (lookup "titulo" libro_data).
  - destruct (lookup "autor" libro_data).
    + destruct (lookup "genero" libro_data); [ discriminate | ].
      injection Hmissing as <-. split; reflexivity.
    + injection Hmissing as <-. split; reflexivity.
  - injection Hmissing as <-. split; reflexivity.
Qed.

Lemma libro_data_missing_key_witness :
  missing [(PStr "titulo", PStr "Dune"); (PStr "genero", PStr "Novela")]
  = Some "autor" /\
  crear_libro enero
    [(PStr "titulo", PStr "Dune"); (PStr "genero", PStr "Novela")]
    informe_example_db = Raise (KeyError "autor") /\
  actualizar_libro enero 1
    [(PStr "titulo", PStr "Dune"); (PStr "genero", PStr "Novela")]
    informe_example_db = Raise (KeyError "autor").
Proof.
  split; [ reflexivity | ].
  exact (libro_data_missing_key enero 1
           [(PStr "titulo", PStr "Dune"); (PStr "genero", PStr "Novela")]
           informe_example_db "autor" eq_refl).
Defined.

Lemma bind_param_ok {prims : Primitives} (o : pyobj) (v : value) :
  bind_param o = Ok v -> bindable o = true /\ v = bound o.
Proof.
  destruct o; simpl; intros H; try discriminate;
    try (injection H as <-; split; reflexivity).
  destruct (is_int64 z); [ | discriminate ].
  injection H as <-. split; reflexivity.
Qed.

Lemma mapM_bind_param_ok {prims : Primitives} (l : list pyobj) : forall vs,
  mapM bind_param l = Ok vs -> forallb bindable l = true /\ vs = map bound l.
Proof.
  induction l as [| o l IH]; simpl; intros vs H.
  - injection H as <-. split; reflexivity.
  - apply bind_ok in H. destruct H as [v [Hv H]].
    apply bind_ok in H. destruct H as [vs' [Hvs H]].
    injection H as <-.
    destruct (bind_param_ok _ _ Hv) as [-> ->].
    destruct (IH _ Hvs) as [-> ->]. split; reflexivity.
Qed.

Lemma optional_of_get (k : string) (default : pyobj) (d : pydict) :
  bindable (get k default d) = true -> optional k d = true.
Proof. unfold optional, get. destruct (lookup k d); auto. Qed.

Lemma required_of_get {prims : Primitives} (k : string) (d : pydict) (v : pyobj) :
  getitem k d = Ok v -> bindable v = true ->
  is_null (cast AffText (bound v)) = false -> required k d = true.
Proof.
  unfold getitem, required. destruct (lookup k d) as [o |]; [ | discriminate ].
  intros [= ->] Hb Hn. destruct v; try exact Hb. discriminate.
Qed.

(** X5. [crear_libro] stores nothing from a dict that lacks a title, an
    author or a genre, that has None for one of the three, or that has a
    list, a dict or an int beyond 64 bits under one of its ten fields: when
    the call returns an id, the dict has none of these defects, and with
    one of them the call ends in an exception. *)
Theorem crear_libro_only_valid {prims : Primitives}
    (now : clock) (libro_data : pydict) (d : db) :
  (forall (id : Z) (d' : db),
      crear_libro now libro_data d = Ok (id, d') ->
      valid_libro_data libro_data = true) /\
  (valid_libro_data libro_data = false ->
   exists e, crear_libro now libro_data d = Raise e).
Proof.
  assert (H : forall (id : Z) (d' : db),
             crear_libro now libro_data d = Ok (id, d') ->
             valid_libro_data libro_data = true);
    [ | split; [ exact H | ];
        intros Hv; destruct (crear_libro now libro_data d) as [[id d'] | e];
        [ rewrite (H id d' eq_refl) in Hv; discriminate Hv | exists e; reflexivity ] ].
  intros id d' Hok.
  unfold crear_libro in Hok.
  apply bind_ok in Hok. destruct Hok as [params [Hp H]].
  apply bind_ok in H. destruct H as [it [Hi _]].
  unfold libro_params in Hp.
  apply bind_ok in Hp. destruct Hp as [titulo [Gt Hp]].
  apply bind_ok in Hp. destruct Hp as [autor [Ga Hp]].
  apply bind_ok in Hp. destruct Hp as [genero [Gg Hp]].
  injection Hp as <-.
  unfold insert_libro in Hi.
  apply bind_ok in Hi. destruct Hi as [vs [Hvs Hi]].
  apply mapM_bind_param_ok in Hvs. destruct Hvs as [Hb ->].
  cbn [map libro_of] in Hi.
  destruct (rowid_free Libro.id (libros d)); [ | discriminate ].
  match type of Hi with (if ?c then _ else _) = _ =>
    destruct c eqn:Hnn; [ | discriminate ] end.
  unfold not_null in Hnn. cbn [Libro.titulo Libro.autor Libro.genero] in Hnn.
  apply andb_true_iff in Hnn. destruct Hnn as [Hnn Hg].
  apply andb_true_iff in Hnn. destruct Hnn as [Ht Ha].
  apply negb_true_iff in Ht, Ha, Hg.
  cbn [forallb] in Hb.
  repeat (apply andb_true_iff in Hb; destruct Hb as [? Hb]).
  unfold valid_libro_data.
  rewrite (required_of_get _ _ _ Gt), (required_of_get _ _ _ Ga),
    (required_of_get _ _ _ Gg) by assumption.
  repeat match goal with
         | Hx : bindable (get ?k ?default ?data) = true |- _ =>
             rewrite (optional_of_get k default data Hx); clear Hx
         end.
  reflexivity.
Qed.

(** A book with a list for its page count, and one with no title. *)
Definition libro_con_lista : pydict :=
  [(PStr "titulo", PStr "Dune"); (PStr "autor", PStr "Herbert");
   (PStr "genero", PStr "Novela"); (PStr "paginas", PList [PInt 412])].

Definition libro_sin_titulo : pydict :=
  [(PStr "titulo", PNone); (PStr "autor", PStr "Herbert");
   (PStr "genero", PStr "Novela")].

Lemma crear_libro_only_valid_witness :
  (exists d',
      crear_libro segundo_alta segundo_libro informe_example_db = Ok (2, d') /\
      valid_libro_data segundo_libro = true) /\
  valid_libro_data libro_con_lista = false /\
  (exists e, crear_libro segundo_alta libro_con_lista informe_example_db = Raise e) /\
  crear_libro segundo_alta libro_con_lista informe_example_db
  = Raise ProgrammingError /\
  crear_libro segundo_alta libro_sin_titulo informe_example_db
  = Raise IntegrityError.
Proof.
  split.
  - eexists. split; [ reflexivity | ].
    exact (proj1 (crear_libro_only_valid segundo_alta segundo_libro
                    informe_example_db) 2 _ eq_refl).
  - split; [ reflexivity | ]. split; [ | split; reflexivity ].
    exact (proj2 (crear_libro_only_valid segundo_alta libro_con_lista
                    informe_example_db) eq_refl).
Defined.

(** ** Deleting a book *)

Lemma eliminar_libro_eq {prims : Primitives} (libro_id : Z) (d : db) :
  eliminar_libro libro_id d =
  if is_int64 libro_id then
    Ok (true,
        mk_db
          (mk_table
             (filter (fun r => negb (Libro.id r =? libro_id)) (rows (libros d)))
             (seq (libros d)))
          (usuario d))
  else Raise OverflowError.
Proof.
  unfold eliminar_libro, delete_libro. cbn [mapM bind bind_param].
  destruct (is_int64 libro_id); [ | reflexivity ]. cbn [bind].
  rewrite (filter_ext_in _ (fun r => negb (Libro.id r =? libro_id))); [ reflexivity | ].
  intros r. rewrite id_is_int. reflexivity.
Qed.

(** X6. [eliminar_libro] on an id of 64 bits returns True and leaves the
    table without the rows of this id, the other rows in their order, the
    counter of the ids and the table of the user as they were; when no row
    has the id the database is unchanged and the call returns True all the
    same.  An id beyond 64 bits raises OverflowError. *)
Theorem eliminar_libro_spec {prims : Primitives} (libro_id : Z) (d : db) :
  eliminar_libro libro_id d =
  (if is_int64 libro_id then
     Ok (true,
         mk_db
           (mk_table
              (filter (fun r => negb (Libro.id r =? libro_id)) (rows (libros d)))
              (seq (libros d)))
           (usuario d))
   else Raise OverflowError) /\
  (is_int64 libro_id = true ->
   (forall r, In r (rows (libros d)) -> Libro.id r <> libro_id) ->
   eliminar_libro libro_id d = Ok (true, d)).
Proof.
  split; [ apply eliminar_libro_eq | ].
  intros Hid Habs. rewrite eliminar_libro_eq, Hid.
  rewrite filter_all.
  - destruct d as [[rs sq] us]. reflexivity.
  - intros r Hr. apply negb_true_iff, Z.eqb_neq, Habs, Hr.
Qed.

Section FilterSort.
Variable A : Type.
Variable le : A -> A -> bool.
Hypothesis le_total : forall x y, le x y = false -> le y x = true.
Hypothesis le_trans : forall x y z, le x y = true -> le y z = true -> le x z = true.
Variable keep : A -> bool.

Lemma insert_by_first (x : A) (l : list A) :
  Forall (fun y => le x y = true) l -> insert_by le x l = x :: l.
Proof.
  destruct l as [| y l]; simpl; [ reflexivity | ].
  intros H. inversion H as [| ? ? Hy _]; subst. rewrite Hy. reflexivity.
Qed.

Lemma filter_insert_by (x : A) (l : list A) :
  StronglySorted (fun a b => le a b = true) l ->
  filter keep (insert_by le x l) =
  if keep x then insert_by le x (filter keep l) else filter keep l.
Proof.
  induction l as [| y l IH]; intros Hs.
  - simpl. destruct (keep x); reflexivity.
  - inversion Hs as [| ? ? Hs' Hf]; subst. cbn [insert_by].
    destruct (le x y) eqn:E.
    + cbn [filter]. destruct (keep x); [ | reflexivity ].
      rewrite insert_by_first; [ reflexivity | ].
      apply Forall_forall. intros z Hz.
      change (if keep y then y :: filter keep l else filter keep l)
        with (filter keep (y :: l)) in Hz.
      apply filter_In in Hz. destruct Hz as [[<- | Hz] _]; [ exact E | ].
      apply (le_trans x y z E). exact (proj1 (Forall_forall _ _) Hf z Hz).
    + cbn [filter]. rewrite (IH Hs').
      destruct (keep y), (keep x); cbn [insert_by]; try rewrite E; reflexivity.
Qed.

(** Sorting and then leaving rows out is leaving them out and then
    sorting. *)
Lemma filter_sort_by (l : list A) :
  filter keep (sort_by le l) = sort_by le (filter keep l).
Proof.
  induction l as [| x l IH]; [ reflexivity | ].
  cbn [sort_by filter].
  rewrite filter_insert_by by (apply sort_by_sorted; assumption).
  rewrite IH. destruct (keep x); reflexivity.
Qed.

End FilterSort.

(** X7. After [eliminar_libro] the book is gone and the others are as they
    were: [generar_informe_lectura] on the id returns the empty dict, and
    [obtener_libros] returns the list it returned before without the books
    of this id, the others in the order they had. *)
Theorem eliminar_libro_then_list {prims : Primitives}
    (libro_id : Z) (d : db) (Hid : is_int64 libro_id = true) :
  exists d',
    eliminar_libro libro_id d = Ok (true, d') /\
    generar_informe_lectura libro_id d' = Ok [] /\
    obtener_libros None d =
    Ok (map (dict_zip column_names)
          (map Libro.tuple (sort_by fecha_desc (rows (libros d))))) /\
    obtener_libros None d' =
    Ok (map (dict_zip column_names)
          (map Libro.tuple
             (filter (fun r => negb (Libro.id r =? libro_id))
                (sort_by fecha_desc (rows (libros d)))))).
Proof.
  eexists. split; [ rewrite eliminar_libro_eq, Hid; reflexivity | ].
  split; [ | split ].
  - unfold generar_informe_lectura, select_libro_by_id.
    cbn [mapM bind bind_param]. rewrite Hid. cbn [bind libros rows].
    rewrite (filter_ext_in _ _ _ (id_is_int libro_id)).
    rewrite filter_none; [ reflexivity | ].
    intros r Hr. apply filter_In in Hr. destruct Hr as [_ Hr].
    apply negb_true_iff in Hr. exact Hr.
  - apply obtener_libros_all.
  - rewrite obtener_libros_all. cbn [libros rows].
    rewrite (filter_sort_by _ _ fecha_desc_total fecha_desc_trans). reflexivity.
Qed.

Lemma eliminar_libro_then_list_witness :
  is_int64 1 = true /\
  exists d',
    eliminar_libro 1 informe_example_db = Ok (true, d') /\
    generar_informe_lectura 1 d' = Ok [] /\
    obtener_libros None d' = Ok [].
Proof.
  split; [ reflexivity | ].
  destruct (eliminar_libro_then_list 1 informe_example_db eq_refl)
    as [d' [H1 [H2 [_ H4]]]].
  exists d'. split; [ exact H1 | ]. split; [ exact H2 | exact H4 ].
Defined.

(** ** The ids of the books *)

(** The ids of a table are in order when no two rows share one and none is
    above the counter AUTOINCREMENT keeps. *)
Definition ids_ok (t : table Libro.t) : Prop :=
  NoDup (map Libro.id (rows t)) /\
  Forall (fun r => Libro.id r <= seq t) (rows t).

Lemma libro_of_id {prims : Primitives} (id : Z) (vs : list value)
    (creacion actualizacion : value) (r : Libro.t) :
  libro_of id vs creacion actualizacion = Some r -> Libro.id r = id.
Proof.
  unfold libro_of.
  do 11 (destruct vs as [| ? vs]; try discriminate).
  intros [= <-]. reflexivity.
Qed.

Lemma crear_libro_inv {prims : Primitives}
    (now : clock) (libro_data : pydict) (d d' : db) (id : Z) :
  crear_libro now libro_data d = Ok (id, d') ->
  id = next_rowid Libro.id (libros d) /\
  exists r,
    Libro.id r = id /\
    d' = mk_db (mk_table (rows (libros d) ++ [r]) id) (usuario d).
Proof.
  unfold crear_libro, insert_libro. intros H.
  apply bind_ok in H. destruct H as [params [_ H]].
  apply bind_ok in H. destruct H as [[id' t] [H E]].
  injection E as <- <-.
  apply bind_ok in H. destruct H as [vs [_ H]].
  destruct (libro_of _ vs _ _) as [r |] eqn:Hr; [ | discriminate ].
  destruct (rowid_free Libro.id (libros d)); [ | discriminate ].
  destruct (not_null r); [ | discriminate ].
  injection H as <- <-. apply libro_of_id in Hr.
  split; [ exact Hr | ]. exists r. split; [ reflexivity | ].
  unfold append_row. rewrite Hr. reflexivity.
Qed.

Lemma actualizar_libro_inv {prims : Primitives}
    (now : clock) (libro_id : Z) (libro_data : pydict) (d d' : db) (b : bool) :
  actualizar_libro now libro_id libro_data d = Ok (b, d') ->
  map Libro.id (rows (libros d')) = map Libro.id (rows (libros d)) /\
  seq (libros d') = seq (libros d) /\ usuario d' = usuario d.
Proof.
  unfold actualizar_libro, update_libro. intros H.
  apply bind_ok in H. destruct H as [params [_ H]].
  apply bind_ok in H. destruct H as [t [H E]].
  injection E as <- <-.
  apply bind_ok in H. destruct H as [vs [_ H]].
  destruct (libro_of 0 (removelast vs) VNull VNull); [ | discriminate ].
  match type of H with (if ?c then _ else _) = _ => destruct c; [ discriminate | ] end.
  injection H as <-. cbn [libros rows seq usuario].
  split; [ | split; reflexivity ].
  rewrite map_map. apply map_ext_all. intros r.
  destruct (id_is (last vs VNull) r); [ | reflexivity ].
  destruct (libro_of (Libro.id r) _ _ _) as [r' |] eqn:Hr; [ | reflexivity ].
  apply (libro_of_id _ _ _ _ _ Hr).
Qed.

Lemma NoDup_map_filter {A B : Type} (f : A -> B) (keep : A -> bool) (l : list A) :
  NoDup (map f l) -> NoDup (map f (filter keep l)).
Proof.
  induction l as [| x l IH]; simpl; intros H; [ constructor | ].
  inversion H as [| ? ? Hx Hl]; subst.
  destruct (keep x); [ | apply IH, Hl ].
  simpl. constructor; [ | apply IH, Hl ].
  intros Hin. apply Hx. apply in_map_iff in Hin. destruct Hin as [y [Hy Hin]].
  apply filter_In in Hin. apply in_map_iff. exists y. tauto.
Qed.

(** X8. The ids of the books stay in order: on a table where no two rows
    share an id and none is above the counter, every call of [crear_libro],
    [actualizar_libro] and [eliminar_libro] that returns leaves such a
    table again.  [crear_libro] returns the counter plus one and moves the
    counter there; the two others leave the counter where it was, so an id
    that was given out is never given out again. *)
Theorem libro_ids_stay_in_order {prims : Primitives} (d : db)
    (Hids : ids_ok (libros d)) :
  (forall now libro_data id d',
      crear_libro now libro_data d = Ok (id, d') ->
      ids_ok (libros d') /\ id = seq (libros d) + 1 /\ seq (libros d') = id) /\
  (forall now libro_id libro_data b d',
      actualizar_libro now libro_id libro_data d = Ok (b, d') ->
      ids_ok (libros d') /\ seq (libros d') = seq (libros d)) /\
  (forall libro_id b d',
      eliminar_libro libro_id d = Ok (b, d') ->
      ids_ok (libros d') /\ seq (libros d') = seq (libros d)).
Proof.
  destruct Hids as [Hnd Hle].
  assert (Hnext : next_rowid Libro.id (libros d) = seq (libros d) + 1).
  { unfold next_rowid. f_equal. clear Hnd.
    induction Hle as [| r l Hr _ IH]; simpl; [ reflexivity | ]. rewrite IH. lia. }
  split; [ | split ].
  - intros now libro_data id d' H.
    apply crear_libro_inv in H. destruct H as [Hid [r [Hr ->]]].
    unfold ids_ok. cbn [libros rows seq]. rewrite Hnext in Hid.
    split; [ | split; [ exact Hid | reflexivity ] ].
    split.
    + rewrite map_app. simpl. apply NoDup_app; [ exact Hnd | | ].
      * constructor; [ intros [] | constructor ].
      * intros x Hx [<- | []]. apply in_map_iff in Hx.
        destruct Hx as [y [Hy Hin]].
        pose proof (proj1 (Forall_forall _ _) Hle y Hin) as Hb. simpl in Hb. lia.
    + apply Forall_app. split.
      * apply Forall_forall. intros y Hin.
        pose proof (proj1 (Forall_forall _ _) Hle y Hin) as Hb. simpl in Hb. lia.
      * constructor; [ lia | constructor ].
  - intros now libro_id libro_data b d' H.
    apply actualizar_libro_inv in H. destruct H as [Hmap [Hseq _]].
    split; [ | exact Hseq ]. split.
    + rewrite Hmap. exact Hnd.
    + rewrite Hseq. apply Forall_forall. intros r Hr.
      assert (Hin : In (Libro.id r) (map Libro.id (rows (libros d)))).
      { rewrite <- Hmap. apply in_map, Hr. }
      apply in_map_iff in Hin. destruct Hin as [y [Hy Hin]].
      pose proof (proj1 (Forall_forall _ _) Hle y Hin) as Hb. simpl in Hb. lia.
  - intros libro_id b d' H. rewrite eliminar_libro_eq in H.
    destruct (is_int64 libro_id); [ | discriminate ].
    injection H as _ <-. unfold ids_ok. cbn [libros rows seq].
    split; [ | reflexivity ]. split.
    + apply NoDup_map_filter, Hnd.
    + apply Forall_forall. intros r Hr. apply filter_In in Hr.
      exact (proj1 (Forall_forall _ _) Hle r (proj1 Hr)).
Qed.

Lemma libro_ids_stay_in_order_witness :
  ids_ok (libros informe_example_db) /\
  exists d1 d2 d3,
    crear_libro segundo_alta segundo_libro informe_example_db = Ok (2, d1) /\
    ids_ok (libros d1) /\
    eliminar_libro 2 d1 = Ok (true, d2) /\ ids_ok (libros d2) /\
    crear_libro enero segundo_libro d2 = Ok (3, d3) /\ ids_ok (libros d3).
Proof.
  assert (H0 : ids_ok (libros informe_example_db)).
  { split; simpl.
    - constructor; [ intros [] | constructor ].
    - constructor; [ simpl; lia | constructor ]. }
  split; [ exact H0 | ].
  eexists. eexists. eexists.
  split; [ reflexivity | ].
  pose proof (proj1 (proj1 (libro_ids_stay_in_order informe_example_db H0)
                       segundo_alta segundo_libro 2 _ eq_refl)) as H1.
  split; [ exact H1 | ]. split; [ reflexivity | ].
  pose proof (proj1 (proj2 (proj2 (libro_ids_stay_in_order _ H1)) 2 true _ eq_refl))
    as H2.
  split; [ exact H2 | ]. split; [ reflexivity | ].
  exact (proj1 (proj1 (libro_ids_stay_in_order _ H2) enero segundo_libro 3 _ eq_refl)).
Defined.

(** ** The profile of the user *)

(** X9. On a file that was new at the first start, after any number of
    starts, none of which fails, [obtener_usuario] returns the default
    profile the first start stored: id 1, the name Lector, its email and
    avatar, the empty dict of preferences, and the time of the first start
    as both of its times. *)
Theorem obtener_usuario_default {prims : Primitives}
    (now : clock) (clocks : list clock) (last_start : clock) :
  (f <- startups (now :: clocks) new_file ;;
   d <- _initialize_database last_start f ;;
   obtener_usuario d) =
  Ok [(PStr "id", PInt 1); (PStr "nombre", PStr "Lector");
      (PStr "email", PStr "lector@example.com");
      (PStr "avatar", PStr "default_avatar.png");
      (PStr "preferencias", PDict []);
      (PStr "fecha_creacion", PStr (timestamp now));
      (PStr "fecha_actualizacion", PStr (timestamp now))].
Proof.
  rewrite startups_new_file. cbn [bind].
  rewrite initialize_initialized by discriminate.
  reflexivity.
Qed.

Lemma usuario_hit {prims : Primitives} (n : Z) (r : Usuario.t) :
  sql_eq (VInt (Usuario.id r)) (operand AffInteger (VInt n)) = (Usuario.id r =? n).
Proof.
  unfold sql_eq; simpl.
  destruct (Z.compare_spec (Usuario.id r) n) as [E | L | G]; symmetry.
  - apply Z.eqb_eq, E.
  - apply Z.eqb_neq. lia.
  - apply Z.eqb_neq. lia.
Qed.

Lemma existsb_ext_all {A : Type} (f g : A -> bool) (l : list A) :
  (forall x, f x = g x) -> existsb f l = existsb g l.
Proof.
  intros H. induction l as [| x l IH]; simpl; [ reflexivity | ].
  rewrite H, IH. reflexivity.
Qed.

Lemma actualizar_usuario_eq {prims : Primitives}
    (now : clock) (usuario_data : pydict) (d : db)
    (nombre email : pyobj) (n : Z) (text : string) :
  lookup "nombre" usuario_data = Some nombre -> bindable nombre = true ->
  lookup "email" usuario_data = Some email -> bindable email = true ->
  optional "avatar" usuario_data = true ->
  dumps (get "preferencias" (PDict []) usuario_data) = Ok text ->
  lookup "id" usuario_data = Some (PInt n) -> is_int64 n = true ->
  actualizar_usuario now usuario_data d =
  if existsb (fun r => Usuario.id r =? n) (rows (usuario d))
     && is_null (cast AffText (bound nombre))
  then Raise IntegrityError
  else
    Ok (true,
        mk_db (libros d)
          (mk_table
             (map (fun r =>
                     if Usuario.id r =? n then
                       Usuario.mk (Usuario.id r)
                         (cast AffText (bound nombre)) (cast AffText (bound email))
                         (cast AffText
                            (bound (get "avatar" (PStr "default_avatar.png")
                                      usuario_data)))
                         (VText text) (Usuario.fecha_creacion r)
                         (VText (timestamp now))
                     else r)
                  (rows (usuario d)))
             (seq (usuario d)))).
Proof.
  intros Hn Bn He Be Ha Hd Hid Hid64.
  pose proof (optional_get "avatar" (PStr "default_avatar.png") _ Ha eq_refl) as Ba.
  unfold actualizar_usuario, getitem. rewrite Hn, He, Hid, Hd. cbn [bind].
  unfold update_usuario. cbn [mapM].
  rewrite (bind_param_bound _ Bn), (bind_param_bound _ Be), (bind_param_bound _ Ba).
  cbn [bind bind_param]. rewrite Hid64. cbn [bind].
  rewrite (existsb_ext_all _ (fun r => Usuario.id r =? n));
    [ | intros r; apply usuario_hit ].
  destruct (existsb _ _ && _); [ reflexivity | ]. cbn [bind].
  do 4 f_equal. apply map_ext_all. intros r. rewrite usuario_hit. reflexivity.
Qed.

(** X10. A record that carries the id of the stored profile, a name and an
    email, both str, but neither avatar nor preferences, resets the two:
    after [actualizar_usuario], [obtener_usuario] returns the name and the
    email of the record, the avatar [default_avatar.png] and the empty dict
    of preferences, with the id and the creation time the profile had and
    the time of the call as its update time. *)
Theorem actualizar_usuario_defaults {prims : Primitives}
    (now : clock) (usuario_data : pydict) (d : db)
    (u : Usuario.t) (others : list Usuario.t) (nombre email : string)
    (Hrows : rows (usuario d) = u :: others)
    (Hnombre : lookup "nombre" usuario_data = Some (PStr nombre))
    (Hemail : lookup "email" usuario_data = Some (PStr email))
    (Havatar : lookup "avatar" usuario_data = None)
    (Hprefs : lookup "preferencias" usuario_data = None)
    (Hid : lookup "id" usuario_data = Some (PInt (Usuario.id u)))
    (Hid64 : is_int64 (Usuario.id u) = true) :
  exists d',
    actualizar_usuario now usuario_data d = Ok (true, d') /\
    libros d' = libros d /\
    obtener_usuario d' =
    Ok [(PStr "id", PInt (Usuario.id u)); (PStr "nombre", PStr nombre);
        (PStr "email", PStr email);
        (PStr "avatar", PStr "default_avatar.png");
        (PStr "preferencias", PDict []);
        (PStr "fecha_creacion", fetch (Usuario.fecha_creacion u));
        (PStr "fecha_actualizacion", PStr (timestamp now))].
Proof.
  eexists. split.
  - rewrite (actualizar_usuario_eq now usuario_data d (PStr nombre) (PStr email)
               (Usuario.id u) "{}" Hnombre eq_refl Hemail eq_refl).
    + rewrite andb_false_r. reflexivity.
    + unfold optional. rewrite Havatar. reflexivity.
    + unfold get. rewrite Hprefs. reflexivity.
    + exact Hid.
    + exact Hid64.
  - split; [ reflexivity | ].
    unfold obtener_usuario. cbn [usuario rows]. rewrite Hrows. cbn [map].
    rewrite Z.eqb_refl. unfold get. rewrite Havatar. reflexivity.
Qed.

Definition perfil_sin_avatar : pydict :=
  [(PStr "id", PInt 1); (PStr "nombre", PStr "Ana");
   (PStr "email", PStr "ana@example.com")].

Lemma actualizar_usuario_defaults_witness :
  exists d',
    actualizar_usuario segundo_alta perfil_sin_avatar primer_inicio = Ok (true, d') /\
    libros d' = libros primer_inicio /\
    obtener_usuario d' =
    Ok [(PStr "id", PInt 1); (PStr "nombre", PStr "Ana");
        (PStr "email", PStr "ana@example.com");
        (PStr "avatar", PStr "default_avatar.png");
        (PStr "preferencias", PDict []);
        (PStr "fecha_creacion", PStr "2025-01-15 18:30:00");
        (PStr "fecha_actualizacion", PStr "2024-11-02 18:30:00")].
Proof.
  exact (actualizar_usuario_defaults segundo_alta perfil_sin_avatar primer_inicio
           (default_usuario enero empty_table) [] "Ana" "ana@example.com"
           eq_refl eq_refl eq_refl eq_refl eq_refl eq_refl eq_refl).
Defined.

(** X11. [actualizar_usuario] on an id that no profile has is a silent
    no-op: with a record whose fields sqlite3 can bind and whose
    preferences JSON has a form for, it returns True and leaves the
    database as it was, even when the name is None. *)
Theorem actualizar_usuario_unknown_id {prims : Primitives}
    (now : clock) (usuario_data : pydict) (d : db) (n : Z)
    (Hnombre : present "nombre" usuario_data = true)
    (Hemail : present "email" usuario_data = true)
    (Havatar : optional "avatar" usuario_data = true)
    (Hprefs : json_ok (get "preferencias" (PDict []) usuario_data) = true)
    (Hid : lookup "id" usuario_data = Some (PInt n))
    (Hid64 : is_int64 n = true)
    (Hnone : forallb (fun r => negb (Usuario.id r =? n)) (rows (usuario d)) = true) :
  actualizar_usuario now usuario_data d = Ok (true, d).
Proof.
  unfold present in Hnombre, Hemail.
  destruct (lookup "nombre" usuario_data) as [nombre |] eqn:Ln; [ | discriminate ].
  destruct (lookup "email" usuario_data) as [email |] eqn:Le; [ | discriminate ].
  destruct (dumps_ok _ Hprefs) as [text Hd].
  rewrite (actualizar_usuario_eq now usuario_data d nombre email n text
             Ln Hnombre Le Hemail Havatar Hd Hid Hid64).
  assert (Hex : existsb (fun r => Usuario.id r =? n) (rows (usuario d)) = false).
  { apply not_true_is_false. intros Hex. apply existsb_exists in Hex.
    destruct Hex as [r [Hr Hx]].
    pose proof (proj1 (forallb_forall _ _) Hnone r Hr) as Hy.
    cbv beta in Hy. rewrite Hx in Hy. discriminate. }
  rewrite Hex. cbn [andb]. do 2 f_equal.
  rewrite map_unchanged.
  - destruct d as [ls [rs sq]]. reflexivity.
  - intros r Hr. pose proof (proj1 (forallb_forall _ _) Hnone r Hr) as Hy.
    cbv beta in Hy. apply negb_true_iff in Hy. rewrite Hy. reflexivity.
Qed.

Lemma actualizar_usuario_unknown_id_witness :
  actualizar_usuario segundo_alta
    [(PStr "id", PInt 7); (PStr "nombre", PNone); (PStr "email", PStr "")]
    primer_inicio
  = Ok (true, primer_inicio).
Proof.
  exact (actualizar_usuario_unknown_id segundo_alta
           [(PStr "id", PInt 7); (PStr "nombre", PNone); (PStr "email", PStr "")]
           primer_inicio 7 eq_refl eq_refl eq_refl eq_refl eq_refl eq_refl eq_refl).
Defined.

(** ** The values a filter offers *)

Lemma sort_by_sorted_id {A : Type} (le : A -> A -> bool) (l : list A) :
  StronglySorted (fun a b => le a b = true) l -> sort_by le l = l.
Proof.
  induction l as [| x l IH]; intros H; [ reflexivity | ].
  inversion H as [| ? ? Hs Hf]; subst. cbn [sort_by]. rewrite (IH Hs).
  apply insert_by_first, Hf.
Qed.

Lemma StronglySorted_app {A : Type} (R : A -> A -> Prop) (l1 l2 : list A) :
  StronglySorted R l1 -> StronglySorted R l2 ->
  (forall a b, In a l1 -> In b l2 -> R a b) ->
  StronglySorted R (l1 ++ l2).
Proof.
  induction l1 as [| x l1 IH]; simpl; intros H1 H2 H; [ exact H2 | ].
  inversion H1 as [| ? ? Hs Hf]; subst. constructor.
  - apply IH; auto.
  - apply Forall_app. split; [ exact Hf | ].
    apply Forall_forall. intros b Hb. apply H; auto.
Qed.

Lemma StronglySorted_rev {A : Type} (R : A -> A -> Prop) (l : list A) :
  StronglySorted R l -> StronglySorted (fun a b => R b a) (rev l).
Proof.
  induction l as [| x l IH]; simpl; intros H; [ constructor | ].
  inversion H as [| ? ? Hs Hf]; subst.
  apply StronglySorted_app; [ apply IH, Hs | constructor; constructor | ].
  intros a b Ha [<- | []]. apply in_rev in Ha.
  exact (proj1 (Forall_forall _ _) Hf a Ha).
Qed.

Lemma StronglySorted_strict {A : Type} (R : A -> A -> Prop) (l : list A) :
  StronglySorted R l -> NoDup l -> StronglySorted (fun a b => R a b /\ a <> b) l.
Proof.
  induction l as [| x l IH]; intros Hs Hn; [ constructor | ].
  inversion Hs as [| ? ? Hs' Hf]; subst. inversion Hn as [| ? ? Hx Hn']; subst.
  constructor; [ apply IH; assumption | ].
  apply Forall_forall. intros b Hb. split.
  - exact (proj1 (Forall_forall _ _) Hf b Hb).
  - intros ->. contradiction.
Qed.

Lemma StronglySorted_impl {A : Type} (R S : A -> A -> Prop) (l : list A) :
  (forall a b, R a b -> S a b) -> StronglySorted R l -> StronglySorted S l.
Proof.
  intros H. induction 1 as [| x l Hs IH Hf]; constructor; [ exact IH | ].
  apply Forall_forall. intros b Hb. apply H.
  exact (proj1 (Forall_forall _ _) Hf b Hb).
Qed.

(** The values of one column that are of one kind, [A], as Python sees
    them through [inj]: how the set of a comprehension gathers them and how
    [sorted] orders them. *)
Section Column.
Context {prims : Primitives}.
Variable A : Type.
Variable eqb : A -> A -> bool.
Variable le : A -> A -> bool.
Variable inj : A -> pyobj.
Hypothesis eqb_eq : forall a b, eqb a b = true <-> a = b.
Hypothesis key_eq_inj : forall a b, key_eq (inj a) (inj b) = eqb a b.
Hypothesis set_add_inj : forall a s,
  set_add (inj a) s = Ok (if existsb (key_eq (inj a)) s then s else s ++ [inj a]).
Hypothesis py_lt_inj : forall x y, py_lt (inj y) (inj x) = Ok (negb (le x y)).
Hypothesis le_total : forall x y, le x y = false -> le y x = true.
Hypothesis le_trans : forall x y z, le x y = true -> le y z = true -> le x z = true.

(** What the comprehension makes of one book: [Some a] when it adds
    [inj a] to the set, [None] when the value of the book is not true. *)
Definition picks_of (key : string) (book : pydict) (p : option A) : Prop :=
  match p with
  | Some a => lookup key book = Some (inj a) /\ truthy (inj a) = true
  | None => truthy (get key PNone book) = false
  end.

Definition add_pick (s : list A) (p : option A) : list A :=
  match p with
  | Some a => if existsb (eqb a) s then s else s ++ [a]
  | None => s
  end.

Lemma existsb_key_eq (a : A) (s : list A) :
  existsb (key_eq (inj a)) (map inj s) = existsb (eqb a) s.
Proof.
  induction s as [| b s IH]; simpl; [ reflexivity | ].
  rewrite key_eq_inj, IH. reflexivity.
Qed.

Lemma set_of_picks (key : string) (books : list pydict) (picks : list (option A)) :
  Forall2 (picks_of key) books picks ->
  forall s, set_of key books (map inj s) = Ok (map inj (fold_left add_pick picks s)).
Proof.
  induction 1 as [| book p books picks Hp _ IH]; intros s; [ reflexivity | ].
  cbn [set_of fold_left]. destruct p as [a |]; cbn [picks_of] in Hp.
  - destruct Hp as [Hl Ht]. unfold get, getitem. rewrite Hl, Ht. cbn [bind].
    rewrite set_add_inj. cbn [bind]. rewrite existsb_key_eq.
    cbn [add_pick]. destruct (existsb (eqb a) s); [ apply IH | ].
    rewrite <- IH, map_app. reflexivity.
  - rewrite Hp. apply IH.
Qed.

Lemma existsb_eqb_In (a : A) (s : list A) : existsb (eqb a) s = true <-> In a s.
Proof.
  rewrite existsb_exists. split.
  - intros [b [Hb E]]. apply eqb_eq in E. subst. exact Hb.
  - intros H. exists a. split; [ exact H | apply eqb_eq; reflexivity ].
Qed.

Lemma In_add_picks (a : A) (picks : list (option A)) : forall s,
  In a (fold_left add_pick picks s) <-> In a s \/ In (Some a) picks.
Proof.
  induction picks as [| p picks IH]; intros s; cbn [fold_left].
  - simpl. tauto.
  - rewrite IH. destruct p as [b |]; cbn [add_pick].
    + destruct (existsb (eqb b) s) eqn:E.
      * apply existsb_eqb_In in E. simpl. split.
        -- tauto.
        -- intros [H | [[= ->] | H]]; auto.
      * rewrite in_app_iff. simpl. split.
        -- intros [[H | [-> | []]] | H]; auto.
        -- intros [H | [[= ->] | H]]; auto.
    + simpl. split.
      * tauto.
      * intros [H | [H | H]]; auto. discriminate.
Qed.

Lemma NoDup_add_picks (picks : list (option A)) : forall s,
  NoDup s -> NoDup (fold_left add_pick picks s).
Proof.
  induction picks as [| p picks IH]; intros s Hs; cbn [fold_left]; [ exact Hs | ].
  apply IH. destruct p as [b |]; cbn [add_pick]; [ | exact Hs ].
  destruct (existsb (eqb b) s) eqn:E; [ exact Hs | ].
  apply NoDup_app; [ exact Hs | constructor; [ intros [] | constructor ] | ].
  intros x Hx [<- | []].
  apply existsb_eqb_In in Hx. rewrite Hx in E. discriminate.
Qed.

Lemma insert_sorted_inj (x : A) (l : list A) :
  insert_sorted (inj x) (map inj l) = Ok (map inj (insert_by le x l)).
Proof.
  induction l as [| y l IH]; [ reflexivity | ].
  cbn [map insert_sorted insert_by]. rewrite py_lt_inj. cbn [bind].
  destruct (le x y); cbn [negb]; [ reflexivity | ].
  rewrite IH. reflexivity.
Qed.

Lemma sort_list_inj (l : list A) :
  sort_list (map inj l) = Ok (map inj (sort_by le l)).
Proof.
  induction l as [| x l IH]; [ reflexivity | ].
  cbn [map sort_list sort_by]. rewrite IH. cbn [bind]. apply insert_sorted_inj.
Qed.

(** The elements of a set, greatest first or least first. *)
Definition ordered (reverse : bool) (s : list A) : list A :=
  if reverse then rev (sort_by le (rev s)) else sort_by le s.

Lemma sorted_inj (reverse : bool) (s : list A) :
  sorted reverse (map inj s) = Ok (map inj (ordered reverse s)).
Proof.
  unfold sorted, ordered. destruct reverse.
  - rewrite <- map_rev, sort_list_inj. cbn [bind]. rewrite map_rev. reflexivity.
  - apply sort_list_inj.
Qed.

Lemma ordered_In (reverse : bool) (s : list A) (a : A) :
  In a (ordered reverse s) <-> In a s.
Proof.
  unfold ordered. destruct reverse.
  - rewrite <- in_rev. split; intros H.
    + apply in_rev. exact (Permutation_in _ (sort_by_perm _ _ _) H).
    + apply (Permutation_in _ (Permutation_sym (sort_by_perm _ _ _))).
      apply in_rev in H. exact H.
  - split; intros H.
    + exact (Permutation_in _ (sort_by_perm _ _ _) H).
    + exact (Permutation_in _ (Permutation_sym (sort_by_perm _ _ _)) H).
Qed.

Lemma ordered_NoDup (reverse : bool) (s : list A) :
  NoDup s -> NoDup (ordered reverse s).
Proof.
  intros H. unfold ordered. destruct reverse.
  - apply NoDup_rev.
    apply (Permutation_NoDup (Permutation_sym (sort_by_perm _ _ _))).
    apply NoDup_rev, H.
  - exact (Permutation_NoDup (Permutation_sym (sort_by_perm _ _ _)) H).
Qed.

Lemma ordered_sorted (reverse : bool) (s : list A) :
  NoDup s ->
  StronglySorted
    (fun a b => (if reverse then le b a else le a b) = true /\ a <> b)
    (ordered reverse s).
Proof.
  intros H. apply StronglySorted_strict; [ | apply ordered_NoDup, H ].
  unfold ordered. destruct reverse.
  - apply (StronglySorted_rev (fun a b => le a b = true)).
    apply sort_by_sorted; assumption.
  - apply sort_by_sorted; assumption.
Qed.

(** Sorting again what is sorted changes nothing. *)
Lemma ordered_again (reverse : bool) (s : list A) :
  ordered reverse (ordered reverse s) = ordered reverse s.
Proof.
  unfold ordered. destruct reverse.
  - rewrite rev_involutive.
    rewrite (sort_by_sorted_id le (sort_by le (rev s)))
      by (apply sort_by_sorted; assumption).
    reflexivity.
  - apply sort_by_sorted_id, sort_by_sorted; assumption.
Qed.

End Column.

(** A str is not after another one. *)
Definition str_le (x y : string) : bool :=
  match String.compare y x with Lt => false | _ => true end.

Lemma str_le_total (x y : string) : str_le x y = false -> str_le y x = true.
Proof.
  unfold str_le. rewrite (String.compare_antisym x y).
  destruct (String.compare y x); simpl; congruence.
Qed.

Lemma str_le_trans (x y z : string) :
  str_le x y = true -> str_le y z = true -> str_le x z = true.
Proof.
  unfold str_le. intros H1 H2.
  assert (H : String.compare x z <> Gt).
  { apply (string_compare_le_trans x y z).
    - rewrite (String.compare_antisym x y). destruct (String.compare y x);
        simpl; congruence.
    - rewrite (String.compare_antisym y z). destruct (String.compare z y);
        simpl; congruence. }
  rewrite (String.compare_antisym z x). destruct (String.compare x z);
    simpl; congruence.
Qed.

(** The book [obtener_libros] makes of a row, and the row the table of the
    window shows for it. *)
Definition book_of {prims : Primitives} (r : Libro.t) : pydict :=
  dict_zip column_names (Libro.tuple r).

Definition table_row {prims : Primitives} (r : Libro.t) : list pyobj :=
  [PInt (Libro.id r); fetch (Libro.titulo r); fetch (Libro.autor r);
   fetch (Libro.genero r); fetch (Libro.subgenero r);
   fetch (Libro.anio_lectura r); fetch (Libro.calificacion r);
   fetch (Libro.paginas r); fetch (Libro.editorial r)].

(** The year a row adds to the filter, if any: an INTEGER other than 0. *)
Definition year_of (r : Libro.t) : option Z :=
  match Libro.anio_lectura r with
  | VInt z => if z =? 0 then None else Some z
  | _ => None
  end.

(** The genre a row adds to the filter, if any: a TEXT that is not empty. *)
Definition genre_of (r : Libro.t) : option string :=
  match Libro.genero r with
  | VText s => if String.eqb s "" then None else Some s
  | _ => None
  end.

(** A row as the forms of the window store it: the year an INTEGER, NULL
    or the empty text, the genre a TEXT or NULL. *)
Definition listable (r : Libro.t) : bool :=
  match Libro.anio_lectura r with
  | VInt _ | VNull => true
  | VText s => String.eqb s ""
  | VReal _ => false
  end &&
  match Libro.genero r with
  | VText _ | VNull => true
  | VInt _ | VReal _ => false
  end.

Section Refresh.
Context {prims : Primitives}.

Lemma years_picked (rs : list Libro.t) :
  forallb listable rs = true ->
  Forall2 (picks_of Z PInt "anio_lectura") (map book_of rs) (map year_of rs).
Proof.
  induction rs as [| r rs IH]; simpl; intros H; [ constructor | ].
  apply andb_true_iff in H. destruct H as [Hr H].
  constructor; [ | apply IH, H ].
  unfold listable in Hr. apply andb_true_iff in Hr. destruct Hr as [Hy _].
  unfold year_of. destruct r; cbn in Hy |- *.
  destruct anio_lectura as [| z | q | s]; cbn.
  - reflexivity.
  - destruct (z =? 0) eqn:E; cbn; [ rewrite E; reflexivity | ].
    split; [ reflexivity | rewrite E; reflexivity ].
  - discriminate.
  - rewrite Hy. reflexivity.
Qed.

Lemma genres_picked (rs : list Libro.t) :
  forallb listable rs = true ->
  Forall2 (picks_of string PStr "genero") (map book_of rs) (map genre_of rs).
Proof.
  induction rs as [| r rs IH]; simpl; intros H; [ constructor | ].
  apply andb_true_iff in H. destruct H as [Hr H].
  constructor; [ | apply IH, H ].
  unfold listable in Hr. apply andb_true_iff in Hr. destruct Hr as [_ Hg].
  unfold genre_of. destruct r; cbn in Hg |- *.
  destruct genero as [| z | q | s]; cbn; try discriminate.
  - reflexivity.
  - destruct (String.eqb s "") eqn:E; cbn; [ rewrite E; reflexivity | ].
    split; [ reflexivity | rewrite E; reflexivity ].
Qed.

Lemma py_lt_int (x y : Z) : py_lt (PInt y) (PInt x) = Ok (negb (x <=? y)).
Proof.
  unfold py_lt. cbn [number_of]. rewrite Qcompare_inject_Z.
  unfold Z.leb. rewrite (Z.compare_antisym y x).
  destruct (y ?= x); reflexivity.
Qed.

Lemma py_lt_str (x y : string) : py_lt (PStr y) (PStr x) = Ok (negb (str_le x y)).
Proof.
  unfold py_lt, str_le. destruct (String.compare y x); reflexivity.
Qed.

Lemma Zleb_total (x y : Z) : (x <=? y) = false -> (y <=? x) = true.
Proof. intros H. apply Z.leb_gt in H. apply Z.leb_le. lia. Qed.

Lemma Zleb_trans (x y z : Z) :
  (x <=? y) = true -> (y <=? z) = true -> (x <=? z) = true.
Proof. rewrite !Z.leb_le. lia. Qed.

Lemma table_row_of (r : Libro.t) :
  map (fun col => get col (PStr "") (book_of r)) columns = table_row r.
Proof. destruct r. reflexivity. Qed.

(** The years and the genres the two filters offer for a table. *)
Definition years_offered (rs : list Libro.t) : list Z :=
  ordered Z Z.leb true
    (fold_left (add_pick Z Z.eqb) (map year_of (sort_by fecha_desc rs)) []).

Definition genres_offered (rs : list Libro.t) : list string :=
  ordered string str_le false
    (fold_left (add_pick string String.eqb)
       (map genre_of (sort_by fecha_desc rs)) []).

Lemma refresh_books_table_eq (filters : option pydict) (d : db) (v : view) :
  forallb filter_ok (filters_of filters) = true ->
  forallb listable (rows (libros d)) = true ->
  _refresh_books_table filters d v =
  (mk_view "Todos" "Todos" "Todas"
     (PStr "Todos" :: map PInt (years_offered (rows (libros d))))
     (PStr "Todos" :: map PStr (genres_offered (rows (libros d))))
     (PStr "Todas" :: map PStr ["1"; "2"; "3"; "4"; "5"])
     (map table_row (selected filters d)),
   None).
Proof.
  intros Hf Hr. unfold _refresh_books_table.
  rewrite (obtener_libros_is_selected filters d Hf), obtener_libros_all.
  cbn [bind].
  assert (Hs : forallb listable (sort_by fecha_desc (rows (libros d))) = true).
  { apply forallb_forall. intros r Hin.
    apply (Permutation_in _ (sort_by_perm _ _ _)) in Hin.
    exact (proj1 (forallb_forall _ _) Hr r Hin). }
  rewrite !map_map.
  change (fun x => dict_zip column_names (Libro.tuple x)) with book_of.
  pose proof (set_of_picks Z Z.eqb PInt (fun a b => eq_refl) (fun a s => eq_refl)
                "anio_lectura" _ _ (years_picked _ Hs) []) as Hy.
  pose proof (set_of_picks string String.eqb PStr (fun a b => eq_refl)
                (fun a s => eq_refl) "genero" _ _ (genres_picked _ Hs) []) as Hg.
  change (map PInt []) with (@nil pyobj) in Hy.
  change (map PStr []) with (@nil pyobj) in Hg.
  rewrite Hy. cbn [bind]. rewrite Hg. cbn [bind].
  rewrite (sorted_inj Z Z.leb PInt py_lt_int). cbn [bind].
  rewrite (sorted_inj string str_le PStr py_lt_str). cbn [bind].
  unfold populate_filters.
  rewrite (sorted_inj Z Z.leb PInt py_lt_int).
  rewrite (sorted_inj string str_le PStr py_lt_str).
  rewrite (ordered_again Z Z.leb Zleb_total Zleb_trans).
  rewrite (ordered_again string str_le str_le_total str_le_trans).
  unfold populate_books_table.
  cbn [year_var genre_var rating_var year_values genre_values rating_values
       books_table].
  rewrite map_map. rewrite (map_ext_all _ table_row) by apply table_row_of.
  reflexivity.
Qed.

End Refresh.

Lemma years_offered_spec (rs : list Libro.t) :
  StronglySorted (fun a b => b < a) (years_offered rs) /\
  forall z, In z (years_offered rs) <->
            z <> 0 /\ In (VInt z) (map Libro.anio_lectura rs).
Proof.
  unfold years_offered. split.
  - apply (StronglySorted_impl (fun a b => (b <=? a) = true /\ a <> b)).
    + intros a b [H1 H2]. apply Z.leb_le in H1. lia.
    + apply (ordered_sorted Z Z.leb Zleb_total Zleb_trans true).
      apply (NoDup_add_picks Z Z.eqb Z.eqb_eq). constructor.
  - intros z. rewrite (ordered_In Z Z.leb).
    rewrite (In_add_picks Z Z.eqb Z.eqb_eq). rewrite !in_map_iff. split.
    + intros [[] | [r [Hr Hin]]].
      apply (Permutation_in _ (sort_by_perm _ _ _)) in Hin.
      unfold year_of in Hr. destruct (Libro.anio_lectura r) as [| y | |] eqn:E;
        try discriminate.
      destruct (Z.eqb_spec y 0) as [| Hy]; [ discriminate | ].
      injection Hr as ->. split; [ exact Hy | ]. exists r. auto.
    + intros [Hz [r [Hr Hin]]]. right. exists r. split.
      * unfold year_of. rewrite Hr.
        destruct (Z.eqb_spec z 0) as [| _]; [ contradiction | reflexivity ].
      * exact (Permutation_in _ (Permutation_sym (sort_by_perm _ _ _)) Hin).
Qed.

Lemma genres_offered_spec (rs : list Libro.t) :
  StronglySorted (fun a b => String.compare a b = Lt) (genres_offered rs) /\
  forall g, In g (genres_offered rs) <->
            g <> "" /\ In (VText g) (map Libro.genero rs).
Proof.
  unfold genres_offered. split.
  - apply (StronglySorted_impl (fun a b => str_le a b = true /\ a <> b)).
    + intros a b [H1 H2]. unfold str_le in H1.
      rewrite (String.compare_antisym a b).
      destruct (String.compare b a) eqn:E; try reflexivity; try discriminate.
      apply String.compare_eq_iff in E. congruence.
    + apply (ordered_sorted string str_le str_le_total str_le_trans false).
      apply (NoDup_add_picks string String.eqb String.eqb_eq). constructor.
  - intros g. rewrite (ordered_In string str_le).
    rewrite (In_add_picks string String.eqb String.eqb_eq). rewrite !in_map_iff.
    split.
    + intros [[] | [r [Hr Hin]]].
      apply (Permutation_in _ (sort_by_perm _ _ _)) in Hin.
      unfold genre_of in Hr. destruct (Libro.genero r) as [| | | s] eqn:E;
        try discriminate.
      destruct (String.eqb_spec s "") as [| Hs]; [ discriminate | ].
      injection Hr as ->. split; [ exact Hs | ]. exists r. auto.
    + intros [Hg [r [Hr Hin]]]. right. exists r. split.
      * unfold genre_of. rewrite Hr.
        destruct (String.eqb_spec g "") as [| _]; [ contradiction | reflexivity ].
      * exact (Permutation_in _ (Permutation_sym (sort_by_perm _ _ _)) Hin).
Qed.

(** X12. On a table whose rows are as the forms store them,
    [_refresh_books_table] does not fail: the table of the window shows the
    nine columns of the books [obtener_libros] returns for the filters, in
    its order; the year filter offers each year other than 0 that a book
    has, once, latest first, and the genre filter each genre other than the
    empty text, once, in the order of the code points; and the three combo
    boxes are back on their first entry, Todos, Todos and Todas. *)
Theorem refresh_books_table_spec {prims : Primitives}
    (filters : option pydict) (d : db) (v : view)
    (Hfilters : forallb filter_ok (filters_of filters) = true)
    (Hrows : forallb listable (rows (libros d)) = true) :
  let years := years_offered (rows (libros d)) in
  let genres := genres_offered (rows (libros d)) in
  _refresh_books_table filters d v =
  (mk_view "Todos" "Todos" "Todas"
     (PStr "Todos" :: map PInt years)
     (PStr "Todos" :: map PStr genres)
     (PStr "Todas" :: map PStr ["1"; "2"; "3"; "4"; "5"])
     (map table_row (selected filters d)),
   None) /\
  StronglySorted (fun a b => b < a) years /\
  (forall z, In z years <->
             z <> 0 /\ In (VInt z) (map Libro.anio_lectura (rows (libros d)))) /\
  StronglySorted (fun a b => String.compare a b = Lt) genres /\
  (forall g, In g genres <->
             g <> "" /\ In (VText g) (map Libro.genero (rows (libros d)))).
Proof.
  intros years genres.
  split; [ apply refresh_books_table_eq; assumption | ].
  split; [ apply years_offered_spec | ].
  split; [ apply years_offered_spec | ].
  split; apply genres_offered_spec.
Qed.


Lemma refresh_books_table_spec_witness :
  forallb filter_ok (filters_of (Some filtros_2021)) = true /\
  forallb listable (rows (libros tres_libros)) = true /\
  _refresh_books_table (Some filtros_2021) tres_libros ventana =
  (mk_view "Todos" "Todos" "Todas"
     [PStr "Todos"; PInt 2024; PInt 2021]
     [PStr "Todos"; PStr "Novela"; PStr "Terror"]
     [PStr "Todas"; PStr "1"; PStr "2"; PStr "3"; PStr "4"; PStr "5"]
     [[PInt 2; PStr "Dune"; PStr "Herbert"; PStr "Novela"; PStr "";
       PInt 2021; PFloat 4; PInt 600; PStr ""]],
   None).
Proof.
  split; [ reflexivity | ]. split; [ reflexivity | ].
  exact (proj1 (refresh_books_table_spec (Some filtros_2021) tres_libros ventana
                  eq_refl eq_refl)).
Defined.

(** ** Filtering the table *)

Lemma int64_has_str (z : Z) :
  is_int64 z = true -> Z.abs z < 10 ^ Z.of_nat max_str_digits.
Proof.
  unfold is_int64, int64_min, int64_max. intros H.
  apply andb_true_iff in H. destruct H as [H1 H2].
  apply Z.leb_le in H1, H2.
  assert (H19 : 2 ^ 63 < 10 ^ 19) by reflexivity.
  assert (Hpow : 10 ^ 19 <= 10 ^ Z.of_nat max_str_digits).
  { apply Z.pow_le_mono_r; [ lia | ]. unfold max_str_digits. lia. }
  lia.
Qed.

Lemma decimal_not_all (z : Z) :
  truthy (PStr (decimal z)) = true /\
  String.eqb (decimal z) "Todos" = false /\ String.eqb (decimal z) "Todas" = false.
Proof.
  destruct (decimal_head z) as [c [s [E H]]]. rewrite E.
  split; [ reflexivity | ].
  split; apply String.eqb_neq; intros [= -> _]; discriminate H.
Qed.

(** What the three combo boxes are set to: a year, a genre and a least
    rating, or no choice. *)
Record choice : Type := mk_choice {
  chosen_year : option Z;
  chosen_genre : option string;
  chosen_rating : option Z
}.

(** The window shows the choice: each combo box on the text of the value
    chosen, or on its first entry. *)
Definition shows (v : view) (c : choice) : Prop :=
  year_var v = match chosen_year c with Some z => decimal z | None => "Todos" end /\
  genre_var v = match chosen_genre c with Some g => g | None => "Todos" end /\
  rating_var v = match chosen_rating c with Some n => decimal n | None => "Todas" end.

(** A choice the combo boxes can hold: numbers of 64 bits, a genre that is
    neither empty nor the entry Todos. *)
Definition choice_ok (c : choice) : bool :=
  match chosen_year c with Some z => is_int64 z | None => true end &&
  match chosen_genre c with
  | Some g => negb (String.eqb g "") && negb (String.eqb g "Todos")
  | None => true
  end &&
  match chosen_rating c with Some n => is_int64 n | None => true end.

(** The filters of a choice, in the order [get_filters] sets them. *)
Definition filters_for (c : choice) : pydict :=
  match chosen_year c with Some z => [(PStr "anio_lectura", PInt z)] | None => [] end
  ++ match chosen_genre c with Some g => [(PStr "genero", PStr g)] | None => [] end
  ++ match chosen_rating c with
     | Some n => [(PStr "calificacion_min", PInt n)]
     | None => []
     end.

(** The books of a choice: the year and the genre equal to the ones
    chosen, the rating at least the one chosen. *)
Definition wanted {prims : Primitives} (c : choice) (r : Libro.t) : bool :=
  match chosen_year c with
  | Some z => sql_eq (Libro.anio_lectura r) (VInt z)
  | None => true
  end &&
  match chosen_genre c with
  | Some g => sql_eq (Libro.genero r) (VText g)
  | None => true
  end &&
  match chosen_rating c with
  | Some n => sql_ge (Libro.calificacion r) (VInt n)
  | None => true
  end.

Section FilterBooks.
Context {prims : Primitives}.

Lemma get_filters_choice (v : view) (c : choice) :
  shows v c -> choice_ok c = true -> get_filters v = Ok (filters_for c).
Proof.
  intros [Hy [Hg Hr]] Hok. unfold choice_ok in Hok.
  apply andb_true_iff in Hok. destruct Hok as [Hok Hr64].
  apply andb_true_iff in Hok. destruct Hok as [Hy64 Hgok].
  unfold get_filters, filters_for. rewrite Hy, Hg, Hr.
  destruct c as [[z |] [g |] [n |]];
    cbn [chosen_year chosen_genre chosen_rating] in *;
    repeat match goal with
      | |- context [decimal ?x] =>
          let H := fresh in
          destruct (decimal_not_all x) as [H [? ?]];
          rewrite ?H;
          repeat match goal with E : String.eqb (decimal x) _ = false |- _ =>
                   rewrite ?E; clear E end;
          cbn [py_int andb negb];
          rewrite (int_of_text_decimal x) by (apply int64_has_str; assumption);
          clear H
      end;
    try (apply andb_true_iff in Hgok; destruct Hgok as [Hg1 Hg2];
         apply negb_true_iff in Hg1, Hg2; cbn [truthy]; rewrite Hg1, Hg2);
    reflexivity.
Qed.

Lemma filters_for_ok (c : choice) :
  choice_ok c = true -> forallb filter_ok (filters_for c) = true.
Proof.
  unfold choice_ok, filters_for. intros Hok.
  apply andb_true_iff in Hok. destruct Hok as [Hok Hr64].
  apply andb_true_iff in Hok. destruct Hok as [Hy64 _].
  destruct c as [[z |] [g |] [n |]];
    cbn [chosen_year chosen_genre chosen_rating] in *;
    cbn; rewrite ?Hy64, ?Hr64; reflexivity.
Qed.

Lemma selects_filters_for (c : choice) (r : Libro.t) :
  forallb (fun item => selects item r) (filters_for c) = wanted c r.
Proof.
  unfold filters_for, wanted.
  destruct c as [[z |] [g |] [n |]];
    cbn [chosen_year chosen_genre chosen_rating app forallb];
    unfold selects; cbn [key_is String.eqb Ascii.eqb Bool.eqb];
    cbn [bound operand numeric]; unfold cast;
    rewrite ?andb_true_r, ?andb_assoc; reflexivity.
Qed.

End FilterBooks.

(** X13. With the three combo boxes on a year, a genre and a rating, or on
    their first entry, [filter_books] puts in the table the books whose
    year and genre are the ones chosen and whose rating is at least the one
    chosen, no other book, most recent reading first; a combo box on its
    first entry filters nothing. *)
Theorem filter_books_spec {prims : Primitives}
    (d : db) (v : view) (c : choice)
    (Hshows : shows v c)
    (Hchoice : choice_ok c = true)
    (Hrows : forallb listable (rows (libros d)) = true) :
  exists v',
    filter_books d v = (v', None) /\
    books_table v' =
    map table_row (sort_by fecha_desc (filter (wanted c) (rows (libros d)))).
Proof.
  eexists. unfold filter_books.
  rewrite (get_filters_choice v c Hshows Hchoice).
  rewrite (refresh_books_table_eq (Some (filters_for c)) d v
             (filters_for_ok c Hchoice) Hrows).
  split; [ reflexivity | ]. cbn [books_table]. unfold selected. cbn [filters_of].
  rewrite (filter_ext_in _ _ _ (selects_filters_for c)). reflexivity.
Qed.

Lemma filter_books_spec_witness :
  exists v',
    filter_books tres_libros
      (mk_view "2021" "Terror" "Todas" [] [] [] []) = (v', None) /\
    books_table v' =
    [[PInt 3; PStr "Misery"; PStr "King"; PStr "Terror"; PStr "";
      PInt 2021; PFloat 3; PInt 420; PStr ""]].
Proof.
  exact (filter_books_spec tres_libros
           (mk_view "2021" "Terror" "Todas" [] [] [] [])
           (mk_choice (Some 2021) (Some "Terror") None)
           (conj eq_refl (conj eq_refl eq_refl)) eq_refl eq_refl).
Defined.

(** ** What a refresh does to the filters *)

Lemma populate_filters_reset {prims : Primitives}
    (years genres : list pyobj) (v v' : view) :
  populate_filters years genres v = (v', None) ->
  year_var v' = "Todos" /\ genre_var v' = "Todos" /\ rating_var v' = "Todas".
Proof.
  unfold populate_filters.
  destruct (sorted true years); [ | discriminate ].
  destruct (sorted false genres); [ | discriminate ].
  intros [= <-]. repeat split.
Qed.

Lemma refresh_reset {prims : Primitives}
    (filters : option pydict) (d : db) (v v' : view) :
  _refresh_books_table filters d v = (v', None) ->
  year_var v' = "Todos" /\ genre_var v' = "Todos" /\ rating_var v' = "Todas".
Proof.
  unfold _refresh_books_table.
  destruct (obtener_libros filters d); [ | discriminate ].
  match goal with |- context [match ?x with Ok _ => _ | Raise _ => _ end] =>
    destruct x as [[years genres] | e] end; [ | discriminate ].
  apply populate_filters_reset.
Qed.

(** X14. The choice of the filters does not outlive a refresh.  After any
    [_refresh_books_table] that ended well, whatever filters it showed the
    books of, [get_filters] returns no filter; so [export_to_csv] then
    writes, for a path that is not empty, what [exportar_a_csv] writes with
    no filter, every book of the table, and does nothing for the empty
    path of a cancelled dialog. *)
Theorem filters_do_not_outlive_a_refresh {prims : Primitives}
    (filters : option pydict) (d : db) (v v' : view)
    (Hrefresh : _refresh_books_table filters d v = (v', None)) :
  get_filters v' = Ok [] /\
  forall (file_path : string) (d' : db) (fs : filesystem),
    export_to_csv file_path d' v' fs =
    if String.eqb file_path "" then (fs, None)
    else
      match exportar_a_csv file_path None d' fs with
      | Raise e => (fs, Some (NoSePudoExportar e))
      | Ok (true, fs') => (fs', Some (LibrosExportados file_path))
      | Ok (false, fs') => (fs', Some NoHayLibros)
      end.
Proof.
  destruct (refresh_reset filters d v v' Hrefresh) as [Hy [Hg Hr]].
  assert (Hget : get_filters v' = Ok []).
  { unfold get_filters. rewrite Hy, Hg, Hr. reflexivity. }
  split; [ exact Hget | ].
  intros file_path d' fs. unfold export_to_csv. rewrite Hget. cbn [truthy].
  destruct (String.eqb file_path ""); reflexivity.
Qed.

Lemma filters_do_not_outlive_a_refresh_witness :
  exists v',
    filter_books tres_libros (mk_view "2021" "Terror" "Todas" [] [] [] [])
    = (v', None) /\
    get_filters v' = Ok [] /\
    exists fs',
      export_to_csv "lecturas.csv" tres_libros v' sin_archivos
      = (fs', Some (LibrosExportados "lecturas.csv")) /\
      option_map (count_char LF) (fs' "lecturas.csv") = Some 4%nat.
Proof.
  eexists. split; [ reflexivity | ].
  pose proof (filters_do_not_outlive_a_refresh
                (Some [(PStr "anio_lectura", PInt 2021); (PStr "genero", PStr "Terror")])
                tres_libros (mk_view "2021" "Terror" "Todas" [] [] [] []) _ eq_refl)
    as [Hget Hexport].
  split; [ exact Hget | ].
  eexists. split; [ rewrite Hexport; reflexivity | reflexivity ].
Defined.

(** ** The selected book *)

(** X15. [edit_book] does not open the selected book but the first of the
    whole list: for every id other than 0 the dialog opens with the book of
    the most recent reading (the filter on [id] that [edit_book] passes is
    one [obtener_libros] ignores), and with no book in the table the call
    ends in IndexError.  With no selection it shows the warning. *)
Theorem edit_book_opens_first_listed {prims : Primitives} (book_id : Z) (d : db) :
  edit_book (Some book_id) d =
  (if book_id =? 0 then Ok (inr SeleccionaUnLibro)
   else
     match sort_by fecha_desc (rows (libros d)) with
     | r :: _ => Ok (inl (dict_zip column_names (Libro.tuple r)))
     | [] => Raise IndexError
     end) /\
  edit_book None d = Ok (inr SeleccionaUnLibro).
Proof.
  split; [ | reflexivity ].
  unfold edit_book. cbn [truthy].
  destruct (book_id =? 0); [ reflexivity | ]. cbn [negb].
  rewrite obtener_libros_by_id, obtener_libros_all. cbn [bind].
  destruct (sort_by fecha_desc (rows (libros d))); reflexivity.
Qed.

Lemma forallb_filter {A : Type} (p keep : A -> bool) (l : list A) :
  forallb p l = true -> forallb p (filter keep l) = true.
Proof.
  intros H. apply forallb_forall. intros x Hx. apply filter_In in Hx.
  exact (proj1 (forallb_forall _ _) H x (proj1 Hx)).
Qed.

(** X16. [delete_book] on a selected book, once confirmed, deletes it and
    says so: on a table whose rows are as the forms store them, the rows of
    the selected id are gone from the database, the table of the window
    shows the books that are left, most recent reading first, and the
    message is the one of a deletion.  Without the confirmation nothing
    changes and nothing is said; with no selection, or the id 0, which
    counts as none, the warning is shown and nothing changes. *)
Theorem delete_book_spec {prims : Primitives}
    (book_id : Z) (d : db) (v : view)
    (Hid : is_int64 book_id = true)
    (Hnz : (book_id =? 0) = false)
    (Hrows : forallb listable (rows (libros d)) = true) :
  let left := filter (fun r => negb (Libro.id r =? book_id)) (rows (libros d)) in
  (exists v',
      delete_book (Some book_id) true d v =
      (mk_db (mk_table left (seq (libros d))) (usuario d), v', Some LibroEliminado) /\
      books_table v' = map table_row (sort_by fecha_desc left)) /\
  delete_book (Some book_id) false d v = (d, v, None) /\
  (forall confirm, delete_book None confirm d v = (d, v, Some SeleccionaUnLibro)) /\
  (forall confirm, delete_book (Some 0) confirm d v = (d, v, Some SeleccionaUnLibro)).
Proof.
  intros left. split; [ | split; [ | split ] ].
  - unfold delete_book. cbn [truthy]. rewrite Hnz. cbn [negb].
    rewrite eliminar_libro_eq, Hid. fold left.
    rewrite (refresh_books_table_eq None _ v eq_refl)
      by (apply forallb_filter, Hrows).
    eexists. split; [ reflexivity | ].
    cbn [books_table]. unfold selected. cbn [filters_of forallb libros rows].
    rewrite filter_all by reflexivity. reflexivity.
  - unfold delete_book. cbn [truthy]. rewrite Hnz. reflexivity.
  - reflexivity.
  - reflexivity.
Qed.

Lemma delete_book_spec_witness :
  is_int64 2 = true /\
  forallb listable (rows (libros tres_libros)) = true /\
  exists d' v',
    delete_book (Some 2) true tres_libros ventana = (d', v', Some LibroEliminado) /\
    map Libro.id (rows (libros d')) = [1; 3] /\
    books_table v' =
    [[PInt 1; PStr "It"; PStr "King"; PStr "Terror"; PStr "";
      PInt 2024; PFloat 5; PInt 1138; PStr ""];
     [PInt 3; PStr "Misery"; PStr "King"; PStr "Terror"; PStr "";
      PInt 2021; PFloat 3; PInt 420; PStr ""]].
Proof.
  split; [ reflexivity | ]. split; [ reflexivity | ].
  destruct (proj1 (delete_book_spec 2 tres_libros ventana eq_refl eq_refl eq_refl))
    as [v' [H1 H2]].
  eexists. exists v'. split; [ exact H1 | ]. split; [ reflexivity | exact H2 ].
Defined.

(** ** Updating the profile from its dialog *)

(** A cell of a TEXT column as SQLite leaves it: a TEXT or NULL. *)
Definition text_or_null (v : value) : bool :=
  match v with
  | VText _ | VNull => true
  | VInt _ | VReal _ => false
  end.

(** X17. [update_user] with the name and the email of the dialog changes
    these two and keeps the rest of the profile: when the name is not
    empty and the stored profile has a TEXT or NULL avatar and preferences
    JSON has a form for, the message is the one of an update and
    [obtener_usuario] then returns the profile with the new name and email,
    its id, avatar, preferences and creation time as they were, and the
    time of the call as its update time.  The books are untouched. *)
Theorem update_user_keeps_the_rest {prims : Primitives}
    (now : clock) (nombre email : string) (d : db)
    (u : Usuario.t) (others : list Usuario.t) (text : string) (preferencias : pyobj)
    (Hnombre : String.eqb nombre "" = false)
    (Hrows : rows (usuario d) = u :: others)
    (Hid64 : is_int64 (Usuario.id u) = true)
    (Havatar : text_or_null (Usuario.avatar u) = true)
    (Htext : Usuario.preferencias u = VText text)
    (Hloads : loads text = Ok preferencias)
    (Hjson : json_ok preferencias = true) :
  exists d',
    update_user now [(PStr "nombre", PStr nombre); (PStr "email", PStr email)] d
    = (d', PerfilActualizado) /\
    libros d' = libros d /\
    obtener_usuario d' =
    Ok [(PStr "id", PInt (Usuario.id u)); (PStr "nombre", PStr nombre);
        (PStr "email", PStr email);
        (PStr "avatar", fetch (Usuario.avatar u));
        (PStr "preferencias", preferencias);
        (PStr "fecha_creacion", fetch (Usuario.fecha_creacion u));
        (PStr "fecha_actualizacion", PStr (timestamp now))].
Proof.
  destruct (dumps_ok preferencias Hjson) as [text' Hd].
  pose proof (loads_dumps preferencias text' Hjson Hd) as Hl.
  destruct u as [id nombre0 email0 avatar preferencias0 creacion actualizacion].
  cbn [Usuario.id Usuario.avatar Usuario.preferencias Usuario.fecha_creacion] in *.
  subst preferencias0.
  assert (Hcurrent :
    obtener_usuario d =
    Ok [(PStr "id", PInt id); (PStr "nombre", fetch nombre0);
        (PStr "email", fetch email0); (PStr "avatar", fetch avatar);
        (PStr "preferencias", preferencias);
        (PStr "fecha_creacion", fetch creacion);
        (PStr "fecha_actualizacion", fetch actualizacion)]).
  { unfold obtener_usuario. rewrite Hrows.
    change (getitem "preferencias"
              (dict_zip usuario_column_names
                 (Usuario.tuple
                    (Usuario.mk id nombre0 email0 avatar (VText text) creacion
                       actualizacion))))
      with (@Ok pyobj (PStr text)).
    cbn [bind json_loads]. rewrite Hloads. reflexivity. }
  unfold update_user. cbn [get lookup key_is String.eqb Ascii.eqb Bool.eqb truthy].
  rewrite Hnombre. cbn [negb]. rewrite Hcurrent.
  cbn [merge fold_left setitem_key key_eq String.eqb Ascii.eqb Bool.eqb fst snd].
  set (updated_data :=
         [(PStr "id", PInt id); (PStr "nombre", PStr nombre);
          (PStr "email", PStr email); (PStr "avatar", fetch avatar);
          (PStr "preferencias", preferencias);
          (PStr "fecha_creacion", fetch creacion);
          (PStr "fecha_actualizacion", fetch actualizacion)]).
  assert (Ba : bindable (fetch avatar) = true)
    by (destruct avatar; try discriminate; reflexivity).
  rewrite (actualizar_usuario_eq now updated_data d (PStr nombre) (PStr email)
             id text' eq_refl eq_refl eq_refl eq_refl Ba Hd eq_refl Hid64).
  rewrite andb_false_r.
  assert (Hinfo : update_user_info updated_data = None)
    by (destruct avatar as [| z | q | s]; try discriminate;
        [ reflexivity | destruct s; reflexivity ]).
  rewrite Hinfo.
  eexists. split; [ reflexivity | ]. split; [ reflexivity | ].
  unfold obtener_usuario. cbn [usuario rows]. rewrite Hrows. cbn [map Usuario.id].
  rewrite Z.eqb_refl.
  change (getitem "preferencias"
            (dict_zip usuario_column_names (Usuario.tuple ?r)))
    with (@Ok pyobj (PStr text')).
  cbn [bind json_loads]. rewrite Hl.
  destruct avatar; try discriminate; reflexivity.
Qed.

Lemma update_user_keeps_the_rest_witness :
  exists d',
    update_user segundo_alta
      [(PStr "nombre", PStr "Ana"); (PStr "email", PStr "ana@example.com")]
      primer_inicio
    = (d', PerfilActualizado) /\
    libros d' = libros primer_inicio /\
    obtener_usuario d' =
    Ok [(PStr "id", PInt 1); (PStr "nombre", PStr "Ana");
        (PStr "email", PStr "ana@example.com");
        (PStr "avatar", PStr "default_avatar.png");
        (PStr "preferencias", PDict []);
        (PStr "fecha_creacion", PStr "2025-01-15 18:30:00");
        (PStr "fecha_actualizacion", PStr "2024-11-02 18:30:00")].
Proof.
  exact (update_user_keeps_the_rest segundo_alta "Ana" "ana@example.com"
           primer_inicio (default_usuario enero empty_table) [] "{}" (PDict [])
           eq_refl eq_refl eq_refl eq_refl eq_refl eq_refl eq_refl).
Defined.

(** ** Adding and editing a book from the forms *)

(** The form has a title and an author. *)
Definition form_filled (f : form) : bool :=
  negb (String.eqb (form_titulo f) "") && negb (String.eqb (form_autor f) "").

(** The year and the pages of the form, once converted, fit SQLite's
    INTEGER. *)
Definition form_fits (now : clock) (f : form) : bool :=
  bindable (converted (year now) (form_anio_lectura f))
  && bindable (converted 0 (form_paginas f)).

(** The row a form is stored as, under [id], with [creacion] as its
    creation time: the texts as they are, the year and the pages converted,
    the date of the call as the date of the reading, which no form asks
    for. *)
Definition form_row {prims : Primitives} (now : clock) (f : form) (id : Z)
    (creacion : value) : Libro.t :=
  Libro.mk id
    (VText (form_titulo f)) (VText (form_autor f)) (VText (form_genero f))
    (VText (form_subgenero f))
    (cast AffInteger (bound (converted (year now) (form_anio_lectura f))))
    (cast AffNumeric (VText (today now)))
    (cast AffReal (VReal (form_calificacion f)))
    (cast AffInteger (bound (converted 0 (form_paginas f))))
    (VText (form_editorial f)) (VText (form_comentario f))
    creacion (VText (timestamp now)).

(** The dict of the form after the conversions. *)
Definition converted_form (now : clock) (f : form) : pydict :=
  [(PStr "titulo", PStr (form_titulo f));
   (PStr "autor", PStr (form_autor f));
   (PStr "genero", PStr (form_genero f));
   (PStr "subgenero", PStr (form_subgenero f));
   (PStr "anio_lectura", converted (year now) (form_anio_lectura f));
   (PStr "calificacion", PFloat (form_calificacion f));
   (PStr "paginas", converted 0 (form_paginas f));
   (PStr "editorial", PStr (form_editorial f));
   (PStr "comentario", PStr (form_comentario f))].

Section Forms.
Context {prims : Primitives}.

Lemma convertir_tipos_form (now : clock) (f : form) :
  convertir_tipos now (get_form_data f) = Ok (converted_form now f).
Proof.
  destruct f as [titulo autor genero subgenero anio calificacion paginas
                   editorial comentario].
  unfold convertir_tipos, converted_form, converted, get_form_data.
  cbn [form_titulo form_autor form_genero form_subgenero form_anio_lectura
       form_calificacion form_paginas form_editorial form_comentario].
  rewrite (convertir_text "anio_lectura" (year now) _ anio) by reflexivity.
  cbn [bind].
  destruct (String.eqb_spec anio "") as [-> | _].
  - rewrite (convertir_text "paginas" 0 _ paginas) by reflexivity.
    destruct (String.eqb_spec paginas "") as [-> | _]; reflexivity.
  - rewrite (convertir_text "paginas" 0 _ paginas) by reflexivity.
    destruct (String.eqb_spec paginas "") as [-> | _]; reflexivity.
Qed.

Lemma campos_obligatorios_form (f : form) :
  campos_obligatorios (get_form_data f) = form_filled f.
Proof. reflexivity. Qed.

Lemma bind_param_converted (default : Z) (s : string) :
  bind_param (converted default s) =
  if bindable (converted default s) then Ok (bound (converted default s))
  else Raise OverflowError.
Proof.
  unfold converted. destruct (String.eqb s ""); [ reflexivity | ].
  cbn [bind_param bindable bound]. destruct (is_int64 _); reflexivity.
Qed.

(** The database with the row of the form added under the next rowid. *)
Definition with_form_row (now : clock) (f : form) (d : db) : db :=
  let id := next_rowid Libro.id (libros d) in
  mk_db
    (mk_table (rows (libros d) ++ [form_row now f id (VText (timestamp now))]) id)
    (usuario d).

(** The database with the rows of [book_id] replaced by the row of the
    form. *)
Definition with_form_edit (now : clock) (book_id : Z) (f : form) (d : db) : db :=
  mk_db
    (mk_table
       (map (fun r => if Libro.id r =? book_id
                      then form_row now f (Libro.id r) (Libro.fecha_creacion r)
                      else r)
            (rows (libros d)))
       (seq (libros d)))
    (usuario d).

Lemma crear_libro_form (now : clock) (f : form) (d : db) :
  crear_libro now (converted_form now f) d =
  if form_fits now f then
    if rowid_free Libro.id (libros d) then
      Ok (next_rowid Libro.id (libros d), with_form_row now f d)
    else Raise OperationalError
  else Raise OverflowError.
Proof.
  unfold crear_libro, insert_libro, form_fits.
  change (libro_params now (converted_form now f))
    with (@Ok (list pyobj)
            [PStr (form_titulo f); PStr (form_autor f); PStr (form_genero f);
             PStr (form_subgenero f);
             converted (year now) (form_anio_lectura f);
             PStr (today now); PFloat (form_calificacion f);
             converted 0 (form_paginas f);
             PStr (form_editorial f); PStr (form_comentario f)]).
  cbn [bind mapM]. rewrite !bind_param_converted.
  destruct (bindable (converted (year now) (form_anio_lectura f)));
    [ | reflexivity ].
  destruct (bindable (converted 0 (form_paginas f))); [ | reflexivity ].
  cbn [bind andb libro_of].
  destruct (rowid_free Libro.id (libros d)); reflexivity.
Qed.

Lemma actualizar_libro_form (now : clock) (book_id : Z) (f : form) (d : db) :
  actualizar_libro now book_id (converted_form now f) d =
  if form_fits now f && is_int64 book_id then
    Ok (true, with_form_edit now book_id f d)
  else Raise OverflowError.
Proof.
  unfold actualizar_libro, update_libro, form_fits, with_form_edit.
  change (libro_params now (converted_form now f))
    with (@Ok (list pyobj)
            [PStr (form_titulo f); PStr (form_autor f); PStr (form_genero f);
             PStr (form_subgenero f);
             converted (year now) (form_anio_lectura f);
             PStr (today now); PFloat (form_calificacion f);
             converted 0 (form_paginas f);
             PStr (form_editorial f); PStr (form_comentario f)]).
  cbn [bind mapM app]. rewrite !bind_param_converted.
  destruct (bindable (converted (year now) (form_anio_lectura f)));
    [ | reflexivity ].
  destruct (bindable (converted 0 (form_paginas f))); [ | reflexivity ].
  cbn [bind bind_param andb]. destruct (is_int64 book_id); [ | reflexivity ].
  cbn [bind removelast last libro_of].
  unfold not_null. cbn [Libro.titulo Libro.autor Libro.genero].
  change (is_null (cast AffText (VText ?s))) with false.
  cbn [negb andb]. rewrite andb_false_r.
  cbn [bind]. do 4 f_equal. apply map_ext_all. intros r. rewrite id_is_int.
  reflexivity.
Qed.

(** The message after the refresh of the table: the success, or the
    exception that ended the refresh. *)
Definition after_refresh (success : message) (failure : exn -> message)
    (e : option exn) : message :=
  match e with
  | None => success
  | Some e => failure e
  end.

Lemma add_book_form (now : clock) (f : form) (d : db) (v : view) :
  add_book now f d v =
  if form_filled f then
    if form_fits now f then
      if rowid_free Libro.id (libros d) then
        let refreshed := _refresh_books_table None (with_form_row now f d) v in
        (with_form_row now f d, fst refreshed, clear_form now,
         after_refresh LibroAgregado NoSePudoAgregar (snd refreshed))
      else (d, v, f, NoSePudoAgregar OperationalError)
    else (d, v, f, NoSePudoAgregar OverflowError)
  else (d, v, f, CamposObligatorios).
Proof.
  unfold add_book. rewrite campos_obligatorios_form.
  destruct (form_filled f); [ | reflexivity ]. cbn [negb].
  rewrite convertir_tipos_form. cbn [bind]. rewrite crear_libro_form.
  destruct (form_fits now f); [ | reflexivity ].
  destruct (rowid_free Libro.id (libros d)); [ | reflexivity ].
  cbv zeta.
  destruct (_refresh_books_table None (with_form_row now f d) v) as [v' [e |]];
    reflexivity.
Qed.

Lemma save_book_edit_form (now : clock) (book_id : Z) (f : form) (d : db)
    (v : view) :
  _save_book_edit now book_id f d v =
  if form_filled f then
    if form_fits now f && is_int64 book_id then
      let refreshed :=
        _refresh_books_table None (with_form_edit now book_id f d) v in
      (with_form_edit now book_id f d, fst refreshed,
       after_refresh LibroActualizado NoSePudoActualizar (snd refreshed))
    else (d, v, NoSePudoActualizar OverflowError)
  else (d, v, CamposObligatorios).
Proof.
  unfold _save_book_edit, update_book. rewrite campos_obligatorios_form.
  destruct (form_filled f); [ | reflexivity ]. cbn [negb].
  rewrite convertir_tipos_form. cbn [bind]. rewrite actualizar_libro_form.
  destruct (form_fits now f && is_int64 book_id); [ | reflexivity ].
  cbv zeta.
  destruct (_refresh_books_table None (with_form_edit now book_id f d) v)
    as [v' [e |]]; reflexivity.
Qed.

End Forms.

(** X18. [add_book] on the form of the window.  With an empty title or
    author it stores nothing and shows the message of the required fields.
    With a year or a page count that is a number beyond 64 bits it stores
    nothing and the message carries OverflowError; on a table whose next
    rowid is past 2^63 - 1, nothing and OperationalError.  In these three
    cases the form and the table of the window stay as they are.  Otherwise
    it stores one row, under the next rowid, holding the texts of the form
    as they are (an empty genre included), the year and the pages as the
    conversion left them, and the date of the call as the date of the
    reading; it clears the form, to the year of the call and the rating
    3.0; it refreshes the table of the window from the new database; and it
    shows the message of success, unless the refresh raised, in which case
    the row is stored all the same and the message carries the exception of
    the refresh. *)
Theorem add_book_from_form {prims : Primitives}
    (now : clock) (f : form) (d : db) (v : view) :
  let outcome := add_book now f d v in
  let id := next_rowid Libro.id (libros d) in
  let d' :=
    mk_db
      (mk_table (rows (libros d) ++ [form_row now f id (VText (timestamp now))]) id)
      (usuario d) in
  if form_filled f then
    if form_fits now f then
      if id <=? 2 ^ 63 - 1 then
        outcome =
        (d', fst (_refresh_books_table None d' v),
         mk_form "" "" "" "" (decimal (year now)) 3 "" "" "",
         match snd (_refresh_books_table None d' v) with
         | None => LibroAgregado
         | Some e => NoSePudoAgregar e
         end)
      else outcome = (d, v, f, NoSePudoAgregar OperationalError)
    else outcome = (d, v, f, NoSePudoAgregar OverflowError)
  else outcome = (d, v, f, CamposObligatorios).
Proof.
  intros outcome id d'. subst outcome id d'. rewrite add_book_form.
  change (rowid_free Libro.id (libros d))
    with (next_rowid Libro.id (libros d) <=? 2 ^ 63 - 1).
  destruct (form_filled f), (form_fits now f),
    (next_rowid Libro.id (libros d) <=? 2 ^ 63 - 1); reflexivity.
Qed.

(** A table with a year kept as text beside years kept as numbers. *)
Definition anio_en_texto : db :=
  mk_db
    (mk_table
       [Libro.mk 1 (VText "It") (VText "King") (VText "Terror") (VText "")
          (VInt 2024) (VText "2024-10-31") (VReal 5) (VInt 1138) (VText "")
          (VText "") (VText "2024-11-01 09:00:00") (VText "2024-11-01 09:00:00");
        Libro.mk 2 (VText "Dune") (VText "Herbert") (VText "Novela") (VText "")
          (VText "MMXXI") (VText "2021-03-02") (VReal 4) (VInt 600) (VText "")
          (VText "") (VText "2024-11-01 09:05:00") (VText "2024-11-01 09:05:00");
        Libro.mk 3 (VText "Misery") (VText "King") (VText "Terror") (VText "")
          (VInt 2021) (VText "2021-07-19") (VReal 3) (VInt 420) (VText "")
          (VText "") (VText "2024-11-01 09:10:00") (VText "2024-11-01 09:10:00")]
       3)
    empty_table.

Lemma add_book_from_form_witness :
  (exists d' v',
      add_book enero formulario_texto tres_libros ventana
      = (d', v', clear_form enero, LibroAgregado) /\
      map Libro.id (rows (libros d')) = [1; 2; 3; 4] /\
      map Libro.anio_lectura (rows (libros d'))
      = [VInt 2024; VInt 2021; VInt 2021; VInt 2025] /\
      List.length (books_table v') = 4%nat /\
      year_values v' = [PStr "Todos"; PInt 2025; PInt 2024; PInt 2021]) /\
  (exists d' v',
      add_book enero formulario_texto anio_en_texto ventana
      = (d', v', clear_form enero, NoSePudoAgregar TypeError) /\
      map Libro.id (rows (libros d')) = [1; 2; 3; 4] /\
      List.length (books_table v') = 4%nat /\
      year_values v' = []) /\
  add_book enero formulario_texto tabla_llena ventana
  = (tabla_llena, ventana, formulario_texto, NoSePudoAgregar OperationalError) /\
  add_book enero (mk_form "Dune" "" "Novela" "" "" 3 "" "" "") tres_libros ventana
  = (tres_libros, ventana, mk_form "Dune" "" "Novela" "" "" 3 "" "" "",
     CamposObligatorios).
Proof.
  split; [ | split; [ | split ] ].
  - pose proof (add_book_from_form enero formulario_texto tres_libros ventana) as H.
    eexists. eexists. split; [ exact H | ]. repeat split; reflexivity.
  - pose proof (add_book_from_form enero formulario_texto anio_en_texto ventana) as H.
    eexists. eexists. split; [ exact H | ]. repeat split; reflexivity.
  - exact (add_book_from_form enero formulario_texto tabla_llena ventana).
  - exact (add_book_from_form enero (mk_form "Dune" "" "Novela" "" "" 3 "" "" "")
             tres_libros ventana).
Defined.

(** X19. Saving the dialog of an edit replaces the book by what the dialog
    holds and moves the date of its reading to the day of the call, since
    the dialog has no field for it: every row of the id gets the texts, the
    converted year and pages and the rating of the dialog, today as its
    reading date and now as its update time, and keeps its id and creation
    time; the other rows are unchanged; the table of the window is
    refreshed from the new database, and the message is the success unless
    the refresh raised.  An empty title or author stores nothing, and so
    does a number beyond 64 bits. *)
Theorem save_book_edit_spec {prims : Primitives}
    (now : clock) (book_id : Z) (f : form) (d : db) (v : view) :
  let outcome := _save_book_edit now book_id f d v in
  let d' :=
    mk_db
      (mk_table
         (map (fun r => if Libro.id r =? book_id
                        then form_row now f (Libro.id r) (Libro.fecha_creacion r)
                        else r)
              (rows (libros d)))
         (seq (libros d)))
      (usuario d) in
  if form_filled f then
    if form_fits now f && is_int64 book_id then
      outcome =
      (d', fst (_refresh_books_table None d' v),
       match snd (_refresh_books_table None d' v) with
       | None => LibroActualizado
       | Some e => NoSePudoActualizar e
       end)
    else outcome = (d, v, NoSePudoActualizar OverflowError)
  else outcome = (d, v, CamposObligatorios).
Proof.
  intros outcome d'. subst outcome d'. rewrite save_book_edit_form.
  destruct (form_filled f), (form_fits now f && is_int64 book_id); reflexivity.
Qed.

(** ** The rows the window stores *)

Lemma form_row_listable {prims : Primitives} (now : clock) (f : form) (id : Z)
    (creacion : value) :
  text_numeric "" = None -> listable (form_row now f id creacion) = true.
Proof.
  intros Hempty. unfold listable, form_row, converted.
  cbn [Libro.anio_lectura Libro.genero]. rewrite andb_true_r.
  destruct (String.eqb (form_anio_lectura f) "").
  - unfold cast. cbn [bound numeric]. rewrite Hempty. reflexivity.
  - reflexivity.
Qed.

(** X20. The window keeps the table as its forms store it, so its refresh
    does not fail: when SQLite leaves the empty text as it is in an INTEGER
    column and the rows have an INTEGER, NULL or empty year and a TEXT or
    NULL genre, so do the rows [add_book], the saving of an edit and
    [delete_book] leave, and [_refresh_books_table] with no filter ends
    without an exception on each of them. *)
Theorem window_keeps_rows_listable {prims : Primitives}
    (now : clock) (f : form) (book_id : Z) (selection : option Z) (confirm : bool)
    (d : db) (v : view)
    (Hempty : text_numeric "" = None)
    (Hrows : forallb listable (rows (libros d)) = true) :
  let still_listable (d' : db) :=
    forallb listable (rows (libros d')) = true /\
    forall v', snd (_refresh_books_table None d' v') = None in
  still_listable (fst (fst (fst (add_book now f d v)))) /\
  still_listable (fst (fst (_save_book_edit now book_id f d v))) /\
  still_listable (fst (fst (delete_book selection confirm d v))).
Proof.
  intros still_listable.
  assert (Hstill : forall d', forallb listable (rows (libros d')) = true ->
                              still_listable d').
  { intros d' H. split; [ exact H | ]. intros v'.
    rewrite (refresh_books_table_eq None d' v' eq_refl H). reflexivity. }
  assert (Hsame : still_listable d) by (apply Hstill, Hrows).
  split; [ | split ].
  - rewrite add_book_form.
    destruct (form_filled f), (form_fits now f),
      (rowid_free Libro.id (libros d)); try exact Hsame.
    apply Hstill. cbn [fst with_form_row libros rows].
    rewrite forallb_app, Hrows.
    cbn [forallb]. rewrite form_row_listable by exact Hempty. reflexivity.
  - rewrite save_book_edit_form.
    destruct (form_filled f), (form_fits now f && is_int64 book_id);
      try exact Hsame.
    apply Hstill. cbn [fst with_form_edit libros rows].
    apply forallb_forall. intros r Hr.
    apply in_map_iff in Hr. destruct Hr as [r0 [<- Hr0]].
    destruct (Libro.id r0 =? book_id).
    + apply form_row_listable, Hempty.
    + exact (proj1 (forallb_forall _ _) Hrows r0 Hr0).
  - unfold delete_book. destruct selection as [id |]; [ | exact Hsame ].
    destruct (truthy (PInt id)); [ | exact Hsame ].
    destruct confirm; [ | exact Hsame ].
    rewrite eliminar_libro_eq. destruct (is_int64 id); [ | exact Hsame ].
    rewrite (refresh_books_table_eq None _ v eq_refl)
      by (apply forallb_filter, Hrows).
    apply Hstill. cbn [fst libros rows]. apply forallb_filter, Hrows.
Qed.

Definition formulario_dune : form :=
  mk_form "Dune" "Herbert" "Novela" "" "" 4 "abc" "" "".

Lemma window_keeps_rows_listable_witness :
  text_numeric "" = None /\
  forallb listable (rows (libros tres_libros)) = true /\
  forallb listable
    (rows (libros (fst (fst (fst (add_book enero formulario_dune tres_libros
                                    ventana))))))
  = true /\
  snd (_refresh_books_table None
         (fst (fst (fst (add_book enero formulario_dune tres_libros ventana))))
         ventana)
  = None.
Proof.
  split; [ reflexivity | ]. split; [ reflexivity | ].
  destruct (proj1 (window_keeps_rows_listable (prims := sample) enero
                     formulario_dune 1 None false tres_libros ventana
                     eq_refl eq_refl)) as [H1 H2].
  split; [ exact H1 | exact (H2 ventana) ].
Defined.

(** ** Exporting what the filters choose *)

(** X21. [export_to_csv] writes the books of the choice the combo boxes
    show: on a table whose cells all have a text, for a path that is not
    empty, when no book is of the choice it writes nothing and shows the
    warning; otherwise the file at the path holds the header and one record
    per book of the choice, most recent reading first, and the message
    names the path. *)
Theorem export_to_csv_spec {prims : Primitives}
    (file_path : string) (d : db) (v : view) (c : choice) (fs : filesystem)
    (Hpath : String.eqb file_path "" = false)
    (Hshows : shows v c)
    (Hchoice : choice_ok c = true)
    (Hrows : forallb printable_row (rows (libros d)) = true) :
  export_to_csv file_path d v fs =
  match sort_by fecha_desc (filter (wanted c) (rows (libros d))) with
  | [] => (fs, Some NoHayLibros)
  | books =>
      (write_file file_path
         (csv_header ++ String.concat "" (map csv_record books)) fs,
       Some (LibrosExportados file_path))
  end.
Proof.
  unfold export_to_csv. rewrite (get_filters_choice v c Hshows Hchoice).
  cbn [truthy]. rewrite Hpath. cbn [negb].
  unfold exportar_a_csv.
  rewrite (obtener_libros_is_selected (Some (filters_for c)) d
             (filters_for_ok c Hchoice)).
  cbn [bind]. unfold selected. cbn [filters_of].
  rewrite (filter_ext_in _ _ _ (selects_filters_for c)).
  assert (Hsel : forallb printable_row
                   (sort_by fecha_desc (filter (wanted c) (rows (libros d)))) = true).
  { apply forallb_forall. intros r Hr.
    apply (Permutation_in _ (sort_by_perm _ _ _)) in Hr.
    apply filter_In in Hr.
    exact (proj1 (forallb_forall _ _) Hrows r (proj1 Hr)). }
  destruct (sort_by fecha_desc (filter (wanted c) (rows (libros d))))
    as [| r0 rs]; [ reflexivity | ].
  cbn [map]. cbv zeta.
  change (map fst (dict_zip column_names (Libro.tuple r0)))
    with (map PStr column_names).
  change (dict_zip column_names (Libro.tuple r0)
          :: map (dict_zip column_names) (map Libro.tuple rs))
    with (map (dict_zip column_names) (map Libro.tuple (r0 :: rs))).
  rewrite (csv_text_selected (r0 :: rs) Hsel). reflexivity.
Qed.

Lemma export_to_csv_spec_witness :
  forallb printable_row (rows (libros tres_libros)) = true /\
  exists fs',
    export_to_csv "lecturas.csv" tres_libros
      (mk_view "2021" "Todos" "4" [] [] [] []) sin_archivos
    = (fs', Some (LibrosExportados "lecturas.csv")) /\
    option_map (count_char LF) (fs' "lecturas.csv") = Some 2%nat /\
    export_to_csv "lecturas.csv" tres_libros
      (mk_view "Todos" "Novela" "5" [] [] [] []) sin_archivos
    = (sin_archivos, Some NoHayLibros).
Proof.
  split; [ reflexivity | ].
  eexists. split; [ | split ].
  - exact (export_to_csv_spec "lecturas.csv" tres_libros
             (mk_view "2021" "Todos" "4" [] [] [] [])
             (mk_choice (Some 2021) None (Some 4)) sin_archivos
             eq_refl (conj eq_refl (conj eq_refl eq_refl)) eq_refl eq_refl).
  - reflexivity.
  - exact (export_to_csv_spec "lecturas.csv" tres_libros
             (mk_view "Todos" "Novela" "5" [] [] [] [])
             (mk_choice None (Some "Novela") (Some 5)) sin_archivos
             eq_refl (conj eq_refl (conj eq_refl eq_refl)) eq_refl eq_refl).
Defined.

(** ** Updating a book and asking for it back *)

Lemma actualizar_libro_replaced {prims : Primitives}
    (now : clock) (libro_id : Z) (libro_data : pydict) (d : db) :
  is_int64 libro_id = true -> is_int64 (year now) = true ->
  valid_libro_data libro_data = true ->
  actualizar_libro now libro_id libro_data d =
  Ok (true,
      mk_db
        (mk_table
           (map (fun r => if Libro.id r =? libro_id
                          then replaced now libro_data r else r)
                (rows (libros d)))
           (seq (libros d)))
        (usuario d)).
Proof.
  intros Hid Hyear Hdata. unfold valid_libro_data in Hdata.
  repeat (apply andb_true_iff in Hdata; destruct Hdata as [Hdata ?]).
  destruct (required_get _ _ Hdata) as [Gt [Bt Nt]].
  match goal with H : required "autor" _ = true |- _ =>
    destruct (required_get _ _ H) as [Ga [Ba Na]] end.
  match goal with H : required "genero" _ = true |- _ =>
    destruct (required_get _ _ H) as [Gg [Bg Ng]] end.
  unfold actualizar_libro, libro_params, update_libro.
  rewrite Gt, Ga, Gg. simpl.
  rewrite (bind_param_bound _ Bt), (bind_param_bound _ Ba), (bind_param_bound _ Bg).
  simpl.
  repeat (rewrite bind_param_bound by (apply optional_get; [ assumption | auto ]);
          simpl).
  rewrite Hid. simpl.
  unfold not_null; simpl.
  rewrite (cast_text_not_null _ Bt Nt), (cast_text_not_null _ Ba Na),
    (cast_text_not_null _ Bg Ng).
  simpl. rewrite andb_false_r. simpl.
  rewrite (map_ext_all _ (fun r => if Libro.id r =? libro_id
                                   then replaced now libro_data r else r));
    [ reflexivity | ].
  intros r. rewrite id_is_int. reflexivity.
Qed.

Lemma find_map_id (libro_id : Z) (f : Libro.t -> Libro.t) (l : list Libro.t)
    (r : Libro.t) :
  (forall x, Libro.id (f x) = Libro.id x) ->
  find (fun x => Libro.id x =? libro_id) l = Some r ->
  find (fun x => Libro.id x =? libro_id) (map f l) = Some (f r).
Proof.
  intros Hf. induction l as [| x l IH]; simpl; [ discriminate | ].
  rewrite Hf. destruct (Libro.id x =? libro_id).
  - intros [= ->]. reflexivity.
  - exact IH.
Qed.

(** X22. A book that [actualizar_libro] updated is read back as updated:
    for an id a book has and a dict the table accepts,
    [generar_informe_lectura] on the id then gives the thirteen fields of
    the row with its ten fields replaced from the dict, id and creation time
    kept, and the same total of books as before. *)
Theorem actualizar_libro_then_informe {prims : Primitives}
    (now : clock) (libro_id : Z) (libro_data : pydict) (d : db) (r : Libro.t)
    (Hid : is_int64 libro_id = true)
    (Hyear : is_int64 (year now) = true)
    (Hdata : valid_libro_data libro_data = true)
    (Hfind : find (fun x => Libro.id x =? libro_id) (rows (libros d)) = Some r) :
  exists d',
    actualizar_libro now libro_id libro_data d = Ok (true, d') /\
    generar_informe_lectura libro_id d' =
    Ok (dict_zip column_names (Libro.tuple (replaced now libro_data r)) ++
        [(PStr "total_libros_leidos",
          PInt (Z.of_nat (List.length (rows (libros d)))));
         (PStr "promedio_calificacion_global",
          promedio_calificacion (obtener_estadisticas d'))]).
Proof.
  eexists. split; [ apply actualizar_libro_replaced; assumption | ].
  unfold generar_informe_lectura, select_libro_by_id.
  cbn [mapM bind bind_param]. rewrite Hid. cbn [bind libros rows].
  rewrite (filter_ext_in _ _ _ (id_is_int libro_id)).
  assert (Hfind' :
    find (fun x => Libro.id x =? libro_id)
      (map (fun x => if Libro.id x =? libro_id then replaced now libro_data x else x)
         (rows (libros d)))
    = Some (replaced now libro_data r)).
  { rewrite (find_map_id libro_id _ _ r); [ | | exact Hfind ].
    - apply find_some in Hfind. destruct Hfind as [_ E]. cbv beta in E.
      rewrite E. reflexivity.
    - intros x. destruct (Libro.id x =? libro_id); reflexivity. }
  destruct (filter_find _ _ _ Hfind') as [l' ->].
  cbn [map]. set (stats := obtener_estadisticas _).
  assert (Htotal : total_libros stats = Z.of_nat (List.length (rows (libros d)))).
  { subst stats. unfold obtener_estadisticas. cbn [total_libros libros rows].
    rewrite length_map. reflexivity. }
  rewrite Htotal. reflexivity.
Qed.

Lemma actualizar_libro_then_informe_witness :
  exists d',
    actualizar_libro enero 1 libro_completo informe_example_db = Ok (true, d') /\
    generar_informe_lectura 1 d' =
    Ok (dict_zip column_names
          [VInt 1; VText "It"; VText "Stephen King"; VText "Terror"; VText "";
           VInt 2024; VText "2025-01-15"; VReal 4.5; VInt 1138; VText "Viking";
           VText "Releido."; VText "2024-11-01 09:00:00";
           VText "2025-01-15 18:30:00"]
        ++ [(PStr "total_libros_leidos", PInt 1);
            (PStr "promedio_calificacion_global", PFloat (9 # 2))]).
Proof.
  destruct (actualizar_libro_then_informe enero 1 libro_completo informe_example_db
              _ eq_refl eq_refl eq_refl eq_refl) as [d' [H1 H2]].
  exists d'. split; [ exact H1 | ].
  etransitivity; [ exact H2 | ].
  cbv in H1. injection H1 as <-. reflexivity.
Defined.

(** ** A refresh that fails *)

(** The kind of an object for [<]: a number, a str, or neither. *)
Inductive kind : Type := Number | Text | Other.

Definition kind_of (o : pyobj) : kind :=
  match o with
  | PBool _ | PInt _ | PFloat _ => Number
  | PStr _ => Text
  | PNone | PList _ | PDict _ => Other
  end.

Lemma py_lt_kinds (x y : pyobj) (b : bool) :
  py_lt x y = Ok b -> kind_of x = kind_of y /\ kind_of x <> Other.
Proof.
  destruct x, y; simpl; intros H; try discriminate; split;
    try reflexivity; discriminate.
Qed.

Lemma py_lt_raises (x y : pyobj) (e : exn) : py_lt x y = Raise e -> e = TypeError.
Proof.
  destruct x, y; simpl; intros H; try discriminate; injection H as <-; reflexivity.
Qed.

Lemma insert_sorted_raises (x : pyobj) (l : list pyobj) (e : exn) :
  insert_sorted x l = Raise e -> e = TypeError.
Proof.
  induction l as [| y l IH]; simpl; [ discriminate | ].
  destruct (py_lt y x) as [less | e'] eqn:E; simpl.
  - destruct less; [ | discriminate ].
    destruct (insert_sorted x l); simpl; [ discriminate | ].
    intros [= <-]. apply IH. reflexivity.
  - intros [= <-]. exact (py_lt_raises _ _ _ E).
Qed.

Lemma sort_list_raises (l : list pyobj) (e : exn) :
  sort_list l = Raise e -> e = TypeError.
Proof.
  induction l as [| x l IH]; simpl; [ discriminate | ].
  destruct (sort_list l) as [s |]; simpl.
  - apply insert_sorted_raises.
  - intros [= <-]. apply IH. reflexivity.
Qed.

Lemma insert_sorted_perm (x : pyobj) (l l' : list pyobj) :
  insert_sorted x l = Ok l' -> Permutation l' (x :: l).
Proof.
  revert l'. induction l as [| y l IH]; simpl; intros l' H.
  - injection H as <-. apply Permutation_refl.
  - apply bind_ok in H. destruct H as [less [_ H]]. destruct less.
    + apply bind_ok in H. destruct H as [l'' [Hl H]]. injection H as <-.
      apply perm_trans with (y :: x :: l);
        [ apply perm_skip, IH, Hl | apply perm_swap ].
    + injection H as <-. apply Permutation_refl.
Qed.

Lemma sort_list_perm (l l' : list pyobj) :
  sort_list l = Ok l' -> Permutation l' l.
Proof.
  revert l'. induction l as [| x l IH]; simpl; intros l' H.
  - injection H as <-. apply perm_nil.
  - apply bind_ok in H. destruct H as [s [Hs H]].
    apply perm_trans with (x :: s);
      [ apply insert_sorted_perm, H | apply perm_skip, IH, Hs ].
Qed.

(** A list [sorted] can sort holds one element at most, or elements of one
    kind. *)
Lemma sort_list_one_kind (l l' : list pyobj) :
  sort_list l = Ok l' ->
  (List.length l <= 1)%nat \/ exists k, Forall (fun x => kind_of x = k) l.
Proof.
  revert l'. induction l as [| x t IH]; simpl; intros l' H; [ left; lia | ].
  apply bind_ok in H. destruct H as [s [Hs H]].
  pose proof (sort_list_perm _ _ Hs) as Hperm.
  destruct s as [| y s'].
  - apply Permutation_nil in Hperm. subst t. left. simpl. lia.
  - right. simpl in H. apply bind_ok in H. destruct H as [less [Hlt _]].
    apply py_lt_kinds in Hlt. destruct Hlt as [Hk _].
    assert (Hy : In y t) by (apply (Permutation_in _ Hperm); left; reflexivity).
    exists (kind_of x). constructor; [ reflexivity | ].
    destruct (IH _ Hs) as [Hlen | [k Hall]].
    + destruct t as [| y' [| ? ?]]; simpl in Hlen; try lia; [ destruct Hy | ].
      destruct Hy as [-> | []]. constructor; [ exact Hk | constructor ].
    + pose proof (proj1 (Forall_forall _ _) Hall y Hy) as Hyk.
      apply Forall_forall. intros z Hz.
      rewrite (proj1 (Forall_forall _ _) Hall z Hz). congruence.
Qed.

Lemma sorted_mixed (reverse : bool) (l : list pyobj) (a b : pyobj) :
  In a l -> In b l -> kind_of a = Number -> kind_of b = Text ->
  sorted reverse l = Raise TypeError.
Proof.
  intros Ha Hb Ka Kb.
  assert (Hmixed : forall l0, In a l0 -> In b l0 -> sort_list l0 = Raise TypeError).
  { intros l0 Ha0 Hb0. destruct (sort_list l0) as [l' | e] eqn:E.
    - exfalso. destruct (sort_list_one_kind _ _ E) as [Hlen | [k Hall]].
      + destruct l0 as [| x [| ? ?]]; simpl in Hlen; try lia; [ destruct Ha0 | ].
        destruct Ha0 as [-> | []], Hb0 as [-> | []]. congruence.
      + pose proof (proj1 (Forall_forall _ _) Hall a Ha0).
        pose proof (proj1 (Forall_forall _ _) Hall b Hb0). congruence.
    - rewrite (sort_list_raises _ _ E). reflexivity. }
  unfold sorted. destruct reverse.
  - rewrite Hmixed by (apply -> in_rev; assumption). reflexivity.
  - apply Hmixed; assumption.
Qed.

Lemma key_eq_kind (a x : pyobj) : key_eq a x = true -> kind_of x = kind_of a.
Proof. destruct a, x; simpl; intros H; try discriminate; reflexivity. Qed.

Section Mixed.
Context {prims : Primitives}.

(** The set of a comprehension over the books of a table is always there,
    and holds an element of the kind of every value that is true. *)
Lemma set_of_rows (key : string) (cell : Libro.t -> value) (rs : list Libro.t) :
  (forall r, lookup key (book_of r) = Some (fetch (cell r))) ->
  forall s, exists s',
    set_of key (map book_of rs) s = Ok s' /\
    (forall x, In x s -> In x s') /\
    (forall r, In r rs -> truthy (fetch (cell r)) = true ->
               exists x, In x s' /\ kind_of x = kind_of (fetch (cell r))).
Proof.
  intros Hcell. induction rs as [| r rs IH]; intros s; cbn [map set_of].
  - exists s. split; [ reflexivity | ]. split; [ auto | intros r [] ].
  - unfold get, getitem. rewrite Hcell.
    destruct (truthy (fetch (cell r))) eqn:Ht.
    + cbn [bind].
      assert (Hadd : exists s1, set_add (fetch (cell r)) s = Ok s1 /\
                                (forall x, In x s -> In x s1) /\
                                exists x, In x s1 /\
                                          kind_of x = kind_of (fetch (cell r))).
      { unfold set_add.
        destruct (existsb (key_eq (fetch (cell r))) s) eqn:E.
        - exists s. apply existsb_exists in E. destruct E as [x [Hx E]].
          split; [ destruct (cell r); reflexivity | ]. split; [ auto | ].
          exists x. split; [ exact Hx | apply key_eq_kind, E ].
        - exists (s ++ [fetch (cell r)]).
          split; [ destruct (cell r); reflexivity | ].
          split; [ intros x Hx; apply in_or_app; auto | ].
          exists (fetch (cell r)). split; [ | reflexivity ].
          apply in_or_app. right. left. reflexivity. }
      destruct Hadd as [s1 [-> [Hsub [x [Hx Hk]]]]]. cbn [bind].
      destruct (IH s1) as [s' [-> [Hsub' Hall]]].
      exists s'. split; [ reflexivity | ]. split; [ auto | ].
      intros r' [<- | Hr'] Ht'; [ exists x; auto | apply Hall; assumption ].
    + destruct (IH s) as [s' [-> [Hsub' Hall]]].
      exists s'. split; [ reflexivity | ]. split; [ auto | ].
      intros r' [<- | Hr'] Ht'; [ congruence | apply Hall; assumption ].
Qed.

End Mixed.

(** A row whose year is an INTEGER other than 0, and one whose year is a
    TEXT that is not empty. *)
Definition int_year (r : Libro.t) : bool :=
  match Libro.anio_lectura r with
  | VInt z => negb (z =? 0)
  | _ => false
  end.

Definition text_year (r : Libro.t) : bool :=
  match Libro.anio_lectura r with
  | VText s => negb (String.eqb s "")
  | _ => false
  end.

Lemma refresh_books_table_mixed {prims : Primitives}
    (filters : option pydict) (d : db) (v : view) :
  forallb filter_ok (filters_of filters) = true ->
  existsb int_year (rows (libros d)) = true ->
  existsb text_year (rows (libros d)) = true ->
  _refresh_books_table filters d v =
  (mk_view (year_var v) (genre_var v) (rating_var v)
     (year_values v) (genre_values v) (rating_values v)
     (map table_row (selected filters d)),
   Some TypeError).
Proof.
  intros Hf Hint Htext. unfold _refresh_books_table.
  rewrite (obtener_libros_is_selected filters d Hf), obtener_libros_all.
  cbn [bind]. rewrite !map_map.
  change (fun x => dict_zip column_names (Libro.tuple x)) with book_of.
  destruct (set_of_rows "anio_lectura" Libro.anio_lectura
              (sort_by fecha_desc (rows (libros d)))
              (fun r => ltac:(destruct r; reflexivity)) [])
    as [years [-> [_ Hyears]]].
  destruct (set_of_rows "genero" Libro.genero
              (sort_by fecha_desc (rows (libros d)))
              (fun r => ltac:(destruct r; reflexivity)) [])
    as [genres [-> _]].
  cbn [bind].
  apply existsb_exists in Hint. destruct Hint as [ri [Hri Hi]].
  apply existsb_exists in Htext. destruct Htext as [rt [Hrt Ht]].
  apply (Permutation_in _ (Permutation_sym (sort_by_perm _ fecha_desc _))) in Hri, Hrt.
  unfold int_year in Hi. unfold text_year in Ht.
  destruct (Libro.anio_lectura ri) as [| z | |] eqn:Ei; try discriminate.
  destruct (Libro.anio_lectura rt) as [| | | s] eqn:Et; try discriminate.
  destruct (Hyears ri Hri) as [a [Ha Ka]]; [ rewrite Ei; exact Hi | ].
  destruct (Hyears rt Hrt) as [b [Hb Kb]]; [ rewrite Et; exact Ht | ].
  rewrite Ei in Ka. rewrite Et in Kb.
  rewrite (sorted_mixed true years a b Ha Hb Ka Kb). cbn [bind].
  unfold populate_books_table. rewrite map_map.
  rewrite (map_ext_all _ table_row) by apply table_row_of.
  reflexivity.
Qed.

(** X23. A year stored as text beside a year stored as a number breaks the
    refresh: when one book has an INTEGER year other than 0 and another a
    TEXT year that is not empty, [_refresh_books_table] fills the table of
    the window with the books of the filters and then ends in TypeError,
    the combo boxes left as they were; [delete_book] on such a table
    deletes the confirmed book and then shows the message that it could not
    be deleted. *)
Theorem refresh_fails_on_mixed_years {prims : Primitives}
    (filters : option pydict) (book_id : Z) (d : db) (v : view)
    (Hfilters : forallb filter_ok (filters_of filters) = true)
    (Hid : is_int64 book_id = true)
    (Hnz : (book_id =? 0) = false)
    (Hint : existsb (fun r => int_year r && negb (Libro.id r =? book_id))
              (rows (libros d)) = true)
    (Htext : existsb (fun r => text_year r && negb (Libro.id r =? book_id))
               (rows (libros d)) = true) :
  let left := filter (fun r => negb (Libro.id r =? book_id)) (rows (libros d)) in
  _refresh_books_table filters d v =
  (mk_view (year_var v) (genre_var v) (rating_var v)
     (year_values v) (genre_values v) (rating_values v)
     (map table_row (selected filters d)),
   Some TypeError) /\
  delete_book (Some book_id) true d v =
  (mk_db (mk_table left (seq (libros d))) (usuario d),
   mk_view (year_var v) (genre_var v) (rating_var v)
     (year_values v) (genre_values v) (rating_values v)
     (map table_row (sort_by fecha_desc left)),
   Some (NoSePudoEliminar TypeError)).
Proof.
  intros left.
  assert (Hleft : forall p, existsb (fun r => p r && negb (Libro.id r =? book_id))
                              (rows (libros d)) = true ->
                            existsb p (rows (libros d)) = true /\
                            existsb p left = true).
  { intros p H. apply existsb_exists in H. destruct H as [r [Hr H]].
    apply andb_true_iff in H. destruct H as [Hp Hne].
    split; apply existsb_exists; exists r; (split; [ | exact Hp ]);
      [ exact Hr | apply filter_In; auto ]. }
  destruct (Hleft _ Hint) as [Hint1 Hint2].
  destruct (Hleft _ Htext) as [Htext1 Htext2].
  split; [ apply refresh_books_table_mixed; assumption | ].
  unfold delete_book. cbn [truthy]. rewrite Hnz. cbn [negb].
  rewrite eliminar_libro_eq, Hid. fold left.
  rewrite (refresh_books_table_mixed None
             (mk_db (mk_table left (seq (libros d))) (usuario d)) v
             eq_refl Hint2 Htext2).
  unfold selected. cbn [filters_of forallb libros rows].
  rewrite filter_all by reflexivity. reflexivity.
Qed.

Lemma refresh_fails_on_mixed_years_witness :
  exists d' v',
    delete_book (Some 3) true anio_en_texto ventana
    = (d', v', Some (NoSePudoEliminar TypeError)) /\
    map Libro.id (rows (libros d')) = [1; 2] /\
    snd (_refresh_books_table None anio_en_texto ventana) = Some TypeError.
Proof.
  destruct (refresh_fails_on_mixed_years None 3 anio_en_texto ventana
              eq_refl eq_refl eq_refl eq_refl eq_refl) as [H1 H2].
  eexists. eexists. split; [ exact H2 | ]. split; [ reflexivity | ].
  rewrite H1. reflexivity.
Defined.
